(** * LLM-Router: the intent router, its escalation state and its two handlers

    A shallow embedding of [router.py], [dtos.py], [agents/faq_agent.py] and
    [agents/order_agent.py].

    Conventions of the embedding.
    - Python [str] is [string]; text is taken to be ASCII (case mapping,
      whitespace and [\d] are the ASCII ones).
    - Python [int] is [Z], Python [float] is the kernel's binary64 [float].
    - A [dict] loaded from JSON is an association list in insertion order with
      unique keys; the router's [Dict[str, int]] is a [gmap string Z].
    - A method that can raise returns a [result]; methods that touch the
      provider or the router's counter run in the state monad [M].
    - The text-generation backend is the class [LLMProvider]: what it answers
      is not fixed, every theorem holds for all providers. *)

From Stdlib Require Import ZArith String Ascii List Bool Floats Lia.
From stdpp Require Import gmap strings.
Import ListNotations.

Set Warnings "-inexact-float,-register-all".
Open Scope string_scope.

(** ** Python values *)

Module Py.

(** Exceptions, all of them subclasses of [Exception]. *)
Inductive exn : Type :=
| AttributeError
| KeyError (key : string)
| NameError (name : string)
| TypeError
| ValueError (msg : string)
| ValidationError
| ProviderError (msg : string).

Inductive result (A : Type) : Type :=
| Ok (a : A)
| Raise (e : exn).
Arguments Ok {A} a.
Arguments Raise {A} e.

(** Values produced by [json.load]. *)
Inductive json : Type :=
| JNull
| JBool (b : bool)
| JInt (z : Z)
| JFloat (f : float)
| JStr (s : string)
| JList (l : list json)
| JObj (d : list (string * json)).

Definition dict (A : Type) : Type := list (string * A).

(** [d.get(k)] *)
Fixpoint dict_get {A} (k : string) (d : dict A) : option A :=
  match d with
  | [] => None
  | (k', v) :: d' => if String.eqb k k' then Some v else dict_get k d'
  end.

(** [bool(v)] *)
Definition truthy (v : json) : bool :=
  match v with
  | JNull => false
  | JBool b => b
  | JInt z => negb (z =? 0)%Z
  | JFloat f => negb (PrimFloat.eqb f 0%float)
  | JStr s => negb (String.eqb s "")
  | JList l => match l with [] => false | _ => true end
  | JObj d => match d with [] => false | _ => true end
  end.

(** [bool(x)] for [x : Optional[str]] *)
Definition truthy_str (o : option string) : bool :=
  match o with
  | Some s => negb (String.eqb s "")
  | None => false
  end.

Definition code (c : ascii) : nat := nat_of_ascii c.

Definition between (lo hi : nat) (c : ascii) : bool :=
  ((lo <=? code c) && (code c <=? hi))%nat.

Definition is_upper (c : ascii) : bool := between 65 90 c.
Definition is_lower (c : ascii) : bool := between 97 122 c.
Definition is_digit (c : ascii) : bool := between 48 57 c.

(** [str.isspace] on ASCII: tab, LF, VT, FF, CR, FS, GS, RS, US, space. *)
Definition is_space (c : ascii) : bool :=
  between 9 13 c || between 28 31 c || between 32 32 c.

Definition lower_char (c : ascii) : ascii :=
  if is_upper c then ascii_of_nat (code c + 32) else c.
Definition upper_char (c : ascii) : ascii :=
  if is_lower c then ascii_of_nat (code c - 32) else c.

Fixpoint map_chars (f : ascii -> ascii) (s : string) : string :=
  match s with
  | EmptyString => EmptyString
  | String c s' => String (f c) (map_chars f s')
  end.

(** [s.lower()], [s.upper()] *)
Definition lower (s : string) : string := map_chars lower_char s.
Definition upper (s : string) : string := map_chars upper_char s.

(** [sub in s] *)
Fixpoint str_in (sub s : string) : bool :=
  if String.prefix sub s then true
  else match s with
       | EmptyString => false
       | String _ s' => str_in sub s'
       end.

Fixpoint lstrip (s : string) : string :=
  match s with
  | EmptyString => EmptyString
  | String c s' => if is_space c then lstrip s' else s
  end.

Fixpoint rstrip (s : string) : string :=
  match s with
  | EmptyString => EmptyString
  | String c s' =>
      match rstrip s' with
      | EmptyString => if is_space c then EmptyString else String c EmptyString
      | r => String c r
      end
  end.

(** [s.strip()] *)
Definition strip (s : string) : string := rstrip (lstrip s).

(** [sep.join(parts)] for a list of [str]. *)
Definition join (sep : string) (parts : list string) : string :=
  String.concat sep parts.

(** The characters that cannot be typed inside a string literal here. *)
Definition nl : string := String "010"%char EmptyString.
Definition dq : string := String "034"%char EmptyString.
(** U+2022 BULLET, in UTF-8. *)
Definition bullet : string :=
  String "226"%char (String "128"%char (String "162"%char EmptyString)).

End Py.

Import Py.

(** ** The fragment of [re] that the order agent uses *)

Module Re.

(** A pattern is a sequence of atoms: a literal character or [\d], which on
    ASCII text is a digit from 0 to 9. *)
Inductive atom : Type :=
| Lit (c : ascii)
| Digit.

Definition atom_matches (a : atom) (c : ascii) : bool :=
  match a with
  | Lit c' => Ascii.eqb c' c
  | Digit => is_digit c
  end.

(** Match the pattern at the start of [s]; the matched text on success. *)
Fixpoint match_here (pat : list atom) (s : string) : option string :=
  match pat with
  | [] => Some EmptyString
  | a :: pat' =>
      match s with
      | EmptyString => None
      | String c s' =>
          if atom_matches a c
          then option_map (String c) (match_here pat' s')
          else None
      end
  end.

(** [re.search(pat, s)]: the leftmost match, [match.group(0)]. *)
Fixpoint search (pat : list atom) (s : string) : option string :=
  match match_here pat s with
  | Some m => Some m
  | None =>
      match s with
      | EmptyString => None
      | String _ s' => search pat s'
      end
  end.

Definition lits (s : string) : list atom :=
  map Lit (list_ascii_of_string s).

End Re.

(** ** dtos.py *)

Inductive Intent : Type := FAQ | ORDER_STATUS | UNCLEAR.

Definition Intent_eqb (a b : Intent) : bool :=
  match a, b with
  | FAQ, FAQ | ORDER_STATUS, ORDER_STATUS | UNCLEAR, UNCLEAR => true
  | _, _ => false
  end.

Module RouterResponse.
Record t : Type := {
  intent : Intent;
  confidence : float;
  entities : gmap string string;
  reasoning : string
}.

(** [confidence: float = Field(ge=0.0, le=1.0)]: what construction checks. *)
Definition valid (r : t) : bool :=
  ((0 <=? confidence r) && (confidence r <=? 1))%float.
End RouterResponse.

Module AgentResponse.
Record t : Type := {
  success : bool;
  message : string;
  data : option (dict json);
  needs_clarification : bool
}.
End AgentResponse.

Module FinalResponse.
Record t : Type := {
  query : string;
  intent : Intent;
  confidence : float;
  response : string;
  escalated : bool
}.
End FinalResponse.

(** ** The machine: provider state, the router's counter, and a call record *)

(** What a call did, in order. The record is ghost state: it lets a theorem
    say that a handler was not invoked or that the counter was not touched. *)
Inductive event : Type :=
| EvGenerateJson (prompt system_prompt : string)
| EvGenerate (prompt : string) (system_prompt : option string)
| EvFaqHandle (query : string)
| EvOrderHandle (query : string) (order_id : option string)
| EvCountRead (session_id : string)
| EvCountWrite (session_id : string) (v : Z)
| EvCountDelete (session_id : string).

Definition is_handler_call (e : event) : bool :=
  match e with
  | EvFaqHandle _ | EvOrderHandle _ _ => true
  | _ => false
  end.

Definition is_count_access (e : event) : bool :=
  match e with
  | EvCountRead _ | EvCountWrite _ _ | EvCountDelete _ => true
  | _ => false
  end.

Record machine (W : Type) : Type := {
  unclear_count : gmap string Z;
  world : W;
  trace : list event
}.
Arguments unclear_count {W} _.
Arguments world {W} _.
Arguments trace {W} _.

(** State and exceptions. *)
Definition M (W A : Type) : Type := machine W -> result A * machine W.

Definition ret {W A} (a : A) : M W A := fun s => (Ok a, s).

Definition raise {W A} (e : exn) : M W A := fun s => (Raise e, s).

Definition bind {W A B} (m : M W A) (k : A -> M W B) : M W B :=
  fun s =>
    match m s with
    | (Ok a, s') => k a s'
    | (Raise e, s') => (Raise e, s')
    end.

(** [try: x = m  except Exception: handler  else: k x] *)
Definition try_else {W A B} (m : M W A) (handler : exn -> M W B)
    (k : A -> M W B) : M W B :=
  fun s =>
    match m s with
    | (Ok a, s') => k a s'
    | (Raise e, s') => handler e s'
    end.

Definition emit {W} (e : event) : M W unit :=
  fun s =>
    (Ok tt, {| unclear_count := unclear_count s; world := world s;
               trace := trace s ++ [e] |}).

#[global] Instance M_ret {W} : MRet (M W) := fun A a => ret a.
#[global] Instance M_bind {W} : MBind (M W) := fun A B k m => bind m k.

(** ** providers.py: the provider interface

    [generate] is the abstract method. [generate_json] is the base class's
    method on top of it: it sends the classification prompt, cuts the JSON
    object out of the reply and builds the validated model from it, raising
    when the reply does not parse or does not validate. Its decoding is not
    re-implemented; the interface gives its outcome. *)
Class LLMProvider (W : Type) : Type := {
  generate : string -> option string -> W -> result string * W;
  generate_json : string -> string -> W -> result RouterResponse.t * W
}.

Section Calls.
Context {W : Type} `{LLMProvider W}.

Definition with_world {A} (f : W -> result A * W) (e : event) : M W A :=
  fun s =>
    let (r, w') := f (world s) in
    (r, {| unclear_count := unclear_count s; world := w';
           trace := trace s ++ [e] |}).

(** [self.llm.generate(prompt, system_prompt)] *)
Definition llm_generate (prompt : string) (system_prompt : option string)
    : M W string :=
  with_world (generate prompt system_prompt) (EvGenerate prompt system_prompt).

(** [self.llm.generate_json(prompt=..., system_prompt=..., model_class=RouterResponse)] *)
Definition llm_generate_json (prompt system_prompt : string)
    : M W RouterResponse.t :=
  with_world (generate_json prompt system_prompt)
    (EvGenerateJson prompt system_prompt).

(** [self.unclear_count.get(session_id, 0)] *)
Definition count_get (session_id : string) : M W Z :=
  fun s =>
    (Ok (default 0%Z (unclear_count s !! session_id)),
     {| unclear_count := unclear_count s; world := world s;
        trace := trace s ++ [EvCountRead session_id] |}).

(** [self.unclear_count[session_id] = v] *)
Definition count_set (session_id : string) (v : Z) : M W unit :=
  fun s =>
    (Ok tt,
     {| unclear_count := <[session_id := v]> (unclear_count s);
        world := world s;
        trace := trace s ++ [EvCountWrite session_id v] |}).

(** [session_id in self.unclear_count] *)
Definition count_contains (session_id : string) : M W bool :=
  fun s =>
    (Ok (bool_decide (is_Some (unclear_count s !! session_id))),
     {| unclear_count := unclear_count s; world := world s;
        trace := trace s ++ [EvCountRead session_id] |}).

(** [del self.unclear_count[session_id]] *)
Definition count_del (session_id : string) : M W unit :=
  fun s =>
    match unclear_count s !! session_id with
    | Some _ =>
        (Ok tt,
         {| unclear_count := delete session_id (unclear_count s);
            world := world s;
            trace := trace s ++ [EvCountDelete session_id] |})
    | None => (Raise (KeyError session_id), s)
    end.

End Calls.

(** ** agents/faq_agent.py *)

Module FAQAgent.

(** One topic of [data/faq_knowledge_base.json], in the shape of the data
    model: keywords and answer are text. What [handle] does with a file of
    another shape is in [FAQData] below. *)
Record content : Type := {
  keywords : list string;
  answer : string
}.

(** [llm] tells whether a provider was given; [knowledge_base] is what
    [_load_data] returned: [None] when the file does not exist. *)
Record t : Type := {
  llm : bool;
  knowledge_base : option (dict content)
}.

(** The variables of the matching loop. [topic] is the loop variable: after
    the loop it holds the key the loop visited last. *)
Record loop : Type := {
  best_match : option content;
  best_score : Z;
  topic : option string
}.

Definition loop_init : loop :=
  {| best_match := None; best_score := 0; topic := None |}.

(** [sum(1 for kw in content["keywords"] if kw in query_lower)] *)
Definition score (query_lower : string) (c : content) : Z :=
  Z.of_nat (length (filter (fun kw => str_in kw query_lower) (keywords c))).

(** One iteration of [for topic, content in self.knowledge_base.items()]. *)
Definition loop_body (query_lower : string) (st : loop)
    (item : string * content) : loop :=
  let (topic, content) := item in
  let score := score query_lower content in
  if (score >? best_score st)%Z
  then {| best_match := Some content; best_score := score;
          topic := Some topic |}
  else {| best_match := best_match st; best_score := best_score st;
          topic := Some topic |}.

Definition find_best (query_lower : string) (kb : dict content) : loop :=
  fold_left (loop_body query_lower) kb loop_init.

Definition system : string :=
  "You are a friendly customer service bot. Convert the factual answer into a natural, conversational response. Return ONLY the final response - no options, no variations, just one single answer.".

Definition indent : string := "            ".

Definition prompt (query answer : string) : string :=
  "Customer asked: " ++ dq ++ query ++ dq ++ nl ++ nl
  ++ indent ++ "Factual answer: " ++ answer ++ nl ++ nl
  ++ indent ++ "Rewrite this as a single, friendly response. Give ONLY ONE response, nothing else:".

Definition no_info : string :=
  "I don't have information about that. I can help with: store hours, returns, shipping, payment, or contact info.".

Section Methods.
Context {W : Type} `{LLMProvider W}.

Definition _refine (query answer : string) : M W string :=
  try_else (llm_generate (prompt query answer) (Some system))
    (fun _ => mret answer)
    (fun refined => mret (strip (strip refined))).

Definition handle (self : t) (query : string) : M W AgentResponse.t :=
  emit (EvFaqHandle query);;
  let query_lower := lower query in
  match knowledge_base self with
  | None => raise AttributeError
  | Some kb =>
      let st := find_best query_lower kb in
      match best_match st with
      | Some content =>
          let answer := answer content in
          answer ← (if llm self then _refine query answer else mret answer);
          match topic st with
          | Some topic =>
              mret {| AgentResponse.success := true;
                      AgentResponse.message := answer;
                      AgentResponse.data := Some [("topic", JStr topic)];
                      AgentResponse.needs_clarification := false |}
          | None => raise (NameError "topic")
          end
      | None =>
          mret {| AgentResponse.success := false;
                  AgentResponse.message := no_info;
                  AgentResponse.data := None;
                  AgentResponse.needs_clarification := false |}
      end
  end.

End Methods.
End FAQAgent.

(** ** agents/order_agent.py *)

Module OrderAgent.

(** [orders] is what [_load_data] returned: [None] when
    [data/orders_database.json] does not exist. *)
Record t : Type := {
  llm : bool;
  orders : option (dict json)
}.

(** [r'ORD-\d{5}'] *)
Definition order_pattern : list Re.atom :=
  Re.lits "ORD-" ++ [Re.Digit; Re.Digit; Re.Digit; Re.Digit; Re.Digit].

Definition _extract_order_id (query : string) : option string :=
  Re.search order_pattern (upper query).

(** [item.get("name", "")] for every item, which has to be a dict. *)
Fixpoint item_names (items : list json) : result (list json) :=
  match items with
  | [] => Ok []
  | JObj d :: items' =>
      match item_names items' with
      | Ok names => Ok (default (JStr "") (dict_get "name" d) :: names)
      | Raise e => Raise e
      end
  | _ :: _ => Raise AttributeError
  end.

(** The argument of [", ".join(...)]: every element has to be a [str]. *)
Fixpoint all_str (l : list json) : result (list string) :=
  match l with
  | [] => Ok []
  | JStr s :: l' =>
      match all_str l' with
      | Ok ss => Ok (s :: ss)
      | Raise e => Raise e
      end
  | _ :: _ => Raise TypeError
  end.

Definition join_json (sep : string) (l : list json) : result string :=
  match all_str l with
  | Ok ss => Ok (join sep ss)
  | Raise e => Raise e
  end.

Section Format.
(** [str(v)] of a value that is not a [str], as an f-string prints it. *)
Variable repr : json -> string.

Definition format (v : json) : string :=
  match v with
  | JStr s => s
  | _ => repr v
  end.

(** [order[key]] inside an f-string. *)
Definition subscript (order : dict json) (key : string) : result string :=
  match dict_get key order with
  | Some v => Ok (format v)
  | None => Raise (KeyError key)
  end.

Definition items_str (order : dict json) : result string :=
  match default (JList []) (dict_get "items" order) with
  | JList (first :: rest) =>
      match first with
      | JObj _ =>
          match item_names (first :: rest) with
          | Ok names => join_json ", " names
          | Raise e => Raise e
          end
      | _ => join_json ", " (first :: rest)
      end
  | _ => Ok "your items"
  end.

(** [if order.get(key): msg += f"{label}{order[key]}."] *)
Definition append_if (order : dict json) (key label msg : string) : string :=
  match dict_get key order with
  | Some v => if truthy v then msg ++ (label ++ format v ++ ".") else msg
  | None => msg
  end.

Definition _format_order (order : json) : result string :=
  match order with
  | JObj order =>
      match items_str order with
      | Raise e => Raise e
      | Ok items_str =>
          match subscript order "order_id" with
          | Raise e => Raise e
          | Ok id =>
              match subscript order "status" with
              | Raise e => Raise e
              | Ok status =>
                  let msg := "Order " ++ id ++ " (" ++ items_str ++ ") is " ++ status ++ "." in
                  let msg := append_if order "tracking" " Tracking: " msg in
                  let msg :=
                    append_if order "delivery_date" " Expected delivery: " msg in
                  Ok msg
              end
          end
      end
  | _ => Raise AttributeError
  end.

End Format.

Definition system : string :=
  "You are a friendly customer service bot. Convert the order status into a natural, conversational response. Return ONLY the final response - no options, no variations, just one single answer.".

Definition indent : string := "            ".

Definition prompt (query message : string) : string :=
  "Customer asked: " ++ dq ++ query ++ dq ++ nl ++ nl
  ++ indent ++ "Order status: " ++ message ++ nl ++ nl
  ++ indent ++ "Rewrite this as a single, friendly response. Give ONLY ONE response, nothing else:".

Definition ask_for_id : string :=
  "Please provide your order ID (format: ORD-12345).".

Definition not_found (order_id : string) : string :=
  "Order " ++ order_id ++ " not found. Please verify your order number or contact support@store.com.".

Section Methods.
Context {W : Type} `{LLMProvider W}.
Variable repr : json -> string.

Definition lift {A} (r : result A) : M W A := fun s => (r, s).

Definition _refine (query message : string) : M W string :=
  try_else (llm_generate (prompt query message) (Some system))
    (fun _ => mret message)
    (fun refined => mret (strip (strip refined))).

(** [AgentResponse(..., data=order)]: [data] is [Optional[Dict[str, Any]]]. *)
Definition as_data (order : json) : result (dict json) :=
  match order with
  | JObj d => Ok d
  | _ => Raise ValidationError
  end.

(** [self.orders.get]: an attribute of [None] when nothing was loaded. *)
Definition loaded (orders : option (dict json)) : result (dict json) :=
  match orders with
  | Some db => Ok db
  | None => Raise AttributeError
  end.

Definition handle (self : t) (query : string) (order_id : option string)
    : M W AgentResponse.t :=
  emit (EvOrderHandle query order_id);;
  let order_id :=
    if negb (truthy_str order_id) then _extract_order_id query else order_id in
  match order_id with
  | None | Some EmptyString =>
      mret {| AgentResponse.success := false;
              AgentResponse.message := ask_for_id;
              AgentResponse.data := None;
              AgentResponse.needs_clarification := true |}
  | Some order_id =>
      db ← lift (loaded (orders self));
      let missing :=
        {| AgentResponse.success := false;
           AgentResponse.message := not_found order_id;
           AgentResponse.data := None;
           AgentResponse.needs_clarification := false |} in
      match dict_get order_id db with
      | None => mret missing
      | Some order =>
          if negb (truthy order) then mret missing
          else
            message ← lift (_format_order repr order);
            message ← (if llm self then _refine query message
                       else mret message);
            data ← lift (as_data order);
            mret {| AgentResponse.success := true;
                    AgentResponse.message := message;
                    AgentResponse.data := Some data;
                    AgentResponse.needs_clarification := false |}
      end
  end.

End Methods.
End OrderAgent.

(** ** router.py *)

Module LLMRouter.

Definition SYSTEM_PROMPT : string :=
  String.concat nl [
    "You are a customer service intent classifier.";
    "";
    "Classify queries into:";
    "- FAQ: Questions about store hours, returns, shipping, payment, contact";
    "- ORDER_STATUS: Order tracking questions (look for order IDs like ORD-XXXXX)";
    "- UNCLEAR: Vague or ambiguous queries";
    "";
    "Extract entities:";
    "- order_id: Order number if present (ORD-XXXXX)";
    "";
    "Provide:";
    "- intent: The classification";
    "- confidence: 0.0 to 1.0";
    "- entities: Extracted data";
    "- reasoning: Why you chose this" ].

(** The router's agents. Its third attribute, [unclear_count], is the
    mutable one and lives in the [machine]. *)
Record t : Type := {
  faq_agent : FAQAgent.t;
  order_agent : OrderAgent.t
}.

(** [__init__]: both agents share the router's provider. *)
Definition init (knowledge_base : option (dict FAQAgent.content))
    (orders : option (dict json)) : t :=
  {| faq_agent := {| FAQAgent.llm := true;
                     FAQAgent.knowledge_base := knowledge_base |};
     order_agent := {| OrderAgent.llm := true;
                       OrderAgent.orders := orders |} |}.

Definition start {W} (w : W) : machine W :=
  {| unclear_count := ∅; world := w; trace := [] |}.

Definition clarify_message : string :=
  "Could you clarify? Are you asking about:" ++ nl
  ++ bullet ++ " Store policies (hours, returns, shipping)?" ++ nl
  ++ bullet ++ " Order status (provide order ID: ORD-XXXXX)?".

Definition escalate_message : string :=
  "Let me connect you with support:" ++ nl
  ++ bullet ++ " Email: support@store.com" ++ nl
  ++ bullet ++ " Phone: 1-800-SHOP-NOW".

Definition faq_fallback : string :=
  "I don't have that info. I can help with: hours, returns, shipping, payment, contact.".

(** The confidence threshold of the gate. *)
Definition threshold : float := 0.7%float.

Definition _escalate (query : string) : FinalResponse.t :=
  {| FinalResponse.query := query;
     FinalResponse.intent := UNCLEAR;
     FinalResponse.confidence := 0%float;
     FinalResponse.response := escalate_message;
     FinalResponse.escalated := true |}.

Section Methods.
Context {W : Type} `{LLMProvider W}.
Variable repr : json -> string.

Definition _handle_unclear (query : string)
    (classification : RouterResponse.t) (session_id : string)
    : M W FinalResponse.t :=
  count ← count_get session_id;
  if (count =? 0)%Z
  then
    count_set session_id 1;;
    mret {| FinalResponse.query := query;
            FinalResponse.intent := UNCLEAR;
            FinalResponse.confidence :=
              RouterResponse.confidence classification;
            FinalResponse.response := clarify_message;
            FinalResponse.escalated := false |}
  else mret (_escalate query).

(** Step 4 of [route]: from the agent's answer to the final one. *)
Definition respond (query : string) (classification : RouterResponse.t)
    (agent_response : AgentResponse.t) : FinalResponse.t :=
  let final msg :=
    {| FinalResponse.query := query;
       FinalResponse.intent := RouterResponse.intent classification;
       FinalResponse.confidence := RouterResponse.confidence classification;
       FinalResponse.response := msg;
       FinalResponse.escalated := false |} in
  if AgentResponse.needs_clarification agent_response
  then final (AgentResponse.message agent_response)
  else if negb (AgentResponse.success agent_response)
  then
    final (if Intent_eqb (RouterResponse.intent classification) FAQ
           then faq_fallback
           else AgentResponse.message agent_response)
  else final (AgentResponse.message agent_response).

(** [gate c] is the condition of step 2. *)
Definition gate (classification : RouterResponse.t) : bool :=
  Intent_eqb (RouterResponse.intent classification) UNCLEAR
  || (RouterResponse.confidence classification <? threshold)%float.

(** The [except] branch also prints the exception; standard output is not
    part of the machine. *)
Definition route (self : t) (query session_id : string)
    : M W FinalResponse.t :=
  try_else (llm_generate_json query SYSTEM_PROMPT)
    (fun _ => mret (_escalate query))
    (fun classification =>
       if gate classification
       then _handle_unclear query classification session_id
       else
         match RouterResponse.intent classification with
         | FAQ =>
             agent_response ← FAQAgent.handle (faq_agent self) query;
             mret (respond query classification agent_response)
         | ORDER_STATUS =>
             let order_id :=
               RouterResponse.entities classification !! "order_id" in
             agent_response ←
               OrderAgent.handle repr (order_agent self) query order_id;
             mret (respond query classification agent_response)
         | UNCLEAR => mret (_escalate query)
         end).

Definition reset_session (session_id : string) : M W unit :=
  present ← count_contains session_id;
  if (present : bool) then count_del session_id else mret tt.

End Methods.
End LLMRouter.

(** ** A scripted provider

    A provider that replays a script: each call takes the next prepared
    outcome of its kind, and raises once the script is exhausted. Used to run
    the router on concrete inputs. *)

Module Scripted.

Record script : Type := {
  classifications : list (result RouterResponse.t);
  replies : list (result string)
}.

Definition next_reply (_ : string) (_ : option string) (w : script)
    : result string * script :=
  match replies w with
  | r :: rs => (r, {| classifications := classifications w; replies := rs |})
  | [] => (Raise (ProviderError "no reply"), w)
  end.

Definition next_classification (_ _ : string) (w : script)
    : result RouterResponse.t * script :=
  match classifications w with
  | r :: rs => (r, {| classifications := rs; replies := replies w |})
  | [] => (Raise (ProviderError "no reply"), w)
  end.

#[global] Instance provider : LLMProvider script :=
  {| generate := next_reply; generate_json := next_classification |}.

Definition classified (i : Intent) (c : float) (order_id : option string)
    : result RouterResponse.t :=
  Ok {| RouterResponse.intent := i;
        RouterResponse.confidence := c;
        RouterResponse.entities :=
          match order_id with
          | Some id => {[ "order_id" := id ]}
          | None => ∅
          end;
        RouterResponse.reasoning := "" |}.

(** Stand-in for [str] of non-string JSON values. *)
Definition repr (v : json) : string :=
  match v with
  | JNull => "None"
  | JBool true => "True"
  | JBool false => "False"
  | _ => "<value>"
  end.

End Scripted.

(** ** Vocabulary of the statements *)

(** An order identifier as the specification words it: the literal [ORD-]
    followed by exactly five digits, and nothing else. *)
Definition order_id_format (s : string) : bool :=
  String.eqb (substring 0 4 s) "ORD-"
  && (String.length s =? 9)%nat
  && forallb is_digit (list_ascii_of_string (substring 4 5 s)).

(** The nine characters of [s] from position [i] on (fewer at the end). *)
Definition window (i : nat) (s : string) : string := substring i 9 s.

(** [id] is the leftmost window of [s] in the identifier format. *)
Definition leftmost (s id : string) : Prop :=
  exists i, window i s = id /\ order_id_format id = true
            /\ forall j, j < i -> order_id_format (window j s) = false.

(** The claim's reading of an identifier in exact form at position [i] of
    [s]: [ORD-] and five digits, and no sixth digit after them. *)
Definition exact_form_at (i : nat) (s : string) : bool :=
  order_id_format (window i s)
  && negb (match String.get (i + 9) s with
           | Some c => is_digit c
           | None => false
           end).

Definition has_exact_form (s : string) : bool :=
  existsb (fun i => exact_form_at i s) (seq 0 (String.length s)).

(** The claim as it is worded: a query without an identifier in exact form
    yields no identifier. *)
Definition ignores_near_matches (query : string) : Prop :=
  has_exact_form (upper query) = false ->
  OrderAgent._extract_order_id query = None.

(** Text within the convention of the embedding: ASCII characters only. *)
Definition ascii_text (s : string) : bool :=
  forallb (fun c => (code c <? 128)%nat) (list_ascii_of_string s).

(** The events a call added to the record: those of [s'] after those of [s]. *)
Definition new_events {W} (s s' : machine W) : list event :=
  drop (length (trace s)) (trace s').

(** The machine once the provider has answered the classification call. *)
Definition classified_state {W} (s : machine W) (query : string) (w' : W)
    : machine W :=
  {| unclear_count := unclear_count s;
     world := w';
     trace := trace s ++ [EvGenerateJson query LLMRouter.SYSTEM_PROMPT] |}.

(** The same machine with another counter map. *)
Definition with_counts {W} (m : gmap string Z) (s : machine W) : machine W :=
  {| unclear_count := m; world := world s; trace := trace s |}.

(** The answer of the first unclear turn. *)
Definition clarification (query : string) (confidence : float)
    : FinalResponse.t :=
  {| FinalResponse.query := query;
     FinalResponse.intent := UNCLEAR;
     FinalResponse.confidence := confidence;
     FinalResponse.response := LLMRouter.clarify_message;
     FinalResponse.escalated := false |}.

(** A computation that leaves the counter map as it found it. *)
Definition keeps_counts {W A} (m : M W A) : Prop :=
  forall s, unclear_count (snd (m s)) = unclear_count s.

(** Every counter that is stored is 1. *)
Definition counters_one (m : gmap string Z) : Prop :=
  forall session_id v, m !! session_id = Some v -> v = 1%Z.

Section Reachability.
Context {W : Type} `{LLMProvider W}.
Variable repr : json -> string.
Variable self : LLMRouter.t.

(** The states of a router that starts with an empty counter map and then
    serves [route] and [reset_session] calls, whatever they return. *)
Inductive reachable : machine W -> Prop :=
| reach_start (w : W) : reachable (LLMRouter.start w)
| reach_route (s : machine W) (query session_id : string) :
    reachable s ->
    reachable (snd (LLMRouter.route repr self query session_id s))
| reach_reset (s : machine W) (session_id : string) :
    reachable s ->
    reachable (snd (LLMRouter.reset_session session_id s)).

End Reachability.

(** *** The FAQ agent *)

(** The topic the specification selects: scores are compared in the order of
    the base, a topic replaces the current one only with a strictly higher
    score, and a score of 0 selects nothing. *)
Definition better (query_lower : string) (acc : option (string * Z))
    (item : string * FAQAgent.content) : option (string * Z) :=
  let sc := FAQAgent.score query_lower (snd item) in
  if (sc >? match acc with Some (_, b) => b | None => 0 end)%Z
  then Some (fst item, sc)
  else acc.

Definition matched_topic (query : string) (kb : dict FAQAgent.content)
    : option string :=
  option_map fst (fold_left (better (lower query)) kb None).

(** The loop and the specification agree on which content is the best
    match: the loop's [best_match] is the content of the matched topic. *)
Definition agree (P : string -> FAQAgent.content -> Prop)
    (st : FAQAgent.loop) (acc : option (string * Z)) : Prop :=
  match acc with
  | None => FAQAgent.best_match st = None /\ FAQAgent.best_score st = 0%Z
  | Some (t, b) =>
      FAQAgent.best_score st = b
      /\ exists c, FAQAgent.best_match st = Some c /\ P t c
  end.

(** The key the matching loop visits last. *)
Definition last_key {A} (kb : dict A) : option string :=
  fold_left (fun _ item => Some (fst item)) kb None.

(** A two-topic knowledge base and a question about the first topic. *)
Definition two_topics : dict FAQAgent.content :=
  [ ("hours", {| FAQAgent.keywords := ["hours"; "open"];
                 FAQAgent.answer := "We are open 9am-9pm." |});
    ("returns", {| FAQAgent.keywords := ["return"; "refund"];
                   FAQAgent.answer := "Returns within 30 days." |}) ].

Definition hours_query : string := "What are your store hours?".

(** *** The rewrite call *)

(** Every provider call recorded in [evs] raises when it is made in the
    provider state [w]. *)
Definition calls_raise {W} `{LLMProvider W} (w : W) (evs : list event)
    : Prop :=
  forall prompt system_prompt,
    In (EvGenerate prompt system_prompt) evs ->
    exists e w', generate prompt system_prompt w = (Raise e, w').

(** *** Order records, as the data model describes them *)

(** The names of items that are structured records: each a dict, whose
    [name], when it has one, is text. *)
Fixpoint record_names (items : list json) : option (list string) :=
  match items with
  | [] => Some []
  | JObj d :: items' =>
      match dict_get "name" d, record_names items' with
      | None, Some names => Some ("" :: names)
      | Some (JStr s), Some names => Some (s :: names)
      | _, _ => None
      end
  | _ :: _ => None
  end.

(** The names of items that are plain strings. *)
Fixpoint plain_names (items : list json) : option (list string) :=
  match items with
  | [] => Some []
  | JStr s :: items' =>
      match plain_names items' with
      | Some names => Some (s :: names)
      | None => None
      end
  | _ :: _ => None
  end.

(** The item names of an order: none when the list is absent or empty;
    [None] when [items] is not of the two shapes of the data model. *)
Definition order_items (order : dict json) : option (list string) :=
  match dict_get "items" order with
  | None | Some JNull => Some []
  | Some (JList (JObj d :: items')) => record_names (JObj d :: items')
  | Some (JList items) => plain_names items
  | Some _ => None
  end.

(** An optional text field: its text when the field holds a non-empty
    string; no value when the field is missing, null or empty; [None] when
    the field holds something else. *)
Definition optional_text (key : string) (order : dict json)
    : option (option string) :=
  match dict_get key order with
  | None | Some JNull => Some None
  | Some (JStr s) => Some (if String.eqb s "" then None else Some s)
  | Some _ => None
  end.

(** The status message, in the words of the specification. *)
Definition spec_items_str (names : list string) : string :=
  match names with
  | [] => "your items"
  | _ => join ", " names
  end.

Definition spec_message (id : string) (names : list string) (status : string)
    (tracking delivery_date : option string) : string :=
  "Order " ++ id ++ " (" ++ spec_items_str names ++ ") is " ++ status ++ "."
  ++ match tracking with
     | Some t => " Tracking: " ++ t ++ "."
     | None => ""
     end
  ++ match delivery_date with
     | Some d => " Expected delivery: " ++ d ++ "."
     | None => ""
     end.

(** The outcome for an order that is not in the records. *)
Definition order_missing (order_id : string) : AgentResponse.t :=
  {| AgentResponse.success := false;
     AgentResponse.message := OrderAgent.not_found order_id;
     AgentResponse.data := None;
     AgentResponse.needs_clarification := false |}.

(** *** Concrete inputs *)

Definition shipped_order : dict json :=
  [ ("order_id", JStr "ORD-12345");
    ("status", JStr "shipped");
    ("items", JList [JObj [("name", JStr "Mouse"); ("qty", JInt 1)];
                     JObj [("name", JStr "Keyboard")]]);
    ("tracking", JStr "1Z999") ].

Definition one_order : dict json := [ ("ORD-12345", JObj shipped_order) ].

Definition router0 : LLMRouter.t :=
  LLMRouter.init (Some two_topics) (Some one_order).

(** A provider whose first answer is an unclear classification of low
    confidence and which has no reply for a rewrite. *)
Definition unclear_script : Scripted.script :=
  {| Scripted.classifications := [Scripted.classified UNCLEAR 0.3 None];
     Scripted.replies := [] |}.

Definition unclear_answer : RouterResponse.t :=
  {| RouterResponse.intent := UNCLEAR;
     RouterResponse.confidence := 0.3;
     RouterResponse.entities := ∅;
     RouterResponse.reasoning := "" |}.

(** A provider whose classification call fails. *)
Definition failing_script : Scripted.script :=
  {| Scripted.classifications := [Raise (ValueError "Could not parse JSON")];
     Scripted.replies := [] |}.

Definition silent_script : Scripted.script :=
  {| Scripted.classifications := []; Scripted.replies := [] |}.

(** A provider that fails on one rewrite request, the one for the opening
    hours, and answers every other request. *)
Module Picky.

Definition reply (prompt : string) (system_prompt : option string)
    (w : unit) : result string * unit :=
  if String.eqb prompt (FAQAgent.prompt hours_query "We are open 9am-9pm.")
  then (Raise (ProviderError "busy"), w)
  else (Ok "Certainly!", w).

Definition classify (prompt system_prompt : string) (w : unit)
    : result RouterResponse.t * unit :=
  (Raise (ProviderError "busy"), w).

Definition provider : LLMProvider unit :=
  Build_LLMProvider unit reply classify.

End Picky.

(** ** Vocabulary of the further properties *)

Definition is_provider_call (e : event) : bool :=
  match e with
  | EvGenerateJson _ _ | EvGenerate _ _ => true
  | _ => false
  end.

(** [s] is made of whitespace only (the empty string included). *)
Definition blank (s : string) : bool :=
  forallb is_space (list_ascii_of_string s).

(** [c] occurs in [s]. *)
Fixpoint has_char (c : ascii) (s : string) : bool :=
  match s with
  | EmptyString => false
  | String c' s' => Ascii.eqb c c' || has_char c s'
  end.

(** Some character of [s] is an upper-case letter. *)
Fixpoint has_upper (s : string) : bool :=
  match s with
  | EmptyString => false
  | String c s' => is_upper c || has_upper s'
  end.

Section Runs.
Context {W : Type} `{LLMProvider W}.
Variable repr : json -> string.
Variable self : LLMRouter.t.

(** The state after a series of [route] calls, each given as its query and
    its session, whatever the calls return. *)
Definition routes (calls : list (string * string)) (s : machine W)
    : machine W :=
  fold_left
    (fun s call => snd (LLMRouter.route repr self (fst call) (snd call) s))
    calls s.

End Runs.

(** The machine after a call that left the provider in [w'] and recorded
    [evs]. *)
Definition after {W} (s : machine W) (w' : W) (evs : list event) : machine W :=
  {| unclear_count := unclear_count s;
     world := w';
     trace := trace s ++ evs |}.

(** The outcomes of the FAQ agent. *)
Definition faq_no_info : AgentResponse.t :=
  {| AgentResponse.success := false;
     AgentResponse.message := FAQAgent.no_info;
     AgentResponse.data := None;
     AgentResponse.needs_clarification := false |}.

Definition faq_answer (message topic : string) : AgentResponse.t :=
  {| AgentResponse.success := true;
     AgentResponse.message := message;
     AgentResponse.data := Some [("topic", JStr topic)];
     AgentResponse.needs_clarification := false |}.

(** The outcomes of the order agent, [order_missing] apart. *)
Definition order_ask : AgentResponse.t :=
  {| AgentResponse.success := false;
     AgentResponse.message := OrderAgent.ask_for_id;
     AgentResponse.data := None;
     AgentResponse.needs_clarification := true |}.

Definition order_found (message : string) (order : dict json)
    : AgentResponse.t :=
  {| AgentResponse.success := true;
     AgentResponse.message := message;
     AgentResponse.data := Some order;
     AgentResponse.needs_clarification := false |}.

(** The identifier the order agent works with: the hint when it is a
    non-empty string, what the query holds otherwise. *)
Definition chosen_id (query : string) (hint : option string) : option string :=
  if negb (truthy_str hint) then OrderAgent._extract_order_id query else hint.

(** The text of a rewrite: the stripped reply, or the given text when the
    provider raised. *)
Definition rewritten (r : result string) (text : string) : string :=
  match r with
  | Ok reply => strip reply
  | Raise _ => text
  end.

(** What [route] makes of an agent's outcome. *)
Definition final (query : string) (c : RouterResponse.t) (response : string)
    : FinalResponse.t :=
  {| FinalResponse.query := query;
     FinalResponse.intent := RouterResponse.intent c;
     FinalResponse.confidence := RouterResponse.confidence c;
     FinalResponse.response := response;
     FinalResponse.escalated := false |}.

(** ** dtos.py, continued: the values of the [Intent] enumeration *)

Definition Intent_value (i : Intent) : string :=
  match i with
  | FAQ => "faq"
  | ORDER_STATUS => "order_status"
  | UNCLEAR => "unclear"
  end.

(** ** evaluate.py *)

Module Evaluate.

(** [load_test_cases], from the value read from [data/test_cases.json].
    A case with an unknown intent name is reported and skipped. *)
Definition intent_of_name (intent_str : json) : option Intent :=
  match intent_str with
  | JStr "faq" => Some FAQ
  | JStr "order_status" => Some ORDER_STATUS
  | JStr "unclear" => Some UNCLEAR
  | _ => None
  end.

(** One iteration: [case['query']], [case['expected_intent']]. Only a dict
    can be subscripted with a string. *)
Definition load_case (case : json) : result (option (json * Intent)) :=
  match case with
  | JObj d =>
      match dict_get "query" d with
      | None => Raise (KeyError "query")
      | Some query =>
          match dict_get "expected_intent" d with
          | None => Raise (KeyError "expected_intent")
          | Some intent_str =>
              Ok (option_map (pair query) (intent_of_name intent_str))
          end
      end
  | _ => Raise TypeError
  end.

Fixpoint load_cases (cases : list json) : result (list (json * Intent)) :=
  match cases with
  | [] => Ok []
  | case :: cases' =>
      match load_case case with
      | Raise e => Raise e
      | Ok loaded =>
          match load_cases cases' with
          | Raise e => Raise e
          | Ok test_cases =>
              Ok (match loaded with
                  | Some tc => tc :: test_cases
                  | None => test_cases
                  end)
          end
      end
  end.

(** [for case in data['test_cases']]: a list gives its elements; a dict or
    a string gives its keys or characters, which are strings and cannot be
    subscripted with ['query']; anything else cannot be iterated. *)
Definition load_test_cases (data : json) : result (list (json * Intent)) :=
  match data with
  | JObj d =>
      match dict_get "test_cases" d with
      | None => Raise (KeyError "test_cases")
      | Some (JList cases) => load_cases cases
      | Some (JObj []) => Ok []
      | Some (JStr EmptyString) => Ok []
      | Some _ => Raise TypeError
      end
  | _ => Raise TypeError
  end.

(** The counters of [evaluate_model]. [intent_stats] is a dict with the
    three intent values as its keys; it is only ever indexed with the value
    of an [Intent], so it is a function on [Intent] here. Of [latencies] the
    length is kept: the times themselves come from the clock. *)
Record stat : Type := { stat_correct : Z; stat_total : Z }.

Record tally : Type := {
  correct : Z;
  latencies : nat;
  intent_stats : Intent -> stat
}.

Definition tally_init : tally :=
  {| correct := 0;
     latencies := 0;
     intent_stats := fun _ => {| stat_correct := 0; stat_total := 0 |} |}.

(** [d[key][field] += 1] *)
Definition bump (field_correct : bool) (key : Intent) (d : Intent -> stat)
    : Intent -> stat :=
  fun i =>
    if Intent_eqb i key
    then if field_correct
         then {| stat_correct := stat_correct (d i) + 1;
                 stat_total := stat_total (d i) |}
         else {| stat_correct := stat_correct (d i);
                 stat_total := stat_total (d i) + 1 |}
    else d i.

Section Methods.
Context {W : Type} `{LLMProvider W}.
Variable repr : json -> string.

(** The body of the loop over [TEST_CASES], for a case whose query is a
    string, as [route] declares it: [router.route(query)] runs with the
    default session, ["default"], for every case, and an exception of it is
    caught. The two [print] calls format [query[:40]]; with a string they
    print and do nothing else. A query that is not a string is outside of
    this definition: there the formatting itself raises. *)
Definition count_case (router : LLMRouter.t) (t : tally)
    (case : string * Intent) : M W tally :=
  let (query, expected) := case in
  try_else (LLMRouter.route repr router query "default")
    (fun _ =>
       mret {| correct := correct t;
               latencies := latencies t;
               intent_stats := bump false expected (intent_stats t) |})
    (fun result =>
       let is_correct := Intent_eqb (FinalResponse.intent result) expected in
       let correct := if is_correct then (correct t + 1)%Z else correct t in
       let stats := bump false expected (intent_stats t) in
       let stats := if is_correct then bump true expected stats else stats in
       mret {| correct := correct;
               latencies := S (latencies t);
               intent_stats := stats |}).

Fixpoint count_cases (router : LLMRouter.t) (cases : list (string * Intent))
    (t : tally) : M W tally :=
  match cases with
  | [] => mret t
  | case :: cases' =>
      t' ← count_case router t case;
      count_cases router cases' t'
  end.

(** [evaluate_model] up to the end of its loop, lines 51 to 83: a new
    router on the provider, then the cases in order. What follows the loop is
    not part of this definition: the percentages computed from the counters,
    of which [correct / total] divides by the number of cases, and the
    report. *)
Definition evaluate_model (knowledge_base : option (dict FAQAgent.content))
    (orders : option (dict json)) (cases : list (string * Intent)) (w : W)
    : result tally * machine W :=
  count_cases (LLMRouter.init knowledge_base orders) cases tally_init
    (LLMRouter.start w).

End Methods.
End Evaluate.

(** ** main.py *)

Module Main.

Definition session_id : string := "main-session".

(** [query.lower() in ['quit', 'exit', 'q']] *)
Definition is_quit (query : string) : bool :=
  existsb (String.eqb (lower query)) ["quit"; "exit"; "q"].

(** How the loop ends: with the quit command, at the end of the input
    ([input] raises), or with an exception of [route]. *)
Inductive ending : Type :=
| Goodbye
| EndOfInput
| Failed (e : exn).

Section Methods.
Context {W : Type} `{LLMProvider W}.
Variable repr : json -> string.

(** The loop of [main], on the lines that [input] returns; [printed] is
    the answers shown so far. *)
Fixpoint loop (router : LLMRouter.t) (lines : list string)
    (printed : list FinalResponse.t) (s : machine W)
    : ending * list FinalResponse.t * machine W :=
  match lines with
  | [] => (EndOfInput, printed, s)
  | line :: lines' =>
      let query := strip line in
      if is_quit query then (Goodbye, printed, s)
      else if negb (truthy_str (Some query)) then loop router lines' printed s
      else
        match LLMRouter.route repr router query session_id s with
        | (Ok result, s') => loop router lines' (printed ++ [result]) s'
        | (Raise e, s') => (Failed e, printed, s')
        end
  end.

End Methods.
End Main.

(** *** Vocabulary for the evaluation and the console loop *)

(** What a well-formed test case stands for: its query and its intent, or
    nothing when the intent name is not one of the three. *)
Definition decode_case (case : json) : option (json * Intent) :=
  match case with
  | JObj d =>
      match dict_get "query" d, dict_get "expected_intent" d with
      | Some query, Some intent_str =>
          option_map (pair query) (Evaluate.intent_of_name intent_str)
      | _, _ => None
      end
  | _ => None
  end.

(** A test case with both of its fields. *)
Definition complete_case (case : json) : bool :=
  match case with
  | JObj d =>
      match dict_get "query" d, dict_get "expected_intent" d with
      | Some _, Some _ => true
      | _, _ => false
      end
  | _ => false
  end.

(** The number of cases that expect the intent [i]. *)
Definition expecting (i : Intent) (cases : list (string * Intent)) : nat :=
  length (List.filter (fun case => Intent_eqb (snd case) i) cases).



(** The classifier raises, whatever it is asked and in whatever state. *)
Definition classifier_down {W} `{LLMProvider W} : Prop :=
  forall prompt system_prompt (w : W),
    exists e w', generate_json prompt system_prompt w = (Raise e, w').

(** An answer that asks the customer to clarify. *)
Definition is_clarification (r : FinalResponse.t) : bool :=
  Intent_eqb (FinalResponse.intent r) UNCLEAR
  && negb (FinalResponse.escalated r).

(** A provider that is down: every call raises. *)
Module Down.

Definition fail {A} (w : unit) : result A * unit :=
  (Raise (ProviderError "unreachable"), w).

#[global] Instance provider : LLMProvider unit :=
  {| generate := fun _ _ => fail; generate_json := fun _ _ => fail |}.

End Down.

(** *** More concrete inputs *)

(** A provider that answers the first rewrite with blanks and the second
    one with a sentence. *)
Definition blank_script : Scripted.script :=
  {| Scripted.classifications := [];
     Scripted.replies := [Ok "   "; Ok "We are open from 9 to 9."] |}.

(** A provider that classifies two turns as unclear. *)
Definition twice_unclear_script : Scripted.script :=
  {| Scripted.classifications :=
       [Scripted.classified UNCLEAR 0.3 None;
        Scripted.classified FAQ 0.4 None];
     Scripted.replies := [] |}.

(** A provider for a conversation of four turns: an unclear one, an
    answered question about the opening hours, an unclear turn, and a turn of
    low confidence. *)
Definition interrupted_script : Scripted.script :=
  {| Scripted.classifications :=
       [Scripted.classified UNCLEAR 0.3 None;
        Scripted.classified FAQ 0.95 None;
        Scripted.classified UNCLEAR 0.2 None;
        Scripted.classified FAQ 0.4 None];
     Scripted.replies := [Ok "We are open from 9 to 9."] |}.

Definition low_faq_answer : RouterResponse.t :=
  {| RouterResponse.intent := FAQ;
     RouterResponse.confidence := 0.4;
     RouterResponse.entities := ∅;
     RouterResponse.reasoning := "" |}.

(** A provider that is sure of an order question about [ORD-99999]. *)
Definition order_script : Scripted.script :=
  {| Scripted.classifications :=
       [Scripted.classified ORDER_STATUS 0.95 (Some "ORD-99999")];
     Scripted.replies := [] |}.

Definition order_answer : RouterResponse.t :=
  {| RouterResponse.intent := ORDER_STATUS;
     RouterResponse.confidence := 0.95;
     RouterResponse.entities := {[ "order_id" := "ORD-99999" ]};
     RouterResponse.reasoning := "" |}.

(** A router whose order records were not found on disk. *)
Definition router_without_orders : LLMRouter.t :=
  LLMRouter.init (Some two_topics) None.

(** A record whose second item is not a structured record. *)
Definition mixed_order : dict json :=
  [ ("order_id", JStr "ORD-20000");
    ("status", JStr "processing");
    ("items", JList [JObj [("name", JStr "Mouse")]; JStr "Keyboard"]) ].

(** Test cases: two with a known intent name, one with an unknown one. *)
Definition test_cases : list json :=
  [ JObj [("query", JStr "What are your hours?");
          ("expected_intent", JStr "faq")];
    JObj [("query", JStr "hello"); ("expected_intent", JStr "FAQ")];
    JObj [("query", JStr "hi"); ("expected_intent", JStr "unclear")] ].

Definition test_file : dict json := [ ("test_cases", JList test_cases) ].

(** ** providers.py: [LLMProvider.generate_json] *)

Module Providers.

(** [s.split(sep)] for a separator that is not empty: the pieces between the
    occurrences of [sep], found from the left and not overlapping. [skip]
    counts the characters of an occurrence still to pass, [cur] is the piece
    being read. *)
Fixpoint split_go (sep : string) (skip : nat) (cur : string) (s : string)
    : list string :=
  match s with
  | EmptyString => [cur]
  | String c s' =>
      match skip with
      | S k => split_go sep k cur s'
      | O =>
          if String.prefix sep s
          then cur :: split_go sep (String.length sep - 1) "" s'
          else split_go sep 0 (cur ++ String c "") s'
      end
  end.

Definition split (sep s : string) : list string := split_go sep 0 "" s.

(** [s.index(sub)], when [sub in s]. *)
Fixpoint index (sub s : string) : option nat :=
  if String.prefix sub s then Some 0
  else match s with
       | EmptyString => None
       | String _ s' => option_map S (index sub s')
       end.

(** [s.rindex(sub)], when [sub in s]. *)
Fixpoint rindex (sub s : string) : option nat :=
  match s with
  | EmptyString => if String.prefix sub s then Some 0 else None
  | String _ s' =>
      match rindex sub s' with
      | Some i => Some (S i)
      | None => if String.prefix sub s then Some 0 else None
      end
  end.

(** [s[i:]] and [s[:j]] *)
Fixpoint slice_from (i : nat) (s : string) : string :=
  match i, s with
  | S i', String _ s' => slice_from i' s'
  | _, _ => s
  end.

Fixpoint slice_to (j : nat) (s : string) : string :=
  match j, s with
  | S j', String c s' => String c (slice_to j' s')
  | _, _ => EmptyString
  end.

(** The part of [re] that [r'\{[^{}]*"intent"[^{}]*\}'] needs: a pattern is
    a sequence of literal characters and of [[^...]*], the longest run of
    characters outside a set, given back character by character when what
    follows does not match. *)
Inductive item : Type :=
| Chr (c : ascii)
| ManyNoneOf (set : string).

(** Match at the start of [s]: the matched text and what follows it. *)
Fixpoint match_items (items : list item) (s : string)
    : option (string * string) :=
  match items with
  | [] => Some (EmptyString, s)
  | Chr c :: items' =>
      match s with
      | String x s' =>
          if Ascii.eqb c x
          then match match_items items' s' with
               | Some (m, rest) => Some (String x m, rest)
               | None => None
               end
          else None
      | EmptyString => None
      end
  | ManyNoneOf set :: items' =>
      (fix many (s : string) : option (string * string) :=
         match s with
         | String x s' =>
             if negb (has_char x set)
             then match many s' with
                  | Some (m, rest) => Some (String x m, rest)
                  | None => match_items items' s
                  end
             else match_items items' s
         | EmptyString => match_items items' s
         end) s
  end.

(** [re.findall(pattern, s)] for a pattern that matches no empty text: the
    matches from the left, not overlapping. *)
Fixpoint findall_go (items : list item) (skip : nat) (s : string)
    : list string :=
  match s with
  | EmptyString => []
  | String _ s' =>
      match skip with
      | S k => findall_go items k s'
      | O =>
          match match_items items s with
          | Some (m, _) => m :: findall_go items (String.length m - 1) s'
          | None => findall_go items 0 s'
          end
      end
  end.

Definition findall (items : list item) (s : string) : list string :=
  findall_go items 0 s.

Definition chars (s : string) : list item :=
  map Chr (list_ascii_of_string s).

(** [r'\{[^{}]*"intent"[^{}]*\}'] *)
Definition intent_object : list item :=
  chars "{" ++ [ManyNoneOf "{}"] ++ chars (dq ++ "intent" ++ dq)
  ++ [ManyNoneOf "{}"] ++ chars "}".

Definition fence : string := "```".
Definition json_fence : string := "```json".

(** Lines 38 to 41: the text inside a code fence. The subscripts cannot
    fail: the separator occurs in the text. *)
Definition unfence (response : string) : string :=
  if str_in json_fence response
  then List.nth 0 (split fence (List.nth 1 (split json_fence response) "")) ""
  else if str_in fence response
       then List.nth 0 (split fence (List.nth 1 (split fence response) "")) ""
       else response.

(** Lines 44 to 54: a reply that repeats the schema. *)
Definition drop_schema (response : string) : string :=
  if str_in (dq ++ "$defs" ++ dq) response
     || str_in (dq ++ "properties" ++ dq) response
  then
    let parts := split "}, {" response in
    if (2 <=? length parts)%nat
    then "{" ++ List.last parts ""
    else
      match findall intent_object response with
      | [] => response
      | json_objects => List.last json_objects ""
      end
  else response.

(** Lines 56 to 60: from the first opening brace to the last closing one. *)
Definition trim_to_braces (response : string) : string :=
  let response :=
    match index "{" response with
    | Some i => slice_from i response
    | None => response
    end in
  match rindex "}" response with
  | Some j => slice_to (j + 1) response
  | None => response
  end.

(** Lines 36 to 62: the text that is handed to [json.loads]. *)
Definition extract_json (response : string) : string :=
  strip (trim_to_braces (drop_schema (unfence (strip response)))).

Definition indent : string := "        ".

(** The f-string of lines 19 to 32. *)
Definition full_prompt (system_prompt prompt : string) : string :=
  system_prompt ++ nl ++ nl
  ++ indent ++ "Query: " ++ prompt ++ nl ++ nl
  ++ indent ++ "Respond with a JSON object with these fields:" ++ nl
  ++ indent ++ "- intent: string (one of: " ++ dq ++ "faq" ++ dq ++ ", "
  ++ dq ++ "order_status" ++ dq ++ ", " ++ dq ++ "unclear" ++ dq ++ ")" ++ nl
  ++ indent ++ "- confidence: number (0.0 to 1.0)" ++ nl
  ++ indent ++ "- entities: object (e.g. {" ++ dq ++ "order_id" ++ dq ++ ": "
  ++ dq ++ "ORD-12345" ++ dq ++ "})" ++ nl
  ++ indent ++ "- reasoning: string (brief explanation)" ++ nl ++ nl
  ++ indent ++ "Example response:" ++ nl
  ++ indent ++ "{" ++ dq ++ "intent" ++ dq ++ ": " ++ dq ++ "faq" ++ dq
  ++ ", " ++ dq ++ "confidence" ++ dq ++ ": 0.95, " ++ dq ++ "entities" ++ dq
  ++ ": {}, " ++ dq ++ "reasoning" ++ dq ++ ": " ++ dq
  ++ "Query asks about store hours" ++ dq ++ "}" ++ nl ++ nl
  ++ indent ++ "IMPORTANT: Return ONLY the JSON object with intent/confidence/entities/reasoning. No schema, no markdown, no explanations.".

Section GenerateJson.
Context {W : Type}.
(** The abstract method of the provider. *)
Variable generate : string -> option string -> W -> result string * W.
(** Lines 64 to 70: [json.loads], the lower-casing of the intent and the
    construction of the validated model, with the exceptions they raise. *)
Variable decode : string -> result RouterResponse.t.

Definition generate_json (prompt system_prompt : string) (w : W)
    : result RouterResponse.t * W :=
  match generate (full_prompt system_prompt prompt) None w with
  | (Ok response, w') => (decode (extract_json response), w')
  | (Raise e, w') => (Raise e, w')
  end.

(** A provider: its own [generate], and [generate_json] from the base
    class. *)
Definition provider : LLMProvider W :=
  Build_LLMProvider W generate generate_json.

End GenerateJson.
End Providers.

(** *** Concrete replies *)

Definition faq_fields : string :=
  dq ++ "intent" ++ dq ++ ": " ++ dq ++ "faq" ++ dq ++ ", "
  ++ dq ++ "confidence" ++ dq ++ ": 0.4, " ++ dq ++ "entities" ++ dq ++ ": {}".

Definition faq_object : string := "{" ++ faq_fields ++ "}".

(** A decoder that knows one text. *)
Definition one_reply_decoder (text : string) : result RouterResponse.t :=
  if String.eqb text faq_object then Ok low_faq_answer
  else Raise (ValueError "Could not parse JSON").

(** A model that answers every prompt with a sentence. *)
Definition refusing (prompt : string) (system_prompt : option string)
    (w : unit) : result string * unit :=
  (Ok "I cannot answer that.", w).

(** ** agents/faq_agent.py on the data as it is loaded

    [FAQAgent.handle] above takes the knowledge base in the shape of the data
    model: topics with a list of keywords and an answer, all of them text.
    [json.load] returns whatever the file holds. This is [handle] on such a
    value, with the exceptions of its subscripts, of its iteration and of its
    membership test. *)

Module FAQData.

(** [self.knowledge_base.items()]: only a dict has the method; [None] is
    what [_load_data] returns when there is no file. *)
Definition items (knowledge_base : option json)
    : result (list (string * json)) :=
  match knowledge_base with
  | Some (JObj d) => Ok d
  | _ => Raise AttributeError
  end.

(** [content[key]] with a string key: a dict gives the value or raises
    [KeyError]; no other value can be subscripted with a string. *)
Definition subscript (content : json) (key : string) : result json :=
  match content with
  | JObj d =>
      match dict_get key d with
      | Some v => Ok v
      | None => Raise (KeyError key)
      end
  | _ => Raise TypeError
  end.

(** [for kw in v]: the elements of a list, the characters of a string, the
    keys of a dict; nothing else can be iterated. *)
Definition iterate (v : json) : result (list json) :=
  match v with
  | JList l => Ok l
  | JStr s => Ok (map (fun c => JStr (String c EmptyString))
                    (list_ascii_of_string s))
  | JObj d => Ok (map (fun item => JStr (fst item)) d)
  | _ => Raise TypeError
  end.

(** [kw in query_lower]: the left operand has to be a string. *)
Definition contains (query_lower : string) (kw : json) : result bool :=
  match kw with
  | JStr s => Ok (str_in s query_lower)
  | _ => Raise TypeError
  end.

(** [sum(1 for kw in kws if kw in query_lower)] *)
Fixpoint count (query_lower : string) (kws : list json) : result Z :=
  match kws with
  | [] => Ok 0%Z
  | kw :: kws' =>
      match contains query_lower kw with
      | Raise e => Raise e
      | Ok found =>
          match count query_lower kws' with
          | Raise e => Raise e
          | Ok n => Ok (if found then 1 + n else n)%Z
          end
      end
  end.

Definition score (query_lower : string) (content : json) : result Z :=
  match subscript content "keywords" with
  | Raise e => Raise e
  | Ok kws =>
      match iterate kws with
      | Raise e => Raise e
      | Ok kws => count query_lower kws
      end
  end.

Record loop : Type := {
  best_match : option json;
  best_score : Z;
  topic : option string
}.

Definition loop_init : loop :=
  {| best_match := None; best_score := 0; topic := None |}.

(** The matching loop; it stops at the first topic whose score raises. *)
Fixpoint find_best (query_lower : string) (kb : list (string * json))
    (st : loop) : result loop :=
  match kb with
  | [] => Ok st
  | (topic, content) :: kb' =>
      match score query_lower content with
      | Raise e => Raise e
      | Ok score =>
          find_best query_lower kb'
            (if (score >? best_score st)%Z
             then {| best_match := Some content; best_score := score;
                     topic := Some topic |}
             else {| best_match := best_match st;
                     best_score := best_score st;
                     topic := Some topic |})
      end
  end.

Section Methods.
Context {W : Type} `{LLMProvider W}.
(** [str(v)] of a value that is not a [str], as an f-string prints it. *)
Variable repr : json -> string.
(** What the validation of [message: str] makes of a value that is not a
    [str]: a conversion or an error, depending on the version of the
    validation library. *)
Variable as_message : json -> result string.

Definition lift {A} (r : result A) : M W A := fun s => (r, s).

(** [_refine]: the reply, stripped, or on any exception the answer as it
    was given. *)
Definition _refine (query : string) (answer : json) : M W json :=
  try_else
    (llm_generate (FAQAgent.prompt query (OrderAgent.format repr answer))
       (Some FAQAgent.system))
    (fun _ => mret answer)
    (fun refined => mret (JStr (strip (strip refined)))).

(** [AgentResponse(..., message=answer, ...)] *)
Definition message_of (answer : json) : result string :=
  match answer with
  | JStr s => Ok s
  | _ => as_message answer
  end.

Definition handle (llm : bool) (knowledge_base : option json)
    (query : string) : M W AgentResponse.t :=
  emit (EvFaqHandle query);;
  let query_lower := lower query in
  kb ← lift (items knowledge_base);
  st ← lift (find_best query_lower kb loop_init);
  match best_match st with
  | Some content =>
      if truthy content
      then
        answer ← lift (subscript content "answer");
        answer ← (if llm then _refine query answer else mret answer);
        match topic st with
        | Some topic =>
            message ← lift (message_of answer);
            mret {| AgentResponse.success := true;
                    AgentResponse.message := message;
                    AgentResponse.data := Some [("topic", JStr topic)];
                    AgentResponse.needs_clarification := false |}
        | None => raise (NameError "topic")
        end
      else
        mret {| AgentResponse.success := false;
                AgentResponse.message := FAQAgent.no_info;
                AgentResponse.data := None;
                AgentResponse.needs_clarification := false |}
  | None =>
      mret {| AgentResponse.success := false;
              AgentResponse.message := FAQAgent.no_info;
              AgentResponse.data := None;
              AgentResponse.needs_clarification := false |}
  end.

End Methods.

(** *** Data of the data model *)

(** A list of strings. *)
Fixpoint texts (l : list json) : option (list string) :=
  match l with
  | [] => Some []
  | JStr s :: l' =>
      match texts l' with
      | Some ss => Some (s :: ss)
      | None => None
      end
  | _ :: _ => None
  end.

(** A topic of the data model: a dict whose [keywords] is a list of strings
    and whose [answer] is a string. *)
Definition as_content (v : json) : option FAQAgent.content :=
  match v with
  | JObj d =>
      match dict_get "keywords" d, dict_get "answer" d with
      | Some (JList l), Some (JStr a) =>
          match texts l with
          | Some kws =>
              Some {| FAQAgent.keywords := kws; FAQAgent.answer := a |}
          | None => None
          end
      | _, _ => None
      end
  | _ => None
  end.

Fixpoint as_topics (d : list (string * json))
    : option (dict FAQAgent.content) :=
  match d with
  | [] => Some []
  | (topic, v) :: d' =>
      match as_content v, as_topics d' with
      | Some c, Some kb => Some ((topic, c) :: kb)
      | _, _ => None
      end
  end.

(** A knowledge base of the data model. *)
Definition as_base (v : json) : option (dict FAQAgent.content) :=
  match v with
  | JObj d => as_topics d
  | _ => None
  end.

(** The keywords of a topic can be counted: the topic is a dict, it has
    [keywords], they can be iterated and every one of them is a string. *)
Definition keywords_usable (content : json) : bool :=
  match content with
  | JObj d =>
      match dict_get "keywords" d with
      | Some kws =>
          match iterate kws with
          | Ok l =>
              forallb (fun kw => match kw with JStr _ => true | _ => false end)
                l
          | Raise _ => false
          end
      | None => false
      end
  | _ => false
  end.

(** The loop on the loaded data and the loop on the data model are at the
    same point: same score, same loop variable, and the best match of the one
    stands for the best match of the other. *)
Definition same_point (st : loop) (st' : FAQAgent.loop) : Prop :=
  best_score st = FAQAgent.best_score st'
  /\ topic st = FAQAgent.topic st'
  /\ match best_match st, FAQAgent.best_match st' with
     | Some v, Some c => as_content v = Some c
     | None, None => True
     | _, _ => False
     end.

End FAQData.

(** A knowledge base as it is loaded: the first topic is of the data model,
    the second one has a number among its keywords. *)
Definition damaged_base : json :=
  JObj [ ("hours",
          JObj [("keywords", JList [JStr "hours"; JStr "open"]);
                ("answer", JStr "We are open 9am-9pm.")]);
         ("returns",
          JObj [("keywords", JList [JStr "return"; JInt 30]);
                ("answer", JStr "Returns within 30 days.")]) ].

(** The two-topic knowledge base, as it is loaded. *)
Definition two_topics_data : json :=
  JObj [ ("hours",
          JObj [("answer", JStr "We are open 9am-9pm.");
                ("keywords", JList [JStr "hours"; JStr "open"])]);
         ("returns",
          JObj [("keywords", JList [JStr "return"; JStr "refund"]);
                ("answer", JStr "Returns within 30 days.");
                ("updated", JStr "2024-01-01")]) ].

(** A validation that accepts strings only. *)
Definition strict_message (v : json) : result string := Raise ValidationError.

(** * Proofs *)

(** ** Comparing a confidence with the threshold *)

Lemma compare_cont_flip m n :
  PosDef.Pos.compare_cont Eq m n = CompOpp (PosDef.Pos.compare_cont Eq n m).
Proof. change (Pos.compare m n = CompOpp (Pos.compare n m)). apply Pos.compare_antisym. Qed.

Lemma threshold_SF :
  Prim2SF LLMRouter.threshold = S754_finite false 6305039478318694 (-53).
Proof. vm_compute. reflexivity. Qed.

Lemma zero_SF : Prim2SF 0 = S754_zero false.
Proof. vm_compute. reflexivity. Qed.

Lemma not_below_threshold (x : float) :
  (0 <=? x)%float = true ->
  (x <? LLMRouter.threshold)%float = false ->
  (LLMRouter.threshold <=? x)%float = true.
Proof.
  rewrite !leb_spec, ltb_spec, threshold_SF, zero_SF.
  generalize 6305039478318694%positive as t. intros t.
  destruct (Prim2SF x) as [s|s| |s m e]; unfold SFleb, SFltb, SFcompare.
  - discriminate.
  - destruct s; [discriminate | reflexivity].
  - discriminate.
  - destruct s; [discriminate|]. intros _.
    rewrite (Z.compare_antisym e (-53)), (compare_cont_flip t m).
    destruct (e ?= -53)%Z; unfold CompOpp; try easy.
    destruct (PosDef.Pos.compare_cont Eq m t); easy.
Qed.

(** ** Order identifiers in a query *)

Lemma upper_lower_char c : upper_char (lower_char c) = upper_char c.
Proof. destruct c as [[] [] [] [] [] [] [] []]; reflexivity. Qed.

Lemma upper_lower s : upper (lower s) = upper s.
Proof.
  induction s as [|c s IH]; simpl; [reflexivity|].
  unfold upper, lower in *; simpl. now rewrite upper_lower_char, IH.
Qed.

Ltac split_tests :=
  repeat (cbn -[is_digit Ascii.eqb];
          match goal with
          | |- context [Ascii.eqb ?x ?y] => destruct (Ascii.eqb x y)
          | |- context [is_digit ?c] => destruct (is_digit c)
          end);
  cbn -[is_digit Ascii.eqb]; try reflexivity.

Lemma match_here_order s :
  Re.match_here OrderAgent.order_pattern s =
  if order_id_format (window 0 s) then Some (window 0 s) else None.
Proof.
  unfold window, order_id_format, OrderAgent.order_pattern.
  do 9 (destruct s as [|? s];
        [ cbn -[is_digit Ascii.eqb];
          repeat match goal with
                 | |- context [Ascii.eqb ?x ?y] =>
                     is_var x; rewrite (Ascii.eqb_sym x y)
                 end;
          solve [split_tests] |]).
  cbn -[is_digit Ascii.eqb].
  repeat match goal with
         | |- context [Ascii.eqb ?x ?y] => is_var x; rewrite (Ascii.eqb_sym x y)
         end.
  split_tests.
  all: try (destruct s; reflexivity).
Qed.

Lemma window_S i c s : window (S i) (String c s) = window i s.
Proof. reflexivity. Qed.

Lemma search_order_unfold s :
  Re.search OrderAgent.order_pattern s =
  if order_id_format (window 0 s) then Some (window 0 s)
  else match s with
       | EmptyString => None
       | String _ s' => Re.search OrderAgent.order_pattern s'
       end.
Proof.
  destruct s; unfold Re.search; fold Re.search; rewrite match_here_order;
    destruct (order_id_format _); reflexivity.
Qed.

Lemma search_order_Some s id :
  Re.search OrderAgent.order_pattern s = Some id <-> leftmost s id.
Proof.
  revert id; induction s as [|c s IH]; intros id; rewrite search_order_unfold.
  - cbn. split; [discriminate|].
    intros (i & <- & Hf & _). destruct i; discriminate Hf.
  - destruct (order_id_format (window 0 (String c s))) eqn:E.
    + split.
      * intros [= <-]. exists 0. repeat split; [assumption | lia].
      * intros (i & <- & Hf & Hlt). destruct i as [|i]; [reflexivity|].
        rewrite (Hlt 0) in E by lia. discriminate E.
    + rewrite IH. split.
      * intros (i & <- & Hf & Hlt). exists (S i). repeat split; [assumption|].
        intros [|j] Hj; [exact E|]. rewrite window_S. apply Hlt. lia.
      * intros (i & <- & Hf & Hlt). destruct i as [|i]; [congruence|].
        exists i. repeat split; [assumption|].
        intros j Hj. rewrite <- (window_S j c). apply Hlt. lia.
Qed.

Lemma search_order_None s :
  Re.search OrderAgent.order_pattern s = None <->
  forall i, order_id_format (window i s) = false.
Proof.
  induction s as [|c s IH]; rewrite search_order_unfold.
  - cbn. split; [|reflexivity]. intros _ [|i]; reflexivity.
  - destruct (order_id_format (window 0 (String c s))) eqn:E.
    + split; [discriminate|]. intros Hall. rewrite Hall in E. discriminate E.
    + rewrite IH. split.
      * intros Hall [|i]; [exact E|]. rewrite window_S. apply Hall.
      * intros Hall i. rewrite <- (window_S i c). apply Hall.
Qed.

(** The search looks at nine characters at a time and not at what is
    around them: of a longer run of digits it takes the first five. *)
Example extract_from_longer_run :
  OrderAgent._extract_order_id "ORD-1234567" = Some "ORD-12345".
Proof. reflexivity. Qed.

(** C4, as worded, fails: [ORD-123456] is no identifier in exact form, it has
    six digits, and the extraction takes [ORD-12345] from it. *)
Lemma extract_takes_five_of_six :
  ~ ignores_near_matches "Where is ORD-123456?".
Proof.
  unfold ignores_near_matches. intros Hclaim.
  specialize (Hclaim eq_refl). discriminate Hclaim.
Qed.

(** C4, amended. On ASCII text [_extract_order_id] returns exactly the
    leftmost nine characters of the upper-cased query that are [ORD-] followed
    by five digits, whatever stands before and after them, and nothing when
    no nine characters of it have that form; the case of the query does not
    matter; [ORD-123] is not taken, [ord-12345] is, and from [ORD-123456] the
    first five digits are. *)
Theorem extract_order_id_exact (query : string) :
  ascii_text query = true ->
  (forall id, OrderAgent._extract_order_id query = Some id
              <-> leftmost (upper query) id)
  /\ (OrderAgent._extract_order_id query = None
      <-> forall i, order_id_format (window i (upper query)) = false)
  /\ (has_exact_form (upper query) = true ->
      exists id, OrderAgent._extract_order_id query = Some id
                 /\ order_id_format id = true)
  /\ OrderAgent._extract_order_id (lower query)
     = OrderAgent._extract_order_id query
  /\ OrderAgent._extract_order_id "Where is ORD-123?" = None
  /\ OrderAgent._extract_order_id "where is ord-12345?" = Some "ORD-12345"
  /\ OrderAgent._extract_order_id "Where is ORD-123456?" = Some "ORD-12345".
Proof.
  intros _. unfold OrderAgent._extract_order_id.
  split; [|split; [|split; [|split; [|repeat split]]]].
  - intros id. apply search_order_Some.
  - apply search_order_None.
  - intros Hex. unfold has_exact_form in Hex.
    apply existsb_exists in Hex as (i & _ & Hi).
    unfold exact_form_at in Hi. apply andb_true_iff in Hi as [Hi _].
    destruct (Re.search OrderAgent.order_pattern (upper query)) as [id|] eqn:E.
    + exists id. split; [reflexivity|].
      apply search_order_Some in E as (j & <- & Hf & _). exact Hf.
    + rewrite (proj1 (search_order_None _) E i) in Hi. discriminate Hi.
  - now rewrite upper_lower.
Qed.

(** ** The router *)

Create HintDb keeps.

Section RouterFacts.
Context {W : Type} `{LLMProvider W}.
Variable repr : json -> string.

Lemma new_events_app (s s' : machine W) (evs : list event) :
  trace s' = (trace s ++ evs)%list -> new_events s s' = evs.
Proof. unfold new_events. intros ->. apply drop_app_length. Qed.

Lemma route_classified self query session_id s c w' :
  generate_json query LLMRouter.SYSTEM_PROMPT (world s) = (Ok c, w') ->
  LLMRouter.route repr self query session_id s =
  (if LLMRouter.gate c
   then LLMRouter._handle_unclear query c session_id
   else match RouterResponse.intent c with
        | FAQ =>
            agent_response ← FAQAgent.handle (LLMRouter.faq_agent self) query;
            mret (LLMRouter.respond query c agent_response)
        | ORDER_STATUS =>
            agent_response ←
              OrderAgent.handle repr (LLMRouter.order_agent self) query
                (RouterResponse.entities c !! "order_id");
            mret (LLMRouter.respond query c agent_response)
        | UNCLEAR => mret (LLMRouter._escalate query)
        end) (classified_state s query w').
Proof.
  intros Hc. unfold LLMRouter.route, try_else, llm_generate_json, with_world.
  rewrite Hc. reflexivity.
Qed.

Lemma route_failed self query session_id s e w' :
  generate_json query LLMRouter.SYSTEM_PROMPT (world s) = (Raise e, w') ->
  LLMRouter.route repr self query session_id s =
  (Ok (LLMRouter._escalate query), classified_state s query w').
Proof.
  intros Hc. unfold LLMRouter.route, try_else, llm_generate_json, with_world.
  rewrite Hc. reflexivity.
Qed.

Lemma handle_unclear_run query c session_id (s : machine W) :
  LLMRouter._handle_unclear query c session_id s =
  if (default 0 (unclear_count s !! session_id) =? 0)%Z
  then (Ok (clarification query (RouterResponse.confidence c)),
        {| unclear_count := <[session_id := 1%Z]> (unclear_count s);
           world := world s;
           trace := trace s ++ [EvCountRead session_id;
                                EvCountWrite session_id 1] |})
  else (Ok (LLMRouter._escalate query),
        {| unclear_count := unclear_count s;
           world := world s;
           trace := trace s ++ [EvCountRead session_id] |}).
Proof.
  unfold LLMRouter._handle_unclear, mbind, M_bind, bind, count_get. cbn.
  destruct (default 0 (unclear_count s !! session_id) =? 0)%Z; cbn.
  - rewrite <- app_assoc. reflexivity.
  - reflexivity.
Qed.

Lemma gate_true c :
  RouterResponse.intent c = UNCLEAR
  \/ (RouterResponse.confidence c <? 0.7)%float = true ->
  LLMRouter.gate c = true.
Proof.
  unfold LLMRouter.gate, LLMRouter.threshold. intros [-> | ->].
  - reflexivity.
  - apply orb_true_r.
Qed.

(** *** The agents and the provider never touch the counter map *)

Lemma keeps_ret {A} (a : A) : keeps_counts (mret a : M W A).
Proof. intros s. reflexivity. Qed.

Lemma keeps_raise {A} (e : exn) : keeps_counts (raise e : M W A).
Proof. intros s. reflexivity. Qed.

Lemma keeps_lift {A} (r : result A) : keeps_counts (OrderAgent.lift r : M W A).
Proof. intros s. reflexivity. Qed.

Lemma keeps_emit (e : event) : keeps_counts (emit e : M W unit).
Proof. intros s. reflexivity. Qed.

Lemma keeps_with_world {A} (f : W -> result A * W) (e : event) :
  keeps_counts (with_world f e).
Proof. intros s. unfold with_world. destruct (f (world s)). reflexivity. Qed.

Lemma keeps_bind {A B} (m : M W A) (k : A -> M W B) :
  keeps_counts m -> (forall a, keeps_counts (k a)) -> keeps_counts (m ≫= k).
Proof.
  intros Hm Hk s. unfold mbind, M_bind, bind.
  specialize (Hm s). destruct (m s) as [[a|e] s']; cbn in *.
  - rewrite <- Hm. apply Hk.
  - exact Hm.
Qed.

Lemma keeps_try_else {A B} (m : M W A) (h : exn -> M W B) (k : A -> M W B) :
  keeps_counts m -> (forall e, keeps_counts (h e)) ->
  (forall a, keeps_counts (k a)) -> keeps_counts (try_else m h k).
Proof.
  intros Hm Hh Hk s. unfold try_else.
  specialize (Hm s). destruct (m s) as [[a|e] s']; cbn in *.
  - rewrite <- Hm. apply Hk.
  - rewrite <- Hm. apply Hh.
Qed.

Lemma keeps_if {A} (b : bool) (m1 m2 : M W A) :
  keeps_counts m1 -> keeps_counts m2 -> keeps_counts (if b then m1 else m2).
Proof. destruct b; auto. Qed.

Hint Resolve keeps_ret keeps_raise keeps_lift keeps_emit keeps_with_world
  keeps_bind keeps_try_else keeps_if : keeps.

Lemma faq_refine_keeps query answer :
  keeps_counts (FAQAgent._refine query answer).
Proof. unfold FAQAgent._refine, llm_generate. auto with keeps. Qed.

Lemma order_refine_keeps query message :
  keeps_counts (OrderAgent._refine query message).
Proof. unfold OrderAgent._refine, llm_generate. auto with keeps. Qed.

Lemma faq_handle_keeps self query :
  keeps_counts (FAQAgent.handle self query).
Proof.
  unfold FAQAgent.handle. apply keeps_bind; [auto with keeps|]. intros _.
  destruct (FAQAgent.knowledge_base self); [|auto with keeps].
  destruct (FAQAgent.best_match _); [|auto with keeps].
  apply keeps_bind.
  - apply keeps_if; [apply faq_refine_keeps | auto with keeps].
  - intros a. destruct (FAQAgent.topic _); auto with keeps.
Qed.

Lemma order_handle_keeps self query order_id :
  keeps_counts (OrderAgent.handle repr self query order_id).
Proof.
  unfold OrderAgent.handle. apply keeps_bind; [auto with keeps|]. intros _.
  destruct (if negb (truthy_str order_id) then _ else _) as [[|c id]|];
    [auto with keeps| |auto with keeps].
  apply keeps_bind; [auto with keeps|]. intros db.
  destruct (dict_get _ db); [|auto with keeps].
  apply keeps_if; [auto with keeps|].
  apply keeps_bind; [auto with keeps|]. intros m1.
  apply keeps_bind;
    [apply keeps_if; [apply order_refine_keeps | auto with keeps]|].
  intros m2. apply keeps_bind; auto with keeps.
Qed.

(** What one [route] call does to the counter map: nothing, or it stores 1
    for its session. *)
Lemma route_counts self query session_id s :
  let m' := unclear_count (snd (LLMRouter.route repr self query session_id s)) in
  m' = unclear_count s \/ m' = <[session_id := 1%Z]> (unclear_count s).
Proof.
  cbn zeta.
  destruct (generate_json query LLMRouter.SYSTEM_PROMPT (world s))
    as [[c|e] w'] eqn:Hc.
  - rewrite (route_classified _ _ _ _ _ _ Hc).
    destruct (LLMRouter.gate c).
    + rewrite handle_unclear_run.
      destruct (_ =? _)%Z; cbn; auto.
    + left.
      destruct (RouterResponse.intent c).
      * apply (keeps_bind _ _ (faq_handle_keeps _ _)
                 (fun a => keeps_ret _) (classified_state s query w')).
      * apply (keeps_bind _ _ (order_handle_keeps _ _ _)
                 (fun a => keeps_ret _) (classified_state s query w')).
      * reflexivity.
  - rewrite (route_failed _ _ _ _ _ _ Hc). left. reflexivity.
Qed.

Lemma reset_session_run session_id (s : machine W) :
  LLMRouter.reset_session session_id s =
  (Ok tt,
   {| unclear_count := delete session_id (unclear_count s);
      world := world s;
      trace := (trace s ++ EvCountRead session_id ::
                  match unclear_count s !! session_id with
                  | Some _ => [EvCountDelete session_id]
                  | None => []
                  end)%list |}).
Proof.
  unfold LLMRouter.reset_session, mbind, M_bind, bind, count_contains, count_del.
  cbn. destruct (unclear_count s !! session_id) as [v|] eqn:E; cbn.
  - rewrite E. cbn. rewrite <- app_assoc. reflexivity.
  - rewrite delete_id by assumption. reflexivity.
Qed.

Lemma handle_unclear_events query c session_id (s : machine W) w' :
  new_events s
    (snd (LLMRouter._handle_unclear query c session_id
            (classified_state s query w'))) =
  EvGenerateJson query LLMRouter.SYSTEM_PROMPT :: EvCountRead session_id ::
  (if (default 0 (unclear_count s !! session_id) =? 0)%Z
   then [EvCountWrite session_id 1] else []).
Proof.
  rewrite handle_unclear_run. cbn [classified_state unclear_count trace world].
  destruct (_ =? _)%Z; apply new_events_app; cbn;
    rewrite <- app_assoc; reflexivity.
Qed.

Lemma route_unclear_run self query session_id s c w' :
  generate_json query LLMRouter.SYSTEM_PROMPT (world s) = (Ok c, w') ->
  RouterResponse.intent c = UNCLEAR
  \/ (RouterResponse.confidence c <? 0.7)%float = true ->
  LLMRouter.route repr self query session_id s =
  if (default 0 (unclear_count s !! session_id) =? 0)%Z
  then (Ok (clarification query (RouterResponse.confidence c)),
        {| unclear_count := <[session_id := 1%Z]> (unclear_count s);
           world := w';
           trace := (trace s
                     ++ [EvGenerateJson query LLMRouter.SYSTEM_PROMPT]
                     ++ [EvCountRead session_id;
                         EvCountWrite session_id 1])%list |})
  else (Ok (LLMRouter._escalate query),
        {| unclear_count := unclear_count s;
           world := w';
           trace := (trace s
                     ++ [EvGenerateJson query LLMRouter.SYSTEM_PROMPT]
                     ++ [EvCountRead session_id])%list |}).
Proof.
  intros Hc Hg. apply gate_true in Hg.
  rewrite (route_classified _ _ _ _ _ _ Hc), Hg, handle_unclear_run.
  cbn [classified_state unclear_count world trace].
  rewrite <- !app_assoc. reflexivity.
Qed.

(** C1. When classification succeeds with intent UNCLEAR or with a confidence
    below 0.7, [route] is exactly the unclear handling and no handler is
    invoked. A handler is invoked only if the intent is FAQ or ORDER_STATUS
    and the confidence is not below 0.7, which for the validated confidence
    of a successful classification, in [0, 1], means that it is at least
    0.7. *)
Theorem route_gate self query session_id s c w' :
  generate_json query LLMRouter.SYSTEM_PROMPT (world s) = (Ok c, w') ->
  let out := LLMRouter.route repr self query session_id s in
  (RouterResponse.intent c = UNCLEAR
   \/ (RouterResponse.confidence c <? 0.7)%float = true ->
   out = LLMRouter._handle_unclear query c session_id
           (classified_state s query w')
   /\ existsb is_handler_call (new_events s (snd out)) = false)
  /\ (existsb is_handler_call (new_events s (snd out)) = true ->
      (RouterResponse.intent c = FAQ \/ RouterResponse.intent c = ORDER_STATUS)
      /\ (RouterResponse.confidence c <? 0.7)%float = false
      /\ (RouterResponse.valid c = true ->
          (0.7 <=? RouterResponse.confidence c)%float = true)).
Proof.
  intros Hc out. subst out. rewrite (route_classified _ _ _ _ _ _ Hc).
  assert (Hunclear : LLMRouter.gate c = true ->
            existsb is_handler_call
              (new_events s
                 (snd (LLMRouter._handle_unclear query c session_id
                         (classified_state s query w')))) = false).
  { intros _. rewrite handle_unclear_events. destruct (_ =? _)%Z; reflexivity. }
  split.
  - intros Hg. apply gate_true in Hg. rewrite Hg. auto.
  - destruct (LLMRouter.gate c) eqn:Hg.
    + rewrite Hunclear by reflexivity. discriminate.
    + intros _. unfold LLMRouter.gate in Hg.
      apply orb_false_elim in Hg as [Hi Hlt].
      split; [destruct (RouterResponse.intent c); auto; discriminate|].
      split; [exact Hlt|].
      intros Hv. unfold RouterResponse.valid in Hv.
      apply andb_true_iff in Hv as [Hlo _].
      apply not_below_threshold; assumption.
Qed.

(** C2. An unclear turn of a session whose counter is absent or 0 stores 1
    and answers with the clarification: intent UNCLEAR, the classifier's
    confidence, not escalated, and a message that asks the customer to clarify
    and names the two supported categories, store policies and order status.
    An unclear turn of a session whose counter is at least 1 answers with the
    escalation and leaves the counter map as it was. *)
Theorem unclear_turn self query session_id s c w' :
  generate_json query LLMRouter.SYSTEM_PROMPT (world s) = (Ok c, w') ->
  RouterResponse.intent c = UNCLEAR
  \/ (RouterResponse.confidence c <? 0.7)%float = true ->
  let out := LLMRouter.route repr self query session_id s in
  (unclear_count s !! session_id = None
   \/ unclear_count s !! session_id = Some 0%Z ->
   exists r,
     fst out = Ok r
     /\ r = clarification query (RouterResponse.confidence c)
     /\ FinalResponse.query r = query
     /\ FinalResponse.intent r = UNCLEAR
     /\ FinalResponse.confidence r = RouterResponse.confidence c
     /\ FinalResponse.escalated r = false
     /\ str_in "Could you clarify?" (FinalResponse.response r) = true
     /\ str_in "Store policies (hours, returns, shipping)"
          (FinalResponse.response r) = true
     /\ str_in "Order status (provide order ID: ORD-XXXXX)"
          (FinalResponse.response r) = true
     /\ unclear_count (snd out) = <[session_id := 1%Z]> (unclear_count s)
     /\ unclear_count (snd out) !! session_id = Some 1%Z)
  /\ (forall n, unclear_count s !! session_id = Some n -> (1 <= n)%Z ->
      fst out = Ok (LLMRouter._escalate query)
      /\ FinalResponse.escalated (LLMRouter._escalate query) = true
      /\ unclear_count (snd out) = unclear_count s).
Proof.
  intros Hc Hg out. subst out.
  rewrite (route_unclear_run _ _ _ _ _ _ Hc Hg).
  split.
  - intros Hcount.
    assert (default 0%Z (unclear_count s !! session_id) = 0%Z) as ->
      by (destruct Hcount as [-> | ->]; reflexivity).
    cbn [Z.eqb fst snd unclear_count]. eexists. split; [reflexivity|].
    do 9 (split; [reflexivity|]). apply lookup_insert_eq.
  - intros n Hn Hle. rewrite Hn. cbn.
    destruct (Z.eqb_spec n 0); [lia|]. cbn. auto.
Qed.

(** C5. When the classification call raises, [route] answers with the fixed
    escalation: intent UNCLEAR, confidence 0.0, a message with the e-mail and
    the phone contact, escalated. The counter map is not modified, the call
    makes no access to it, and its answer is the same for every counter map. *)
Theorem classification_failure self query session_id s e w' :
  generate_json query LLMRouter.SYSTEM_PROMPT (world s) = (Raise e, w') ->
  let out := LLMRouter.route repr self query session_id s in
  fst out = Ok (LLMRouter._escalate query)
  /\ FinalResponse.intent (LLMRouter._escalate query) = UNCLEAR
  /\ FinalResponse.confidence (LLMRouter._escalate query) = 0%float
  /\ FinalResponse.escalated (LLMRouter._escalate query) = true
  /\ str_in "support@store.com"
       (FinalResponse.response (LLMRouter._escalate query)) = true
  /\ str_in "1-800-SHOP-NOW"
       (FinalResponse.response (LLMRouter._escalate query)) = true
  /\ unclear_count (snd out) = unclear_count s
  /\ existsb is_count_access (new_events s (snd out)) = false
  /\ (forall m,
        fst (LLMRouter.route repr self query session_id (with_counts m s))
        = fst out).
Proof.
  intros Hc out. subst out. rewrite (route_failed _ _ _ _ _ _ Hc).
  cbn [fst snd]. repeat split.
  - unfold new_events, classified_state. cbn [trace].
    rewrite drop_app_length. reflexivity.
  - intros m. rewrite (route_failed _ _ _ (with_counts m s) e w');
      [reflexivity | exact Hc].
Qed.

(** C7. [reset_session] returns without raising, removes the session's entry
    if there is one and changes nothing otherwise; other sessions keep their
    entries; a second reset changes nothing more; and an unclear turn after a
    reset is answered with the clarification, not the escalation. *)
Theorem reset_session_spec session_id (s : machine W) :
  let s1 := snd (LLMRouter.reset_session session_id s) in
  fst (LLMRouter.reset_session session_id s) = Ok tt
  /\ unclear_count s1 = delete session_id (unclear_count s)
  /\ unclear_count s1 !! session_id = None
  /\ (forall other, other <> session_id ->
        unclear_count s1 !! other = unclear_count s !! other)
  /\ (unclear_count s !! session_id = None ->
        unclear_count s1 = unclear_count s)
  /\ world s1 = world s
  /\ fst (LLMRouter.reset_session session_id s1) = Ok tt
  /\ unclear_count (snd (LLMRouter.reset_session session_id s1))
       = unclear_count s1
  /\ (forall self query c w',
        generate_json query LLMRouter.SYSTEM_PROMPT (world s1) = (Ok c, w') ->
        RouterResponse.intent c = UNCLEAR
        \/ (RouterResponse.confidence c <? 0.7)%float = true ->
        let out := LLMRouter.route repr self query session_id s1 in
        fst out = Ok (clarification query (RouterResponse.confidence c))
        /\ FinalResponse.escalated
             (clarification query (RouterResponse.confidence c)) = false).
Proof.
  cbn zeta. rewrite !reset_session_run. cbn [fst snd unclear_count world].
  split; [reflexivity|]. split; [reflexivity|].
  split; [apply lookup_delete_eq|].
  split; [intros other Hne; apply lookup_delete_ne; congruence|].
  split; [intros Hnone; apply delete_id; exact Hnone|].
  split; [reflexivity|]. split; [reflexivity|].
  split; [apply delete_id, lookup_delete_eq|].
  intros self query c w' Hc Hg.
  match goal with
  | |- context [LLMRouter.route _ _ _ _ ?st] =>
      rewrite (route_unclear_run self query session_id st c w' Hc Hg)
  end.
  cbn [unclear_count]. rewrite lookup_delete_eq. cbn. auto.
Qed.

(** C10. In every state the router can reach from the empty counter map by
    [route] and [reset_session] calls, every stored counter is exactly 1. *)
Theorem counters_are_one self s :
  reachable repr self s -> counters_one (unclear_count s).
Proof.
  induction 1 as [w | s query session_id _ IH | s session_id _ IH].
  - intros sid v Hl. cbn in Hl. rewrite lookup_empty in Hl. discriminate.
  - destruct (route_counts self query session_id s) as [-> | ->];
      [exact IH|].
    intros sid v. rewrite lookup_insert. case_decide.
    + congruence.
    + apply IH.
  - rewrite reset_session_run. cbn [snd unclear_count].
    intros sid v. rewrite lookup_delete. case_decide; [discriminate|].
    apply IH.
Qed.

End RouterFacts.

(** ** Text *)

Lemma append_cons (x : ascii) (a b : string) :
  String x a ++ b = String x (a ++ b).
Proof. reflexivity. Qed.

Lemma append_assoc (a b c : string) : (a ++ b) ++ c = a ++ (b ++ c).
Proof.
  induction a as [|x a IH]; [reflexivity|].
  now rewrite !append_cons, IH.
Qed.

Lemma append_empty_r (a : string) : a ++ "" = a.
Proof.
  induction a as [|x a IH]; [reflexivity|].
  now rewrite append_cons, IH.
Qed.

Lemma prefix_append (a b : string) : String.prefix a (a ++ b) = true.
Proof.
  induction a as [|x a IH]; [now destruct b|].
  rewrite append_cons. cbn [String.prefix].
  destruct (ascii_dec x x); [exact IH | congruence].
Qed.

Lemma str_in_prefix (sub s : string) :
  String.prefix sub s = true -> str_in sub s = true.
Proof. intros Hp. destruct s; cbn [str_in]; now rewrite Hp. Qed.

(** [sub in a + sub + b] *)
Lemma str_in_append (sub a b : string) : str_in sub (a ++ sub ++ b) = true.
Proof.
  induction a as [|x a IH].
  - change (str_in sub (sub ++ b) = true).
    apply str_in_prefix, prefix_append.
  - rewrite append_cons. cbn [str_in]. rewrite IH.
    now destruct (String.prefix _ _).
Qed.

Lemma str_in_skip (sub a t : string) :
  str_in sub t = true -> str_in sub (a ++ t) = true.
Proof.
  intros Ht. induction a as [|x a IH]; [exact Ht|].
  rewrite append_cons. cbn [str_in]. rewrite IH.
  now destruct (String.prefix _ _).
Qed.

(** ** The FAQ agent *)

Lemma fold_topic (query_lower : string) (kb : dict FAQAgent.content) st :
  FAQAgent.topic (fold_left (FAQAgent.loop_body query_lower) kb st) =
  fold_left (fun _ item => Some (fst item)) kb (FAQAgent.topic st).
Proof.
  revert st; induction kb as [|[topic content] kb IH]; intros st;
    [reflexivity|].
  cbn [fold_left]. rewrite IH. f_equal.
  unfold FAQAgent.loop_body. now destruct (_ >? _)%Z.
Qed.

(** After the loop, [topic] is the last key of the base, whatever matched. *)
Lemma find_best_topic (query_lower : string) (kb : dict FAQAgent.content) :
  FAQAgent.topic (FAQAgent.find_best query_lower kb) = last_key kb.
Proof. apply fold_topic. Qed.


Lemma fold_agree P query_lower (kb : dict FAQAgent.content) :
  (forall t c, In (t, c) kb -> P t c) ->
  forall st acc,
    agree P st acc ->
    agree P (fold_left (FAQAgent.loop_body query_lower) kb st)
      (fold_left (better query_lower) kb acc).
Proof.
  induction kb as [|[t c] kb IH]; intros HP st acc Hag; [exact Hag|].
  cbn [fold_left]. apply IH; [intros; apply HP; now right|].
  unfold FAQAgent.loop_body, better. cbn [fst snd].
  assert (Hb : match acc with Some (_, b) => b | None => 0%Z end
               = FAQAgent.best_score st).
  { destruct acc as [[? ?]|]; cbn in Hag; now destruct Hag. }
  rewrite Hb. destruct (_ >? _)%Z.
  - cbn. split; [reflexivity|]. exists c. split; [reflexivity|].
    apply HP. now left.
  - destruct acc as [[? ?]|]; exact Hag.
Qed.

Lemma find_best_matched query kb :
  match matched_topic query kb with
  | Some t =>
      exists c, In (t, c) kb
                /\ FAQAgent.best_match (FAQAgent.find_best (lower query) kb)
                   = Some c
  | None =>
      FAQAgent.best_match (FAQAgent.find_best (lower query) kb) = None
  end.
Proof.
  pose proof (fold_agree (fun t c => In (t, c) kb) (lower query) kb
                (fun t c Hin => Hin) FAQAgent.loop_init None
                (conj eq_refl eq_refl)) as Hag.
  unfold matched_topic, FAQAgent.find_best.
  destruct (fold_left (better (lower query)) kb None) as [[t b]|]; cbn in *.
  - destruct Hag as (_ & c & Hc & Hin). eauto.
  - now destruct Hag.
Qed.

Section AgentFacts.
Context {W : Type} `{LLMProvider W}.
Variable repr : json -> string.

(** What [handle] reports on a match, without the rewrite: the answer of the
    best match, and as topic the last key of the base. *)
Lemma faq_handle_match kb query content (s : machine W) :
  FAQAgent.best_match (FAQAgent.find_best (lower query) kb) = Some content ->
  exists last,
    last_key kb = Some last
    /\ fst (FAQAgent.handle
             {| FAQAgent.llm := false; FAQAgent.knowledge_base := Some kb |}
             query s)
       = Ok {| AgentResponse.success := true;
               AgentResponse.message := FAQAgent.answer content;
               AgentResponse.data := Some [("topic", JStr last)];
               AgentResponse.needs_clarification := false |}.
Proof.
  intros Hm. unfold FAQAgent.handle, mbind, M_bind, bind. cbn.
  rewrite Hm, find_best_topic. cbn.
  destruct kb as [|item kb].
  - discriminate Hm.
  - assert (Hl : exists last, last_key (item :: kb) = Some last).
    { unfold last_key. cbn [fold_left]. generalize (fst item).
      clear Hm. induction kb as [|i kb IH]; intros k; cbn [fold_left];
        eauto. }
    destruct Hl as [last Hl]. exists last. rewrite Hl. auto.
Qed.

(** In the words of the specification: the answer is the one of the matched
    topic, the topic reported is the last key. *)
Lemma faq_handle_reports_last kb query t (s : machine W) :
  matched_topic query kb = Some t ->
  exists c last,
    In (t, c) kb /\ last_key kb = Some last
    /\ fst (FAQAgent.handle
             {| FAQAgent.llm := false; FAQAgent.knowledge_base := Some kb |}
             query s)
       = Ok {| AgentResponse.success := true;
               AgentResponse.message := FAQAgent.answer c;
               AgentResponse.data := Some [("topic", JStr last)];
               AgentResponse.needs_clarification := false |}.
Proof.
  intros Ht. pose proof (find_best_matched query kb) as Hm.
  rewrite Ht in Hm. destruct Hm as (c & Hin & Hc).
  destruct (faq_handle_match kb query c s Hc) as (last & Hl & Hrun).
  exists c, last. auto.
Qed.

Lemma faq_refine_fallback query text (s : machine W) e w' :
  generate (FAQAgent.prompt query text) (Some FAQAgent.system) (world s)
  = (Raise e, w') ->
  fst (FAQAgent._refine query text s) = Ok text.
Proof.
  intros Hcall. unfold FAQAgent._refine, try_else, llm_generate, with_world.
  now rewrite Hcall.
Qed.

Lemma order_refine_fallback query text (s : machine W) e w' :
  generate (OrderAgent.prompt query text) (Some OrderAgent.system) (world s)
  = (Raise e, w') ->
  fst (OrderAgent._refine query text s) = Ok text.
Proof.
  intros Hcall. unfold OrderAgent._refine, try_else, llm_generate, with_world.
  now rewrite Hcall.
Qed.

(** The calls a rewrite step records, and what it returns when they raise. *)
Lemma refine_calls_raise (prompt : string) (system : option string)
    (text : string) (s0 s : machine W) evs :
  world s = world s0 ->
  trace s = (trace s0 ++ evs)%list ->
  let run :=
    try_else (llm_generate prompt system) (fun _ => mret text)
      (fun refined => mret (strip (strip refined))) s in
  calls_raise (world s0) (new_events s0 (snd run)) ->
  fst run = Ok text.
Proof.
  intros Hw Ht run Hraise. subst run.
  unfold try_else, llm_generate, with_world in *.
  destruct (generate prompt system (world s)) as [[reply|e] w'] eqn:Hcall;
    [|reflexivity].
  exfalso. destruct (Hraise prompt system) as (e & w2 & He).
  - cbn. erewrite new_events_app.
    2:{ cbn [trace]. rewrite Ht, <- app_assoc. reflexivity. }
    apply in_or_app. right. now left.
  - rewrite <- Hw, Hcall in He. discriminate He.
Qed.

(** C6. When the rewrite call raises, [_refine] returns the text it was
    given. When the rewrite call that a [handle] makes raises, that [handle]
    returns what the same agent returns without a provider, that is with the
    unrewritten message: the same outcome, with the same success, data and
    request for clarification, or the same exception where it raises for
    another reason. Only the call that is made has to raise; what the
    provider would answer to other requests does not matter. *)
Theorem rewrite_failure_falls_back kb orders query order_id (s : machine W) :
  let faq llm :=
    FAQAgent.handle
      {| FAQAgent.llm := llm; FAQAgent.knowledge_base := kb |} query s in
  let order llm :=
    OrderAgent.handle repr
      {| OrderAgent.llm := llm; OrderAgent.orders := orders |}
      query order_id s in
  (forall text e w',
     generate (FAQAgent.prompt query text) (Some FAQAgent.system) (world s)
     = (Raise e, w') ->
     fst (FAQAgent._refine query text s) = Ok text)
  /\ (forall text e w',
       generate (OrderAgent.prompt query text) (Some OrderAgent.system)
         (world s) = (Raise e, w') ->
       fst (OrderAgent._refine query text s) = Ok text)
  /\ (calls_raise (world s) (new_events s (snd (faq true))) ->
      fst (faq true) = fst (faq false))
  /\ (calls_raise (world s) (new_events s (snd (order true))) ->
      fst (order true) = fst (order false)).
Proof.
  cbn zeta. split; [|split; [|split]].
  - intros text e w'. apply faq_refine_fallback.
  - intros text e w'. apply order_refine_fallback.
  - unfold FAQAgent.handle, mbind, M_bind, bind. cbn.
    destruct kb as [kb|]; [|reflexivity].
    destruct (FAQAgent.best_match _) as [content|]; [|reflexivity].
    unfold FAQAgent._refine.
    match goal with
    | |- context [try_else _ _ _ ?st] => set (s1 := st)
    end.
    intros Hraise.
    assert (Hrun : fst (try_else
                          (llm_generate
                             (FAQAgent.prompt query (FAQAgent.answer content))
                             (Some FAQAgent.system))
                          (fun _ => mret (FAQAgent.answer content))
                          (fun refined => mret (strip (strip refined))) s1)
                   = Ok (FAQAgent.answer content)).
    { apply (refine_calls_raise _ _ _ s s1 [EvFaqHandle query]);
        [reflexivity | reflexivity |].
      intros p sp Hin. apply Hraise.
      destruct (try_else _ _ _ s1) as [[a|e] s2]; cbn [fst snd] in *;
        [|exact Hin].
      cbn. destruct (FAQAgent.topic _); exact Hin. }
    destruct (try_else _ _ _ s1) as [[a|e] s2]; cbn [fst] in Hrun;
      [|discriminate Hrun].
    injection Hrun as ->. cbn. destruct (FAQAgent.topic _); reflexivity.
  - unfold OrderAgent.handle, mbind, M_bind, bind. cbn.
    destruct (if negb (truthy_str order_id) then _ else _) as [[|c id]|];
      [reflexivity| |reflexivity].
    destruct orders as [db|]; [|reflexivity]. cbn.
    destruct (dict_get _ db) as [order|]; [|reflexivity].
    destruct (truthy order); [|reflexivity]. cbn.
    destruct (OrderAgent._format_order repr order) as [message|e];
      [|reflexivity].
    unfold OrderAgent._refine. cbn.
    match goal with
    | |- context [try_else _ _ _ ?st] => set (s1 := st)
    end.
    intros Hraise.
    assert (Hrun : fst (try_else
                          (llm_generate (OrderAgent.prompt query message)
                             (Some OrderAgent.system))
                          (fun _ => mret message)
                          (fun refined => mret (strip (strip refined))) s1)
                   = Ok message).
    { apply (refine_calls_raise _ _ _ s s1 [EvOrderHandle query order_id]);
        [reflexivity | reflexivity |].
      intros p sp Hin. apply Hraise.
      destruct (try_else _ _ _ s1) as [[a|e] s2]; cbn [fst snd] in *;
        [|exact Hin].
      cbn. destruct (OrderAgent.as_data order); exact Hin. }
    destruct (try_else _ _ _ s1) as [[a|e] s2]; cbn [fst] in Hrun;
      [|discriminate Hrun].
    injection Hrun as ->. cbn. destruct (OrderAgent.as_data order);
      reflexivity.
Qed.

(** C9. For an identifier of the valid format that is not in the order
    records, given as the hint or read from the query, [handle] returns: no
    success, no request for clarification, and the message that names the
    identifier and the support address. *)
Theorem order_not_found self query hint id db (s : machine W) :
  OrderAgent.orders self = Some db ->
  order_id_format id = true ->
  dict_get id db = None ->
  hint = Some id
  \/ (truthy_str hint = false /\ OrderAgent._extract_order_id query = Some id) ->
  fst (OrderAgent.handle repr self query hint s) = Ok (order_missing id)
  /\ AgentResponse.success (order_missing id) = false
  /\ AgentResponse.needs_clarification (order_missing id) = false
  /\ str_in id (AgentResponse.message (order_missing id)) = true
  /\ str_in "support@store.com" (AgentResponse.message (order_missing id))
     = true.
Proof.
  intros Hdb Hfmt Hnone Hid.
  split; [|split; [reflexivity|split; [reflexivity|split]]].
  - destruct id as [|c id]; [discriminate Hfmt|].
    unfold OrderAgent.handle, mbind, M_bind, bind. cbn [emit].
    assert ((if negb (truthy_str hint)
             then OrderAgent._extract_order_id query else hint)
            = Some (String c id)) as ->.
    { destruct Hid as [-> | [-> ->]]; reflexivity. }
    rewrite Hdb. cbn. rewrite Hnone. reflexivity.
  - apply (str_in_append id "Order ").
  - cbn [order_missing AgentResponse.message]. unfold OrderAgent.not_found.
    apply (str_in_skip _ "Order "), str_in_skip.
    apply (str_in_append "support@store.com"
             " not found. Please verify your order number or contact " ".").
Qed.

End AgentFacts.

(** C3. The matched topic is not what [handle] reports. On the two-topic
    base, a question about store hours is answered from the topic [hours],
    the only one with a keyword in the query, but the outcome names the topic
    [returns], the last key of the base. *)
Theorem faq_topic_is_last_key :
  matched_topic hours_query two_topics = Some "hours"
  /\ FAQAgent.score (lower hours_query)
       {| FAQAgent.keywords := ["return"; "refund"];
          FAQAgent.answer := "Returns within 30 days." |} = 0%Z
  /\ fst (FAQAgent.handle
           {| FAQAgent.llm := false;
              FAQAgent.knowledge_base := Some two_topics |}
           hours_query (LLMRouter.start silent_script))
     = Ok {| AgentResponse.success := true;
             AgentResponse.message := "We are open 9am-9pm.";
             AgentResponse.data := Some [("topic", JStr "returns")];
             AgentResponse.needs_clarification := false |}.
Proof. repeat split. Qed.

(** ** The order agent's message *)

Section FormatFacts.
Variable repr : json -> string.

Lemma record_names_run items names :
  record_names items = Some names ->
  exists l, OrderAgent.item_names items = Ok l
            /\ OrderAgent.all_str l = Ok names.
Proof.
  revert names; induction items as [|item items IH]; intros names.
  - intros [= <-]. exists []. auto.
  - destruct item as [| | | | | |d]; try discriminate. cbn.
    destruct (record_names items) as [rest|];
      [|destruct (dict_get "name" d) as [[]|]; discriminate].
    destruct (IH rest eq_refl) as (l & -> & Hl).
    destruct (dict_get "name" d) as [[| | | |name| |]|]; try discriminate;
      intros [= <-]; eexists; (split; [reflexivity|]); cbn; now rewrite Hl.
Qed.

Lemma plain_names_run items names :
  plain_names items = Some names -> OrderAgent.all_str items = Ok names.
Proof.
  revert names; induction items as [|item items IH]; intros names.
  - now intros [= <-].
  - destruct item as [| | | |s| |]; try discriminate. cbn.
    destruct (plain_names items) as [rest|]; [|discriminate].
    intros [= <-]. now rewrite (IH rest eq_refl).
Qed.

Lemma items_str_run order names :
  order_items order = Some names ->
  OrderAgent.items_str order = Ok (spec_items_str names).
Proof.
  unfold order_items, OrderAgent.items_str.
  destruct (dict_get "items" order) as [[| | | | |items|]|];
    cbn -[record_names plain_names OrderAgent.item_names OrderAgent.all_str];
    try discriminate; try (now intros [= <-]).
  destruct items as [|first rest]; [now intros [= <-]|].
  destruct first as [| | | |s| |d].
  1-4, 6: discriminate.
  - intros Hp. unfold OrderAgent.join_json.
    rewrite (plain_names_run _ _ Hp).
    destruct names; [|reflexivity].
    cbn in Hp. destruct (plain_names rest); discriminate.
  - intros Hr. destruct (record_names_run _ _ Hr) as (l & -> & Hl).
    unfold OrderAgent.join_json. rewrite Hl.
    destruct names; [|reflexivity].
    cbn in Hr.
    destruct (dict_get "name" d) as [[]|], (record_names rest); discriminate.
Qed.

Lemma append_if_run order key label msg value :
  optional_text key order = Some value ->
  OrderAgent.append_if repr order key label msg =
  msg ++ match value with
         | Some text => label ++ text ++ "."
         | None => ""
         end.
Proof.
  unfold optional_text, OrderAgent.append_if.
  destruct (dict_get key order) as [[| | | |s| |]|]; try discriminate;
    intros [= <-]; cbn; rewrite ?append_empty_r; try reflexivity.
  destruct (String.eqb s ""); cbn; now rewrite ?append_empty_r.
Qed.

(** C8. For an order record of the data model (identifier and status are
    text, the items are absent, empty, structured records or plain strings,
    tracking and delivery date are optional text), [_format_order] returns
    the message of the specification: the identifier, the comma-joined item
    names or [your items], the status, then the tracking sentence exactly
    when there is a tracking value and the delivery sentence exactly when
    there is a delivery date. A value is there when the field holds a
    non-empty string. *)
Theorem format_order_message order id status names tracking delivery_date :
  dict_get "order_id" order = Some (JStr id) ->
  dict_get "status" order = Some (JStr status) ->
  order_items order = Some names ->
  optional_text "tracking" order = Some tracking ->
  optional_text "delivery_date" order = Some delivery_date ->
  OrderAgent._format_order repr (JObj order)
  = Ok (spec_message id names status tracking delivery_date).
Proof.
  intros Hid Hst Hitems Htr Hdd.
  unfold OrderAgent._format_order, OrderAgent.subscript.
  rewrite (items_str_run _ _ Hitems), Hid, Hst.
  cbn [OrderAgent.format].
  rewrite (append_if_run _ _ _ _ _ Htr), (append_if_run _ _ _ _ _ Hdd).
  unfold spec_message. f_equal.
  rewrite !append_assoc. reflexivity.
Qed.

End FormatFacts.

(** ** The theorems at concrete inputs *)

Lemma route_gate_witness :
  let s := LLMRouter.start unclear_script in
  let out := LLMRouter.route Scripted.repr router0 "hi" "session-1" s in
  generate_json "hi" LLMRouter.SYSTEM_PROMPT (world s)
  = (Ok unclear_answer, silent_script)
  /\ out = LLMRouter._handle_unclear "hi" unclear_answer "session-1"
             (classified_state s "hi" silent_script)
  /\ existsb is_handler_call (new_events s (snd out)) = false.
Proof.
  cbn zeta. split; [reflexivity|].
  apply (route_gate Scripted.repr router0 "hi" "session-1"
           (LLMRouter.start unclear_script) unclear_answer silent_script);
    [reflexivity | right; reflexivity].
Defined.

Lemma extract_order_id_exact_witness :
  ascii_text "Is ORD-123456 late?" = true
  /\ leftmost (upper "Is ORD-123456 late?") "ORD-12345".
Proof.
  split; [reflexivity|].
  apply (proj1 (extract_order_id_exact "Is ORD-123456 late?" eq_refl)
           "ORD-12345").
  reflexivity.
Defined.

Lemma unclear_turn_witness :
  let s := LLMRouter.start unclear_script in
  let out := LLMRouter.route Scripted.repr router0 "hi" "session-1" s in
  generate_json "hi" LLMRouter.SYSTEM_PROMPT (world s)
  = (Ok unclear_answer, silent_script)
  /\ (RouterResponse.confidence unclear_answer <? 0.7)%float = true
  /\ unclear_count s !! "session-1" = None
  /\ exists r,
       fst out = Ok r
       /\ FinalResponse.confidence r = 0.3%float
       /\ str_in "Could you clarify?" (FinalResponse.response r) = true
       /\ unclear_count (snd out) !! "session-1" = Some 1%Z.
Proof.
  cbn zeta. split; [reflexivity|]. split; [reflexivity|].
  split; [reflexivity|].
  edestruct (unclear_turn Scripted.repr router0 "hi" "session-1"
               (LLMRouter.start unclear_script) unclear_answer silent_script)
    as [Hfirst _]; [reflexivity | right; reflexivity |].
  destruct Hfirst as (r & Hout & _ & _ & _ & Hconf & _ & Hask & _ & _ & _ & Hone);
    [left; reflexivity|].
  exists r. split; [exact Hout|]. split; [exact Hconf|].
  split; [exact Hask | exact Hone].
Defined.

Lemma classification_failure_witness :
  let s := LLMRouter.start failing_script in
  let out := LLMRouter.route Scripted.repr router0 "hi" "session-1" s in
  generate_json "hi" LLMRouter.SYSTEM_PROMPT (world s)
  = (Raise (ValueError "Could not parse JSON"), silent_script)
  /\ fst out = Ok (LLMRouter._escalate "hi")
  /\ unclear_count (snd out) = unclear_count s
  /\ existsb is_count_access (new_events s (snd out)) = false.
Proof.
  cbn zeta. split; [reflexivity|].
  edestruct (classification_failure Scripted.repr router0 "hi" "session-1"
               (LLMRouter.start failing_script)
               (ValueError "Could not parse JSON") silent_script)
    as (Hout & _ & _ & _ & _ & _ & Hsame & Hnone & _); [reflexivity|].
  split; [exact Hout|]. split; [exact Hsame | exact Hnone].
Defined.

Lemma picky_rewrite_raises :
  @calls_raise unit Picky.provider tt
    (new_events (LLMRouter.start tt)
       (snd (@FAQAgent.handle unit Picky.provider
               (LLMRouter.faq_agent router0) hours_query
               (LLMRouter.start tt)))).
Proof.
  intros prompt system_prompt Hin. vm_compute in Hin.
  destruct Hin as [Hev | [Hev | []]]; [discriminate Hev|].
  injection Hev as <- <-.
  exists (ProviderError "busy"), tt. reflexivity.
Defined.

Lemma silent_rewrite_raises :
  calls_raise silent_script
    (new_events (LLMRouter.start silent_script)
       (snd (OrderAgent.handle Scripted.repr (LLMRouter.order_agent router0)
               "Where is ORD-12345?" None (LLMRouter.start silent_script)))).
Proof.
  intros prompt system_prompt _.
  exists (ProviderError "no reply"), silent_script. reflexivity.
Defined.

Lemma rewrite_failure_falls_back_witness :
  Picky.reply "Anything else" None tt = (Ok "Certainly!", tt)
  /\ fst (@FAQAgent.handle unit Picky.provider
            (LLMRouter.faq_agent router0) hours_query (LLMRouter.start tt))
     = fst (@FAQAgent.handle unit Picky.provider
              {| FAQAgent.llm := false;
                 FAQAgent.knowledge_base := Some two_topics |}
              hours_query (LLMRouter.start tt))
  /\ fst (OrderAgent.handle Scripted.repr (LLMRouter.order_agent router0)
           "Where is ORD-12345?" None (LLMRouter.start silent_script))
     = fst (OrderAgent.handle Scripted.repr
              {| OrderAgent.llm := false;
                 OrderAgent.orders := Some one_order |}
              "Where is ORD-12345?" None (LLMRouter.start silent_script)).
Proof.
  split; [reflexivity|].
  destruct (@rewrite_failure_falls_back unit Picky.provider Scripted.repr
              (Some two_topics) (Some one_order) hours_query None
              (LLMRouter.start tt))
    as (_ & _ & Hfaq & _).
  destruct (rewrite_failure_falls_back Scripted.repr (Some two_topics)
              (Some one_order) "Where is ORD-12345?" None
              (LLMRouter.start silent_script))
    as (_ & _ & _ & Horder).
  split; [exact (Hfaq picky_rewrite_raises)
         | exact (Horder silent_rewrite_raises)].
Defined.

Lemma format_order_message_witness :
  dict_get "order_id" shipped_order = Some (JStr "ORD-12345")
  /\ dict_get "status" shipped_order = Some (JStr "shipped")
  /\ order_items shipped_order = Some ["Mouse"; "Keyboard"]
  /\ optional_text "tracking" shipped_order = Some (Some "1Z999")
  /\ optional_text "delivery_date" shipped_order = Some None
  /\ OrderAgent._format_order Scripted.repr (JObj shipped_order)
     = Ok "Order ORD-12345 (Mouse, Keyboard) is shipped. Tracking: 1Z999.".
Proof.
  do 5 (split; [reflexivity|]).
  apply (format_order_message Scripted.repr shipped_order "ORD-12345"
           "shipped" ["Mouse"; "Keyboard"] (Some "1Z999") None);
    reflexivity.
Defined.

Lemma order_not_found_witness :
  let s := LLMRouter.start silent_script in
  OrderAgent.orders (LLMRouter.order_agent router0) = Some one_order
  /\ order_id_format "ORD-99999" = true
  /\ dict_get "ORD-99999" one_order = None
  /\ fst (OrderAgent.handle Scripted.repr (LLMRouter.order_agent router0)
           "Where is my order?" (Some "ORD-99999") s)
     = Ok (order_missing "ORD-99999")
  /\ AgentResponse.message (order_missing "ORD-99999")
     = "Order ORD-99999 not found. Please verify your order number or contact support@store.com.".
Proof.
  cbn zeta. do 3 (split; [reflexivity|]).
  split; [|reflexivity].
  apply (order_not_found Scripted.repr (LLMRouter.order_agent router0)
           "Where is my order?" (Some "ORD-99999") "ORD-99999" one_order
           (LLMRouter.start silent_script));
    [reflexivity | reflexivity | reflexivity | left; reflexivity].
Defined.

Lemma counters_are_one_witness :
  let s :=
    snd (LLMRouter.route Scripted.repr router0 "hi" "session-1"
           (LLMRouter.start unclear_script)) in
  reachable Scripted.repr router0 s
  /\ unclear_count s !! "session-1" = Some 1%Z
  /\ counters_one (unclear_count s).
Proof.
  cbn zeta. split; [apply reach_route, reach_start|].
  split; [vm_compute; reflexivity|].
  apply (counters_are_one Scripted.repr router0), reach_route, reach_start.
Defined.

(** * Further properties of the code *)

(** ** Stripping and the rewrite step *)

Lemma rstrip_cons_keep c s :
  is_space c = false -> rstrip (String c s) = String c (rstrip s).
Proof. intros Hc. cbn [rstrip]. rewrite Hc. now destruct (rstrip s). Qed.

Lemma rstrip_idem s : rstrip (rstrip s) = rstrip s.
Proof.
  induction s as [|c s IH]; [reflexivity|].
  cbn [rstrip]. destruct (rstrip s) as [|c' r] eqn:E.
  - destruct (is_space c) eqn:Hc; [reflexivity|].
    cbn [rstrip]. now rewrite Hc.
  - cbn [rstrip]. cbn [rstrip] in IH. rewrite IH. reflexivity.
Qed.

Lemma lstrip_head s :
  lstrip s = "" \/ exists c r, lstrip s = String c r /\ is_space c = false.
Proof.
  induction s as [|c s IH]; [now left|].
  cbn [lstrip]. destruct (is_space c) eqn:Hc; [exact IH|].
  right. eauto.
Qed.

Lemma strip_idem s : strip (strip s) = strip s.
Proof.
  unfold strip. destruct (lstrip_head s) as [-> | (c & r & -> & Hc)];
    [reflexivity|].
  rewrite (rstrip_cons_keep _ _ Hc). cbn [lstrip]. rewrite Hc.
  rewrite (rstrip_cons_keep _ _ Hc), rstrip_idem. reflexivity.
Qed.

Lemma strip_blank s : blank s = true -> strip s = "".
Proof.
  unfold strip, blank. induction s as [|c s IH]; [reflexivity|].
  cbn. intros [Hc Hs]%andb_true_iff. rewrite Hc. auto.
Qed.

Section RefineFacts.
Context {W : Type} `{LLMProvider W}.

(** X12. The rewrite step never raises: it returns the reply of the provider,
    stripped, when there is one, and the text it was given when the provider
    raises. The outcome for the FAQ agent and for the order agent. *)
Theorem refine_never_raises query text (s : machine W) :
  fst (FAQAgent._refine query text s)
  = match fst (generate (FAQAgent.prompt query text) (Some FAQAgent.system)
                 (world s)) with
    | Ok reply => Ok (strip reply)
    | Raise _ => Ok text
    end
  /\ fst (OrderAgent._refine query text s)
     = match fst (generate (OrderAgent.prompt query text)
                    (Some OrderAgent.system) (world s)) with
       | Ok reply => Ok (strip reply)
       | Raise _ => Ok text
       end.
Proof.
  unfold FAQAgent._refine, OrderAgent._refine, try_else, llm_generate,
    with_world.
  split.
  - destruct (generate (FAQAgent.prompt query text) _ _) as [[reply|e] w'];
      cbn; [now rewrite strip_idem | reflexivity].
  - destruct (generate (OrderAgent.prompt query text) _ _) as [[reply|e] w'];
      cbn; [now rewrite strip_idem | reflexivity].
Qed.

End RefineFacts.

(** ** How the agents run *)

Lemma best_match_has_topic query_lower (kb : dict FAQAgent.content) content :
  FAQAgent.best_match (FAQAgent.find_best query_lower kb) = Some content ->
  exists last, last_key kb = Some last
               /\ FAQAgent.topic (FAQAgent.find_best query_lower kb)
                  = Some last.
Proof.
  intros Hm. rewrite find_best_topic.
  destruct kb as [|item kb]; [discriminate Hm|]. clear Hm.
  unfold last_key. cbn [fold_left]. generalize (fst item).
  induction kb as [|i kb IH]; intros k; cbn [fold_left]; eauto.
Qed.

Section AgentRuns.
Context {W : Type} `{LLMProvider W}.
Variable repr : json -> string.

Lemma faq_run_unloaded self query (s : machine W) :
  FAQAgent.knowledge_base self = None ->
  FAQAgent.handle self query s
  = (Raise AttributeError, after s (world s) [EvFaqHandle query]).
Proof.
  intros Hkb. unfold FAQAgent.handle, mbind, M_bind, bind. cbn.
  now rewrite Hkb.
Qed.

Lemma faq_run_no_match self query kb (s : machine W) :
  FAQAgent.knowledge_base self = Some kb ->
  FAQAgent.best_match (FAQAgent.find_best (lower query) kb) = None ->
  FAQAgent.handle self query s
  = (Ok faq_no_info, after s (world s) [EvFaqHandle query]).
Proof.
  intros Hkb Hm. unfold FAQAgent.handle, mbind, M_bind, bind. cbn.
  now rewrite Hkb, Hm.
Qed.

Lemma faq_run_match self query kb content (s : machine W) :
  FAQAgent.knowledge_base self = Some kb ->
  FAQAgent.best_match (FAQAgent.find_best (lower query) kb) = Some content ->
  exists last,
    last_key kb = Some last
    /\ FAQAgent.handle self query s
       = if FAQAgent.llm self
         then
           let call :=
             generate (FAQAgent.prompt query (FAQAgent.answer content))
               (Some FAQAgent.system) (world s) in
           (Ok (faq_answer (rewritten (fst call) (FAQAgent.answer content))
                  last),
            after s (snd call)
              [EvFaqHandle query;
               EvGenerate (FAQAgent.prompt query (FAQAgent.answer content))
                 (Some FAQAgent.system)])
         else (Ok (faq_answer (FAQAgent.answer content) last),
               after s (world s) [EvFaqHandle query]).
Proof.
  intros Hkb Hm.
  destruct (best_match_has_topic _ _ _ Hm) as (last & Hl & Ht).
  exists last. split; [exact Hl|].
  unfold FAQAgent.handle, mbind, M_bind, bind. cbn.
  rewrite Hkb, Hm. destruct (FAQAgent.llm self).
  - unfold FAQAgent._refine, try_else, llm_generate, with_world. cbn.
    destruct (generate _ _ _) as [[reply|e] w']; cbn; rewrite Ht; cbn;
      rewrite <- ?app_assoc, ?strip_idem; reflexivity.
  - cbn. rewrite Ht. reflexivity.
Qed.

Lemma order_run_ask self query hint (s : machine W) :
  chosen_id query hint = None \/ chosen_id query hint = Some "" ->
  OrderAgent.handle repr self query hint s
  = (Ok order_ask, after s (world s) [EvOrderHandle query hint]).
Proof.
  unfold chosen_id. intros Hid.
  unfold OrderAgent.handle, mbind, M_bind, bind. cbn [emit].
  destruct Hid as [-> | ->]; reflexivity.
Qed.

Lemma order_run_unloaded self query hint c id (s : machine W) :
  chosen_id query hint = Some (String c id) ->
  OrderAgent.orders self = None ->
  OrderAgent.handle repr self query hint s
  = (Raise AttributeError, after s (world s) [EvOrderHandle query hint]).
Proof.
  unfold chosen_id. intros Hid Hdb.
  unfold OrderAgent.handle, mbind, M_bind, bind. cbn [emit].
  rewrite Hid, Hdb. reflexivity.
Qed.

Lemma order_run_missing self query hint c id db (s : machine W) :
  chosen_id query hint = Some (String c id) ->
  OrderAgent.orders self = Some db ->
  match dict_get (String c id) db with
  | Some order => truthy order = false
  | None => True
  end ->
  OrderAgent.handle repr self query hint s
  = (Ok (order_missing (String c id)),
     after s (world s) [EvOrderHandle query hint]).
Proof.
  unfold chosen_id. intros Hid Hdb Hmiss.
  unfold OrderAgent.handle, mbind, M_bind, bind. cbn [emit].
  rewrite Hid, Hdb. cbn.
  destruct (dict_get _ db) as [order|]; [|reflexivity].
  now rewrite Hmiss.
Qed.

Lemma format_order_dict order text :
  OrderAgent._format_order repr order = Ok text -> exists d, order = JObj d.
Proof. destruct order; try discriminate. eauto. Qed.

Lemma order_run_format_error self query hint c id db order e (s : machine W) :
  chosen_id query hint = Some (String c id) ->
  OrderAgent.orders self = Some db ->
  dict_get (String c id) db = Some order ->
  truthy order = true ->
  OrderAgent._format_order repr order = Raise e ->
  OrderAgent.handle repr self query hint s
  = (Raise e, after s (world s) [EvOrderHandle query hint]).
Proof.
  unfold chosen_id. intros Hid Hdb Hget Htr Hfmt.
  unfold OrderAgent.handle, mbind, M_bind, bind. cbn [emit].
  rewrite Hid, Hdb. cbn. rewrite Hget, Htr. cbn. now rewrite Hfmt.
Qed.

Lemma order_run_found self query hint c id db order text (s : machine W) :
  chosen_id query hint = Some (String c id) ->
  OrderAgent.orders self = Some db ->
  dict_get (String c id) db = Some (JObj order) ->
  truthy (JObj order) = true ->
  OrderAgent._format_order repr (JObj order) = Ok text ->
  OrderAgent.handle repr self query hint s
  = if OrderAgent.llm self
    then
      let call :=
        generate (OrderAgent.prompt query text) (Some OrderAgent.system)
          (world s) in
      (Ok (order_found (rewritten (fst call) text) order),
       after s (snd call)
         [EvOrderHandle query hint;
          EvGenerate (OrderAgent.prompt query text)
            (Some OrderAgent.system)])
    else (Ok (order_found text order),
          after s (world s) [EvOrderHandle query hint]).
Proof.
  unfold chosen_id. intros Hid Hdb Hget Htr Hfmt.
  unfold OrderAgent.handle, mbind, M_bind, bind. cbn [emit].
  rewrite Hid, Hdb. cbn -[OrderAgent._format_order].
  rewrite Hget, Htr. cbn -[OrderAgent._format_order]. rewrite Hfmt.
  destruct (OrderAgent.llm self).
  - unfold OrderAgent._refine, try_else, llm_generate, with_world. cbn.
    destruct (generate _ _ _) as [[reply|e] w']; cbn;
      rewrite <- ?app_assoc, ?strip_idem; reflexivity.
  - reflexivity.
Qed.

End AgentRuns.

(** ** FAQ matching *)

Lemma score_nonneg query_lower c : (0 <= FAQAgent.score query_lower c)%Z.
Proof. unfold FAQAgent.score. lia. Qed.

Lemma loop_body_gt query_lower st t c :
  (FAQAgent.score query_lower c > FAQAgent.best_score st)%Z ->
  FAQAgent.loop_body query_lower st (t, c)
  = {| FAQAgent.best_match := Some c;
       FAQAgent.best_score := FAQAgent.score query_lower c;
       FAQAgent.topic := Some t |}.
Proof.
  intros Hgt. unfold FAQAgent.loop_body.
  destruct (Z.gtb_spec (FAQAgent.score query_lower c)
              (FAQAgent.best_score st)); [reflexivity | lia].
Qed.

Lemma loop_body_le query_lower st t c :
  (FAQAgent.score query_lower c <= FAQAgent.best_score st)%Z ->
  FAQAgent.loop_body query_lower st (t, c)
  = {| FAQAgent.best_match := FAQAgent.best_match st;
       FAQAgent.best_score := FAQAgent.best_score st;
       FAQAgent.topic := Some t |}.
Proof.
  intros Hle. unfold FAQAgent.loop_body.
  destruct (Z.gtb_spec (FAQAgent.score query_lower c)
              (FAQAgent.best_score st)); [lia | reflexivity].
Qed.

(** Topics that score below [x] leave the best score below [x]. *)
Lemma fold_below query_lower (kb : dict FAQAgent.content) x :
  (forall item, In item kb -> (FAQAgent.score query_lower (snd item) < x)%Z) ->
  forall st,
    (FAQAgent.best_score st < x)%Z ->
    (FAQAgent.best_score (fold_left (FAQAgent.loop_body query_lower) kb st)
     < x)%Z.
Proof.
  induction kb as [|[t c] kb IH]; intros Hall st Hst; [exact Hst|].
  cbn [fold_left]. apply IH; [intros; apply Hall; now right|].
  destruct (Z_gt_le_dec (FAQAgent.score query_lower c)
              (FAQAgent.best_score st)) as [Hgt|Hle].
  - rewrite (loop_body_gt _ _ _ _ Hgt). cbn. apply (Hall (t, c)). now left.
  - rewrite (loop_body_le _ _ _ _ Hle). exact Hst.
Qed.

(** Topics that do not score above the best so far do not replace it. *)
Lemma fold_kept query_lower (kb : dict FAQAgent.content) :
  forall st,
    (forall item, In item kb ->
       (FAQAgent.score query_lower (snd item) <= FAQAgent.best_score st)%Z) ->
    let st' := fold_left (FAQAgent.loop_body query_lower) kb st in
    FAQAgent.best_match st' = FAQAgent.best_match st
    /\ FAQAgent.best_score st' = FAQAgent.best_score st.
Proof.
  induction kb as [|[t c] kb IH]; intros st Hall; [now split|].
  cbn [fold_left]. cbn zeta.
  assert (Hle : (FAQAgent.score query_lower c <= FAQAgent.best_score st)%Z)
    by (apply (Hall (t, c)); now left).
  rewrite (loop_body_le _ _ _ _ Hle).
  apply (IH {| FAQAgent.best_match := FAQAgent.best_match st;
               FAQAgent.best_score := FAQAgent.best_score st;
               FAQAgent.topic := Some t |}).
  intros item Hin. apply Hall. now right.
Qed.

Lemma find_best_first_max query_lower pre t c post :
  (0 < FAQAgent.score query_lower c)%Z ->
  (forall item, In item pre ->
     (FAQAgent.score query_lower (snd item)
      < FAQAgent.score query_lower c)%Z) ->
  (forall item, In item post ->
     (FAQAgent.score query_lower (snd item)
      <= FAQAgent.score query_lower c)%Z) ->
  FAQAgent.best_match
    (FAQAgent.find_best query_lower (pre ++ (t, c) :: post)%list)
  = Some c.
Proof.
  intros Hpos Hpre Hpost. unfold FAQAgent.find_best.
  rewrite fold_left_app. cbn [fold_left].
  pose proof (fold_below query_lower pre _ Hpre FAQAgent.loop_init Hpos)
    as Hlt.
  rewrite loop_body_gt by lia.
  now destruct (fold_kept query_lower post
                  {| FAQAgent.best_match := Some c;
                     FAQAgent.best_score := FAQAgent.score query_lower c;
                     FAQAgent.topic := Some t |} Hpost) as [-> _].
Qed.

Lemma find_best_no_score query_lower (kb : dict FAQAgent.content) :
  (forall item, In item kb -> FAQAgent.score query_lower (snd item) = 0%Z) ->
  FAQAgent.best_match (FAQAgent.find_best query_lower kb) = None.
Proof.
  intros Hall.
  assert (Hle : forall item, In item kb ->
            (FAQAgent.score query_lower (snd item)
             <= FAQAgent.best_score FAQAgent.loop_init)%Z).
  { intros item Hin. rewrite (Hall item Hin). cbn. lia. }
  destruct (fold_kept query_lower kb FAQAgent.loop_init Hle) as [Hm _].
  exact Hm.
Qed.

(** The best score bounds the score of every topic, and no best match means
    a best score of 0. *)
Lemma fold_bound query_lower (kb : dict FAQAgent.content) :
  forall st,
    (FAQAgent.best_match st = None -> FAQAgent.best_score st = 0%Z) ->
    let st' := fold_left (FAQAgent.loop_body query_lower) kb st in
    (FAQAgent.best_match st' = None -> FAQAgent.best_score st' = 0%Z)
    /\ (FAQAgent.best_score st <= FAQAgent.best_score st')%Z
    /\ (forall item, In item kb ->
          (FAQAgent.score query_lower (snd item)
           <= FAQAgent.best_score st')%Z).
Proof.
  induction kb as [|[t c] kb IH]; intros st Hst; cbn zeta.
  - split; [exact Hst|]. split; [cbn; lia|]. intros item [].
  - cbn [fold_left].
    destruct (Z_gt_le_dec (FAQAgent.score query_lower c)
                (FAQAgent.best_score st)) as [Hgt|Hle].
    + rewrite (loop_body_gt _ _ _ _ Hgt).
      match goal with
      | |- context [fold_left _ kb ?st1] =>
          destruct (IH st1) as (Hn & Hmono & Hb); [discriminate|]
      end.
      cbn in Hmono. split; [exact Hn|]. split; [lia|].
      intros item [<- | Hin]; [cbn; lia | now apply Hb].
    + rewrite (loop_body_le _ _ _ _ Hle).
      match goal with
      | |- context [fold_left _ kb ?st1] =>
          destruct (IH st1) as (Hn & Hmono & Hb); [exact Hst|]
      end.
      cbn in Hmono. split; [exact Hn|]. split; [lia|].
      intros item [<- | Hin]; [cbn; lia | now apply Hb].
Qed.

Lemma find_best_none query_lower (kb : dict FAQAgent.content) :
  FAQAgent.best_match (FAQAgent.find_best query_lower kb) = None ->
  forall item, In item kb -> FAQAgent.score query_lower (snd item) = 0%Z.
Proof.
  intros Hnone item Hin.
  destruct (fold_bound query_lower kb FAQAgent.loop_init (fun _ => eq_refl))
    as (Hn & _ & Hb).
  specialize (Hn Hnone). specialize (Hb item Hin).
  unfold FAQAgent.find_best in *. cbn zeta in *.
  pose proof (score_nonneg query_lower (snd item)). lia.
Qed.

(** *** Keywords *)

Lemma lower_char_not_upper c : is_upper (lower_char c) = false.
Proof. destruct c as [[] [] [] [] [] [] [] []]; reflexivity. Qed.

Lemma lower_has_no_upper s : has_upper (lower s) = false.
Proof.
  induction s as [|c s IH]; [reflexivity|].
  unfold lower in *. cbn. now rewrite lower_char_not_upper, IH.
Qed.

Lemma prefix_has_upper kw s :
  String.prefix kw s = true -> has_upper kw = true -> has_upper s = true.
Proof.
  revert s; induction kw as [|a kw IH]; intros s; [discriminate 2|].
  destruct s as [|b s]; [discriminate|]. cbn [String.prefix has_upper].
  destruct (ascii_dec a b) as [<-|]; [|discriminate].
  intros Hp [Ha | Hk]%orb_true_iff.
  - now rewrite Ha.
  - rewrite (IH s Hp Hk). apply orb_true_r.
Qed.

Lemma str_in_has_upper kw s :
  str_in kw s = true -> has_upper kw = true -> has_upper s = true.
Proof.
  induction s as [|b s IH]; cbn [str_in].
  - destruct (String.prefix kw "") eqn:Hp; [|discriminate].
    intros _. now apply prefix_has_upper.
  - destruct (String.prefix kw (String b s)) eqn:Hp.
    + intros _. now apply prefix_has_upper.
    + intros Hin Hk. cbn [has_upper]. rewrite (IH Hin Hk).
      apply orb_true_r.
Qed.

Lemma str_in_empty s : str_in "" s = true.
Proof. destruct s; reflexivity. Qed.

(** X10. Only the query is lower-cased, the keywords are taken as they are: a
    keyword with an upper-case letter occurs in no query, and the score of a
    topic is the score of its keywords without them. *)
Theorem uppercase_keyword_never_counts query kw c :
  (has_upper kw = true -> str_in kw (lower query) = false)
  /\ FAQAgent.score (lower query) c
     = FAQAgent.score (lower query)
         {| FAQAgent.keywords :=
              filter (fun kw => negb (has_upper kw)) (FAQAgent.keywords c);
            FAQAgent.answer := FAQAgent.answer c |}.
Proof.
  assert (Hkw : forall kw, has_upper kw = true ->
                           str_in kw (lower query) = false).
  { intros k Hu. destruct (str_in k (lower query)) eqn:Hin; [|reflexivity].
    pose proof (str_in_has_upper _ _ Hin Hu) as Habs.
    now rewrite lower_has_no_upper in Habs. }
  split; [apply Hkw|].
  unfold FAQAgent.score. cbn [FAQAgent.keywords]. do 2 f_equal.
  induction (FAQAgent.keywords c) as [|k ks IH]; [reflexivity|].
  rewrite !filter_cons.
  destruct (has_upper k) eqn:Hu; cbn [negb].
  - rewrite (Hkw k Hu). repeat case_decide; try done.
  - repeat case_decide; try done.
    + rewrite filter_cons. case_decide; [|done]. now rewrite IH.
    + rewrite filter_cons. case_decide; [done|]. exact IH.
Qed.

(** ** The FAQ agent, call by call *)

Section FaqFacts.
Context {W : Type} `{LLMProvider W}.

(** Every way a [handle] call of the FAQ agent can go. *)
Lemma faq_handle_cases self query (s : machine W) :
  exists r w' evs,
    FAQAgent.handle self query s = (r, after s w' (EvFaqHandle query :: evs))
    /\ (evs = [] /\ w' = world s \/ exists p sp, evs = [EvGenerate p sp])
    /\ match FAQAgent.knowledge_base self with
       | None => r = Raise AttributeError /\ evs = []
       | Some kb =>
           r = Ok faq_no_info /\ evs = []
           \/ exists message topic, r = Ok (faq_answer message topic)
       end.
Proof.
  destruct (FAQAgent.knowledge_base self) as [kb|] eqn:Hkb.
  - destruct (FAQAgent.best_match (FAQAgent.find_best (lower query) kb))
      as [content|] eqn:Hm.
    + destruct (faq_run_match self query kb content s Hkb Hm)
        as (last & _ & ->).
      destruct (FAQAgent.llm self); cbn zeta.
      * eexists _, _, _. split; [reflexivity|]. split; eauto.
      * eexists _, _, []. split; [reflexivity|]. split; eauto.
    + rewrite (faq_run_no_match self query kb s Hkb Hm).
      eexists _, _, []. split; [reflexivity|]. split; eauto.
  - rewrite (faq_run_unloaded self query s Hkb).
    eexists _, _, []. split; [reflexivity|]. split; eauto.
Qed.

(** X8. The answer is the one of the first topic with the highest score, when
    that score is positive: earlier topics score strictly less, later ones
    not more. The topic reported is the last key. *)
Theorem faq_answers_first_best query pre t c post (s : machine W) :
  (0 < FAQAgent.score (lower query) c)%Z ->
  (forall item, In item pre ->
     (FAQAgent.score (lower query) (snd item)
      < FAQAgent.score (lower query) c)%Z) ->
  (forall item, In item post ->
     (FAQAgent.score (lower query) (snd item)
      <= FAQAgent.score (lower query) c)%Z) ->
  exists last,
    last_key (pre ++ (t, c) :: post)%list = Some last
    /\ fst (FAQAgent.handle
             {| FAQAgent.llm := false;
                FAQAgent.knowledge_base := Some (pre ++ (t, c) :: post)%list |}
             query s)
       = Ok (faq_answer (FAQAgent.answer c) last).
Proof.
  intros Hpos Hpre Hpost.
  pose proof (find_best_first_max _ pre t c post Hpos Hpre Hpost) as Hm.
  destruct (faq_run_match
              {| FAQAgent.llm := false;
                 FAQAgent.knowledge_base := Some (pre ++ (t, c) :: post)%list |}
              query _ c s eq_refl Hm) as (last & Hl & ->).
  exists last. split; [exact Hl | reflexivity].
Qed.

(** X9. The agent has nothing to say exactly when no keyword of any topic occurs
    in the lower-cased query; it then returns without calling the provider. *)
Theorem faq_no_match self query kb (s : machine W) :
  FAQAgent.knowledge_base self = Some kb ->
  ((forall item, In item kb -> FAQAgent.score (lower query) (snd item) = 0%Z)
   <-> fst (FAQAgent.handle self query s) = Ok faq_no_info)
  /\ (fst (FAQAgent.handle self query s) = Ok faq_no_info ->
      snd (FAQAgent.handle self query s)
      = after s (world s) [EvFaqHandle query]).
Proof.
  intros Hkb.
  destruct (FAQAgent.best_match (FAQAgent.find_best (lower query) kb))
    as [content|] eqn:Hm.
  - destruct (faq_run_match self query kb content s Hkb Hm)
      as (last & _ & Hrun).
    assert (Hne : fst (FAQAgent.handle self query s) <> Ok faq_no_info).
    { rewrite Hrun. destruct (FAQAgent.llm self); cbn; discriminate. }
    split; [split|]; [|tauto|tauto].
    intros Hall. rewrite (find_best_no_score _ _ Hall) in Hm. discriminate.
  - rewrite (faq_run_no_match self query kb s Hkb Hm). cbn [fst snd].
    split; [split|]; auto.
    intros _. now apply find_best_none.
Qed.

(** An empty keyword occurs in every query: with a topic that has one, the
    agent finds a match for every query. *)
Theorem empty_keyword_always_matches self query kb t c (s : machine W) :
  FAQAgent.knowledge_base self = Some kb ->
  In (t, c) kb ->
  In "" (FAQAgent.keywords c) ->
  exists message topic,
    fst (FAQAgent.handle self query s) = Ok (faq_answer message topic).
Proof.
  intros Hkb Hin Hkw.
  destruct (FAQAgent.best_match (FAQAgent.find_best (lower query) kb))
    as [content|] eqn:Hm.
  - destruct (faq_run_match self query kb content s Hkb Hm)
      as (last & _ & ->).
    destruct (FAQAgent.llm self); cbn; eauto.
  - exfalso. pose proof (find_best_none _ _ Hm (t, c) Hin) as Hz.
    unfold FAQAgent.score in Hz. cbn [snd] in Hz.
    assert (Hel : "" ∈ filter (fun kw => str_in kw (lower query))
                          (FAQAgent.keywords c)).
    { apply list_elem_of_filter. split.
      - now rewrite str_in_empty.
      - now apply list_elem_of_In. }
    destruct (filter _ (FAQAgent.keywords c)); [|discriminate Hz].
    now apply not_elem_of_nil in Hel.
Qed.

(** X11. A reply of whitespace only is not treated as a failed rewrite: when the
    rewrite call for the best match returns blanks, the outcome is a success
    with the empty message. Only that call matters. *)
Theorem blank_reply_gives_empty_message self query kb c reply w'
    (s : machine W) :
  FAQAgent.knowledge_base self = Some kb ->
  FAQAgent.llm self = true ->
  FAQAgent.best_match (FAQAgent.find_best (lower query) kb) = Some c ->
  generate (FAQAgent.prompt query (FAQAgent.answer c)) (Some FAQAgent.system)
    (world s) = (Ok reply, w') ->
  blank reply = true ->
  exists last, fst (FAQAgent.handle self query s) = Ok (faq_answer "" last).
Proof.
  intros Hkb Hllm Hm Hcall Hblank.
  destruct (faq_run_match self query kb c s Hkb Hm) as (last & _ & ->).
  exists last. rewrite Hllm. cbn zeta. rewrite Hcall.
  cbn. now rewrite (strip_blank _ Hblank).
Qed.

End FaqFacts.

(** ** The FAQ agent on the data as it is loaded *)

Lemma count_texts query_lower l kws :
  FAQData.texts l = Some kws ->
  FAQData.count query_lower l
  = Ok (Z.of_nat (length (filter (fun kw => str_in kw query_lower) kws))).
Proof.
  revert kws; induction l as [|v l IH]; intros kws.
  - intros [= <-]. reflexivity.
  - cbn [FAQData.texts]. destruct v; try discriminate.
    destruct (FAQData.texts l) as [ss|]; [|discriminate].
    intros [= <-]. cbn [FAQData.count FAQData.contains].
    rewrite (IH ss eq_refl), filter_cons.
    destruct (str_in s query_lower); case_decide; try done.
    cbn [length]. f_equal. lia.
Qed.

Lemma score_content query_lower v c :
  FAQData.as_content v = Some c ->
  FAQData.score query_lower v = Ok (FAQAgent.score query_lower c).
Proof.
  unfold FAQData.as_content, FAQData.score, FAQData.subscript.
  destruct v as [| | | | |l|d]; try discriminate.
  destruct (dict_get "keywords" d) as [[| | | | |l|]|]; try discriminate.
  destruct (dict_get "answer" d) as [[| | | |a| |]|]; try discriminate.
  destruct (FAQData.texts l) as [kws|] eqn:Hl; [|discriminate].
  intros [= <-]. cbn [FAQData.iterate]. now rewrite (count_texts _ _ _ Hl).
Qed.

Lemma find_best_same_point query_lower d :
  forall kb st st',
    FAQData.as_topics d = Some kb ->
    FAQData.same_point st st' ->
    exists st2,
      FAQData.find_best query_lower d st = Ok st2
      /\ FAQData.same_point st2
           (fold_left (FAQAgent.loop_body query_lower) kb st').
Proof.
  induction d as [|[t v] d IH]; intros kb st st'.
  - intros [= <-] Hsim. now exists st.
  - cbn [FAQData.as_topics].
    destruct (FAQData.as_content v) as [c|] eqn:Hc; [|discriminate].
    destruct (FAQData.as_topics d) as [kb'|]; [|discriminate].
    intros [= <-] (Hscore & Htopic & Hbest).
    cbn [FAQData.find_best fold_left]. rewrite (score_content _ _ _ Hc).
    apply IH; [reflexivity|].
    unfold FAQAgent.loop_body. rewrite Hscore.
    destruct (_ >? _)%Z; repeat split; cbn; auto.
Qed.

Lemma content_truthy v c : FAQData.as_content v = Some c -> truthy v = true.
Proof.
  destruct v as [| | | | | |d]; try discriminate.
  destruct d; [discriminate | reflexivity].
Qed.

Lemma content_answer v c :
  FAQData.as_content v = Some c ->
  FAQData.subscript v "answer" = Ok (JStr (FAQAgent.answer c)).
Proof.
  unfold FAQData.as_content, FAQData.subscript.
  destruct v as [| | | | |l|d]; try discriminate.
  destruct (dict_get "keywords" d) as [[| | | | |l|]|]; try discriminate.
  destruct (dict_get "answer" d) as [[| | | |a| |]|]; try discriminate.
  destruct (FAQData.texts l); [|discriminate]. now intros [= <-].
Qed.

Lemma count_all_text query_lower l :
  if forallb (fun kw => match kw with JStr _ => true | _ => false end) l
  then exists n, FAQData.count query_lower l = Ok n
  else FAQData.count query_lower l = Raise TypeError.
Proof.
  induction l as [|v l IH]; [now exists 0%Z|].
  cbn [forallb FAQData.count].
  destruct v; cbn [FAQData.contains andb]; try reflexivity.
  destruct (forallb _ l).
  - destruct IH as [n ->]. eauto.
  - now rewrite IH.
Qed.

Lemma score_by_keywords query_lower v :
  if FAQData.keywords_usable v
  then exists n, FAQData.score query_lower v = Ok n
  else FAQData.score query_lower v = Raise TypeError
       \/ FAQData.score query_lower v = Raise (KeyError "keywords").
Proof.
  unfold FAQData.keywords_usable, FAQData.score, FAQData.subscript.
  destruct v as [| | | | |l|d]; auto.
  destruct (dict_get "keywords" d) as [kws|]; auto.
  destruct (FAQData.iterate kws) as [l|e] eqn:Hit.
  - pose proof (count_all_text query_lower l) as Hl.
    destruct (forallb _ l); auto.
  - left. destruct kws; try discriminate Hit; now injection Hit as <-.
Qed.

Lemma find_best_unusable query_lower d t v :
  In (t, v) d ->
  FAQData.keywords_usable v = false ->
  forall st,
    FAQData.find_best query_lower d st = Raise TypeError
    \/ FAQData.find_best query_lower d st = Raise (KeyError "keywords").
Proof.
  intros Hin Hbad. induction d as [|[t' v'] d IH]; [destruct Hin|].
  intros st. cbn [FAQData.find_best].
  pose proof (score_by_keywords query_lower v') as Hs.
  destruct (FAQData.keywords_usable v') eqn:Hv'.
  - destruct Hs as [n ->]. apply IH.
    destruct Hin as [[= -> ->] | Hin]; [congruence | exact Hin].
  - destruct Hs as [-> | ->]; auto.
Qed.

Lemma find_best_raises query_lower d :
  forall st e,
    FAQData.find_best query_lower d st = Raise e ->
    e = TypeError \/ e = KeyError "keywords".
Proof.
  induction d as [|[t v] d IH]; intros st e; [discriminate|].
  cbn [FAQData.find_best].
  pose proof (score_by_keywords query_lower v) as Hs.
  destruct (FAQData.keywords_usable v).
  - destruct Hs as [n ->]. apply IH.
  - destruct Hs as [-> | ->]; intros [= <-]; auto.
Qed.

(** A best match is a dict with keywords, found under some topic. *)
Lemma find_best_found query_lower d :
  forall st st',
    FAQData.find_best query_lower d st = Ok st' ->
    (forall v, FAQData.best_match st = Some v ->
               FAQData.topic st <> None
               /\ exists dv, v = JObj dv) ->
    forall v, FAQData.best_match st' = Some v ->
              FAQData.topic st' <> None /\ exists dv, v = JObj dv.
Proof.
  induction d as [|[t c] d IH]; intros st st'.
  - intros [= <-] Hst. exact Hst.
  - cbn [FAQData.find_best].
    destruct (FAQData.score query_lower c) as [n|e] eqn:Hs; [|discriminate].
    intros Hrun Hst. apply (IH _ _ Hrun).
    destruct (_ >? _)%Z; cbn; intros v Hv.
    + injection Hv as <-. split; [discriminate|].
      unfold FAQData.score, FAQData.subscript in Hs.
      destruct c; try discriminate Hs. eauto.
    + split; [discriminate|]. now apply Hst.
Qed.

Section FaqData.
Context {W : Type} `{LLMProvider W}.
Variable repr : json -> string.
Variable as_message : json -> result string.

(** On a knowledge base of the data model the two embeddings of [handle]
    are the same computation. *)
Lemma handle_data_model llm v kb query (s : machine W) :
  FAQData.as_base v = Some kb ->
  FAQData.handle repr as_message llm (Some v) query s
  = FAQAgent.handle
      {| FAQAgent.llm := llm; FAQAgent.knowledge_base := Some kb |} query s.
Proof.
  intros Hbase. destruct v as [| | | | | |d]; try discriminate Hbase.
  cbn [FAQData.as_base] in Hbase.
  destruct (find_best_same_point (lower query) d kb FAQData.loop_init
              FAQAgent.loop_init Hbase)
    as (st & Hrun & Hscore & Htopic & Hbest);
    [repeat split|].
  unfold FAQData.handle, FAQAgent.handle, mbind, M_bind, bind, FAQData.lift.
  cbn [emit FAQData.items FAQAgent.knowledge_base FAQAgent.llm].
  rewrite Hrun. fold (FAQAgent.find_best (lower query) kb) in *.
  destruct (FAQData.best_match st) as [c0|],
    (FAQAgent.best_match (FAQAgent.find_best (lower query) kb)) as [c|];
    try contradiction; [|reflexivity].
  rewrite (content_truthy _ _ Hbest), (content_answer _ _ Hbest), Htopic.
  destruct llm.
  - unfold FAQData._refine, FAQAgent._refine, try_else, llm_generate,
      with_world. cbn [OrderAgent.format world].
    destruct (generate _ _ _) as [[reply|e] w']; cbn;
      destruct (FAQAgent.topic _); reflexivity.
  - cbn. destruct (FAQAgent.topic _); reflexivity.
Qed.

Lemma handle_data_stops llm data query (s : machine W) e :
  match FAQData.items data with
  | Ok d => FAQData.find_best (lower query) d FAQData.loop_init = Raise e
  | Raise e' => e' = e
  end ->
  FAQData.handle repr as_message llm data query s
  = (Raise e, after s (world s) [EvFaqHandle query]).
Proof.
  unfold FAQData.handle, mbind, M_bind, bind, FAQData.lift. cbn [emit].
  destruct (FAQData.items data) as [d|e']; [intros -> | intros ->];
    reflexivity.
Qed.

(** X7. [handle] on the knowledge base as it is loaded. On data of the data
    model it is the computation on the typed knowledge base, and it returns.
    Without data, or with data that is not a dict, it raises
    [AttributeError]. One topic whose keywords cannot be counted (no dict, no
    [keywords], keywords that cannot be iterated or are not all strings)
    makes it raise for every query, also for those that another topic
    answers, before any provider call. Whenever it raises, the exception is
    [AttributeError], [TypeError], [KeyError] for [keywords] or [answer], or
    what the validation of the message raised. *)
Theorem faq_handle_loaded_data llm data query (s : machine W) :
  let run := FAQData.handle repr as_message llm data query s in
  (forall v kb,
     data = Some v -> FAQData.as_base v = Some kb ->
     run = FAQAgent.handle
             {| FAQAgent.llm := llm; FAQAgent.knowledge_base := Some kb |}
             query s
     /\ exists r, fst run = Ok r)
  /\ ((forall d, data <> Some (JObj d)) ->
      run = (Raise AttributeError, after s (world s) [EvFaqHandle query]))
  /\ (forall d t content,
        data = Some (JObj d) -> In (t, content) d ->
        FAQData.keywords_usable content = false ->
        (fst run = Raise TypeError \/ fst run = Raise (KeyError "keywords"))
        /\ snd run = after s (world s) [EvFaqHandle query])
  /\ (forall e,
        fst run = Raise e ->
        e = AttributeError \/ e = TypeError \/ e = KeyError "keywords"
        \/ e = KeyError "answer" \/ exists v, as_message v = Raise e).
Proof.
  cbn zeta. split; [|split; [|split]].
  - intros v kb -> Hbase. rewrite (handle_data_model llm v kb query s Hbase).
    split; [reflexivity|].
    destruct (faq_handle_cases
                {| FAQAgent.llm := llm; FAQAgent.knowledge_base := Some kb |}
                query s) as (r & w' & evs & -> & _ & Hr).
    cbn in Hr. destruct Hr as [[-> _] | (m & t & ->)]; eauto.
  - intros Hno. apply handle_data_stops.
    destruct data as [[| | | | | |d]|]; try reflexivity.
    now destruct (Hno d).
  - intros d t content -> Hin Hbad.
    destruct (find_best_unusable (lower query) d t content Hin Hbad
                FAQData.loop_init) as [Hrun | Hrun];
      rewrite (handle_data_stops llm (Some (JObj d)) query s _ Hrun); auto.
  - intros e. unfold FAQData.handle, mbind, M_bind, bind, FAQData.lift.
    cbn [emit].
    destruct (FAQData.items data) as [d|e0] eqn:Hitems.
    2:{ intros [= <-]. left.
        destruct data as [[| | | | | |d]|]; try discriminate Hitems;
          now injection Hitems as <-. }
    destruct (FAQData.find_best (lower query) d FAQData.loop_init)
      as [st|e0] eqn:Hrun.
    2:{ intros [= <-].
        destruct (find_best_raises _ _ _ _ Hrun) as [-> | ->]; auto. }
    pose proof (find_best_found _ _ _ _ Hrun) as Hfound.
    destruct (FAQData.best_match st) as [content|]; [|discriminate].
    destruct (Hfound ltac:(discriminate) content eq_refl)
      as (Htopic & dv & ->).
    destruct (truthy (JObj dv)); [|discriminate].
    unfold FAQData.subscript.
    destruct (dict_get "answer" dv) as [answer|]; [|intros [= <-]; auto].
    destruct (FAQData.topic st) as [topic|]; [|congruence].
    destruct llm.
    + unfold FAQData._refine, try_else, llm_generate, with_world.
      destruct (generate _ _ _) as [[reply|e0] w']; cbn;
        [discriminate|].
      intros Hr. do 4 right.
      unfold FAQData.message_of in Hr.
      destruct answer; cbn in Hr; try discriminate Hr;
        match type of Hr with
        | context [as_message ?v] =>
            exists v; destruct (as_message v); cbn in Hr;
            [discriminate Hr | congruence]
        end.
    + cbn. intros Hr. do 4 right.
      unfold FAQData.message_of in Hr.
      destruct answer; cbn in Hr; try discriminate Hr;
        match type of Hr with
        | context [as_message ?v] =>
            exists v; destruct (as_message v); cbn in Hr;
            [discriminate Hr | congruence]
        end.
Qed.

End FaqData.

(** ** The order agent, call by call *)

Lemma item_names_error items e :
  OrderAgent.item_names items = Raise e -> e = AttributeError.
Proof.
  induction items as [|item items IH]; [discriminate|].
  destruct item; cbn; try (now intros [= <-]).
  destruct (OrderAgent.item_names items); [discriminate|].
  intros [= <-]. now apply IH.
Qed.

Lemma all_str_error l e : OrderAgent.all_str l = Raise e -> e = TypeError.
Proof.
  induction l as [|v l IH]; [discriminate|].
  destruct v; cbn; try (now intros [= <-]).
  destruct (OrderAgent.all_str l); [discriminate|].
  intros [= <-]. now apply IH.
Qed.

Lemma join_json_error sep l e :
  OrderAgent.join_json sep l = Raise e -> e = TypeError.
Proof.
  unfold OrderAgent.join_json.
  destruct (OrderAgent.all_str l) eqn:E; [discriminate|].
  intros [= <-]. now apply (all_str_error l).
Qed.

Lemma items_str_error order e :
  OrderAgent.items_str order = Raise e -> e = AttributeError \/ e = TypeError.
Proof.
  unfold OrderAgent.items_str.
  destruct (default (JList []) (dict_get "items" order))
    as [| | | | |[|first rest]|]; try discriminate.
  destruct first;
    try (intros He; right; now apply (join_json_error _ _ _ He)).
  destruct (OrderAgent.item_names _) eqn:E.
  - intros He; right; now apply (join_json_error _ _ _ He).
  - intros [= <-]. left. now apply (item_names_error _ _ E).
Qed.

Section OrderFormat.
Variable repr : json -> string.

Lemma format_order_error order e :
  OrderAgent._format_order repr order = Raise e ->
  e = AttributeError \/ e = TypeError
  \/ e = KeyError "order_id" \/ e = KeyError "status".
Proof.
  destruct order as [| | | | | |d]; try (intros [= <-]; now left).
  unfold OrderAgent._format_order, OrderAgent.subscript.
  destruct (OrderAgent.items_str d) eqn:E.
  - destruct (dict_get "order_id" d); [|intros [= <-]; tauto].
    destruct (dict_get "status" d); [discriminate|intros [= <-]; tauto].
  - intros [= <-]. destruct (items_str_error _ _ E); tauto.
Qed.

Lemma format_order_run order id status names tracking delivery_date :
  dict_get "order_id" order = Some (JStr id) ->
  dict_get "status" order = Some (JStr status) ->
  order_items order = Some names ->
  optional_text "tracking" order = Some tracking ->
  optional_text "delivery_date" order = Some delivery_date ->
  OrderAgent._format_order repr (JObj order)
  = Ok (spec_message id names status tracking delivery_date).
Proof.
  intros Hid Hst Hitems Htr Hdd.
  unfold OrderAgent._format_order, OrderAgent.subscript.
  rewrite (items_str_run _ _ Hitems), Hid, Hst.
  cbn [OrderAgent.format].
  rewrite (append_if_run repr _ _ _ _ _ Htr),
    (append_if_run repr _ _ _ _ _ Hdd).
  unfold spec_message. f_equal.
  rewrite !append_assoc. reflexivity.
Qed.

(** X17. A record that lacks its identifier or its status is not formatted: the
    lookup of the key raises [KeyError], once the items have been read. *)
Theorem format_order_missing_key order names :
  order_items order = Some names ->
  (dict_get "order_id" order = None ->
   OrderAgent._format_order repr (JObj order) = Raise (KeyError "order_id"))
  /\ (dict_get "order_id" order <> None ->
      dict_get "status" order = None ->
      OrderAgent._format_order repr (JObj order) = Raise (KeyError "status")).
Proof.
  intros Hitems. unfold OrderAgent._format_order, OrderAgent.subscript.
  rewrite (items_str_run _ _ Hitems). split.
  - now intros ->.
  - intros Hid ->. now destruct (dict_get "order_id" order).
Qed.

(** X18. Only the first item decides how the items are read. When it is a
    structured record and a later item is not, the record is not formatted:
    the call raises [AttributeError]. *)
Theorem format_order_mixed_items order d rest :
  dict_get "items" order = Some (JList (JObj d :: rest)) ->
  Exists (fun item => forall d', item <> JObj d') rest ->
  OrderAgent._format_order repr (JObj order) = Raise AttributeError.
Proof.
  intros Hitems Hex.
  assert (Hnames : OrderAgent.item_names (JObj d :: rest)
                   = Raise AttributeError).
  { cbn [OrderAgent.item_names].
    enough (OrderAgent.item_names rest = Raise AttributeError) as -> by easy.
    clear Hitems. induction Hex as [item rest Hitem | item rest _ IH].
    - destruct item; try reflexivity. now destruct (Hitem d0).
    - destruct item; try reflexivity. cbn. now rewrite IH. }
  unfold OrderAgent._format_order, OrderAgent.items_str.
  rewrite Hitems. cbn [default from_option id]. now rewrite Hnames.
Qed.

End OrderFormat.

Section OrderFacts.
Context {W : Type} `{LLMProvider W}.
Variable repr : json -> string.

(** Every way a [handle] call of the order agent can go. *)
Lemma order_handle_cases self query hint (s : machine W) :
  exists r w' evs,
    OrderAgent.handle repr self query hint s
    = (r, after s w' (EvOrderHandle query hint :: evs))
    /\ (evs = [] /\ w' = world s \/ exists p sp, evs = [EvGenerate p sp])
    /\ (r = Ok order_ask /\ evs = []
        \/ (exists id, r = Ok (order_missing id)) /\ evs = []
        \/ (exists message order, r = Ok (order_found message order))
        \/ (exists e, r = Raise e /\ evs = []
                      /\ (e = AttributeError \/ e = TypeError
                          \/ e = KeyError "order_id"
                          \/ e = KeyError "status"))).
Proof.
  destruct (chosen_id query hint) as [[|c id]|] eqn:Hid.
  - rewrite (order_run_ask repr self query hint s (or_intror Hid)).
    eexists _, _, []. split; [reflexivity|]. split; auto.
  - destruct (OrderAgent.orders self) as [db|] eqn:Hdb.
    + destruct (dict_get (String c id) db) as [order|] eqn:Hget.
      * destruct (truthy order) eqn:Htr.
        -- destruct (OrderAgent._format_order repr order) as [text|e] eqn:Hf.
           ++ destruct (format_order_dict repr order text Hf) as [d ->].
              rewrite (order_run_found repr self query hint c id db d text s
                         Hid Hdb Hget Htr Hf).
              destruct (OrderAgent.llm self); cbn zeta.
              ** eexists _, _, _. split; [reflexivity|]. split; eauto 10.
              ** eexists _, _, []. split; [reflexivity|]. split; eauto 10.
           ++ rewrite (order_run_format_error repr self query hint c id db
                         order e s Hid Hdb Hget Htr Hf).
              eexists _, _, []. split; [reflexivity|]. split; [auto|].
              do 3 right. exists e. repeat split.
              now apply (format_order_error repr order).
        -- rewrite (order_run_missing repr self query hint c id db s Hid Hdb)
             by now rewrite Hget.
           eexists _, _, []. split; [reflexivity|]. split; eauto 10.
      * rewrite (order_run_missing repr self query hint c id db s Hid Hdb)
          by now rewrite Hget.
        eexists _, _, []. split; [reflexivity|]. split; eauto 10.
    + rewrite (order_run_unloaded repr self query hint c id s Hid Hdb).
      eexists _, _, []. split; [reflexivity|]. split; [auto|].
      do 3 right. exists AttributeError. auto.
  - rewrite (order_run_ask repr self query hint s (or_introl Hid)).
    eexists _, _, []. split; [reflexivity|]. split; auto.
Qed.

(** X13. Without an identifier (no usable hint and none in the query) the order
    agent asks for one, and does nothing else: it returns also when the
    order records were never loaded, and it makes no provider call. *)
Theorem order_without_id_asks self query hint (s : machine W) :
  truthy_str hint = false ->
  OrderAgent._extract_order_id query = None ->
  OrderAgent.handle repr self query hint s
  = (Ok order_ask, after s (world s) [EvOrderHandle query hint]).
Proof.
  intros Hh Hx. apply order_run_ask. left. unfold chosen_id.
  now rewrite Hh, Hx.
Qed.

(** With an identifier but without order records (the file did not exist),
    the order agent raises [AttributeError]. *)
Theorem order_without_records_raises self query hint id (s : machine W) :
  chosen_id query hint = Some id ->
  id <> "" ->
  OrderAgent.orders self = None ->
  fst (OrderAgent.handle repr self query hint s) = Raise AttributeError.
Proof.
  intros Hid Hne Hdb. destruct id as [|c id]; [congruence|].
  now rewrite (order_run_unloaded repr self query hint c id s Hid Hdb).
Qed.

(** X14. A hint is used as it is given: it is not checked against the format,
    not
    upper-cased, and the query is not searched. A hint that is not a key of
    the records is reported as not found, whatever the query holds. *)
Theorem hint_is_used_verbatim self query hint db (s : machine W) :
  hint <> "" ->
  OrderAgent.orders self = Some db ->
  dict_get hint db = None ->
  fst (OrderAgent.handle repr self query (Some hint) s)
  = Ok (order_missing hint).
Proof.
  intros Hne Hdb Hget. destruct hint as [|c h]; [congruence|].
  rewrite (order_run_missing repr self query (Some (String c h)) c h db s);
    [reflexivity | reflexivity | exact Hdb | now rewrite Hget].
Qed.

(** X15. For a record of the data model that is in the records, the outcome is a
    success that carries the record and the status message, or the stripped
    reply of the provider when one is configured and answers. *)
Theorem order_found_outcome self query hint id db order
    status names tracking delivery_date (s : machine W) :
  chosen_id query hint = Some id ->
  OrderAgent.orders self = Some db ->
  dict_get id db = Some (JObj order) ->
  dict_get "order_id" order = Some (JStr id) ->
  dict_get "status" order = Some (JStr status) ->
  order_items order = Some names ->
  optional_text "tracking" order = Some tracking ->
  optional_text "delivery_date" order = Some delivery_date ->
  let text := spec_message id names status tracking delivery_date in
  fst (OrderAgent.handle repr self query hint s)
  = Ok (order_found
          (if OrderAgent.llm self
           then rewritten
                  (fst (generate (OrderAgent.prompt query text)
                          (Some OrderAgent.system) (world s)))
                  text
           else text)
          order).
Proof.
  intros Hid Hdb Hget Hoid Hst Hitems Htr Hdd text.
  pose proof (format_order_run repr order id status names tracking
                delivery_date Hoid Hst Hitems Htr Hdd) as Hf.
  assert (Htruthy : truthy (JObj order) = true)
    by (destruct order; [discriminate Hoid | reflexivity]).
  destruct id as [|c id'].
  - exfalso. unfold chosen_id in Hid.
    destruct hint as [[|]|]; cbn in Hid; try discriminate.
    all: unfold OrderAgent._extract_order_id in Hid.
    all: apply search_order_Some in Hid as (i & _ & Hfmt & _).
    all: discriminate Hfmt.
  - rewrite (order_run_found repr self query hint c id' db order text s
               Hid Hdb Hget Htruthy Hf).
    now destruct (OrderAgent.llm self).
Qed.

(** X16. When the order agent raises, the exception is one of four: an attribute
    error (no records loaded, a record or an item that is not a dict), a
    type error (an item name that is not text), or the missing key
    [order_id] or [status]. No provider call has been made by then. *)
Theorem order_handle_errors self query hint e (s : machine W) :
  fst (OrderAgent.handle repr self query hint s) = Raise e ->
  (e = AttributeError \/ e = TypeError
   \/ e = KeyError "order_id" \/ e = KeyError "status")
  /\ snd (OrderAgent.handle repr self query hint s)
     = after s (world s) [EvOrderHandle query hint].
Proof.
  destruct (order_handle_cases self query hint s)
    as (r & w' & evs & -> & Hev & Hr). cbn [fst snd]. intros ->.
  destruct Hr as [[[=] _] | [[[id [=]] _] | [(m & o & [=])
                 | (e' & [= <-] & -> & He)]]].
  split; [exact He|].
  destruct Hev as [[_ ->] | (p & sp & [=])]. reflexivity.
Qed.

End OrderFacts.

Section OutcomeFacts.
Context {W : Type} `{LLMProvider W}.
Variable repr : json -> string.

(** X20. The outcomes of both agents keep to one shape: an outcome that asks for
    clarification is not a success, and an outcome carries data exactly when
    it is a success. The FAQ agent never asks for clarification. *)
Theorem handle_outcome_shape faq orders query hint (s : machine W) :
  (forall r, fst (FAQAgent.handle faq query s) = Ok r ->
     AgentResponse.needs_clarification r = false
     /\ (AgentResponse.success r = true <-> AgentResponse.data r <> None))
  /\ (forall r, fst (OrderAgent.handle repr orders query hint s) = Ok r ->
        (AgentResponse.needs_clarification r = true ->
         AgentResponse.success r = false)
        /\ (AgentResponse.success r = true <-> AgentResponse.data r <> None)).
Proof.
  split; intros r.
  - destruct (faq_handle_cases faq query s) as (r' & w' & evs & -> & _ & Hr).
    cbn [fst]. intros ->.
    destruct (FAQAgent.knowledge_base faq).
    + destruct Hr as [[[= ->] _] | (m & t & [= ->])]; cbn;
        (split; [reflexivity | split; easy]).
    + now destruct Hr.
  - destruct (order_handle_cases repr orders query hint s)
      as (r' & w' & evs & -> & _ & Hr).
    cbn [fst]. intros ->.
    destruct Hr as [[[= ->] _] | [[[id [= ->]] _] | [(m & o & [= ->])
                   | (e & [=] & _)]]]; cbn; (split; [easy | split; easy]).
Qed.

End OutcomeFacts.

(** ** Identifiers that are in the query *)

Lemma upper_append a b : upper (a ++ b) = upper a ++ upper b.
Proof.
  unfold upper. induction a as [|c a IH]; [reflexivity|].
  rewrite append_cons. cbn [map_chars]. now rewrite IH.
Qed.

Lemma upper_digit c : is_digit c = true -> upper_char c = c.
Proof. destruct c as [[] [] [] [] [] [] [] []]; now cbn. Qed.

Lemma order_id_format_chars id :
  order_id_format id = true ->
  exists d1 d2 d3 d4 d5,
    id = String "O" (String "R" (String "D" (String "-"
           (String d1 (String d2 (String d3 (String d4 (String d5 ""))))))))
    /\ is_digit d1 = true /\ is_digit d2 = true /\ is_digit d3 = true
    /\ is_digit d4 = true /\ is_digit d5 = true.
Proof.
  unfold order_id_format.
  do 9 (destruct id as [|? id]; [cbn; rewrite ?andb_false_r; discriminate|]).
  destruct id; [|cbn; rewrite ?andb_false_r; discriminate].
  cbn -[is_digit Ascii.eqb].
  intros Hf. repeat (apply andb_true_iff in Hf as [Hf ?]).
  repeat match goal with
         | Hc : (if Ascii.eqb ?x ?y then _ else false) = true |- _ =>
             destruct (Ascii.eqb_spec x y); [subst|discriminate Hc]
         | Hc : (if Ascii.eqb ?x ?y then _ else false) && _ = true |- _ =>
             destruct (Ascii.eqb_spec x y); [subst|discriminate Hc]
         end.
  repeat match goal with
         | Hc : (Ascii.eqb ?x ?y && _)%bool = true |- _ =>
             apply andb_true_iff in Hc as [?%Ascii.eqb_eq Hc]; subst
         end.
  repeat match goal with
         | Hc : Ascii.eqb ?x ?y = true |- _ =>
             apply Ascii.eqb_eq in Hc; subst
         | Hc : (is_digit _ && _)%bool = true |- _ =>
             apply andb_true_iff in Hc as [? Hc]
         end.
  eexists _, _, _, _, _. split; [reflexivity|]. auto 10.
Qed.

Lemma upper_order_id id : order_id_format id = true -> upper id = id.
Proof.
  intros (d1 & d2 & d3 & d4 & d5 & -> & H1 & H2 & H3 & H4 & H5)
    %order_id_format_chars.
  unfold upper. cbn [map_chars].
  rewrite (upper_digit d1 H1), (upper_digit d2 H2), (upper_digit d3 H3),
    (upper_digit d4 H4), (upper_digit d5 H5).
  reflexivity.
Qed.

Lemma order_id_length id : order_id_format id = true -> String.length id = 9.
Proof.
  now intros (d1 & d2 & d3 & d4 & d5 & -> & _)%order_id_format_chars.
Qed.

Lemma substring_whole s b :
  substring 0 (String.length s) (s ++ b) = s.
Proof.
  induction s as [|c s IH]; [now destruct b|].
  rewrite append_cons. cbn [String.length substring]. now rewrite IH.
Qed.

Lemma window_after a s b :
  String.length s = 9 -> window (String.length a) (a ++ s ++ b) = s.
Proof.
  intros Hlen. unfold window. induction a as [|c a IH].
  - change ("" ++ s ++ b) with (s ++ b). cbn [String.length].
    rewrite <- Hlen. apply substring_whole.
  - rewrite append_cons. cbn [String.length substring]. exact IH.
Qed.

Lemma upper_length s : String.length (upper s) = String.length s.
Proof.
  unfold upper. induction s as [|c s IH]; [reflexivity|].
  cbn. now rewrite IH.
Qed.

(** X19. An identifier of the format is found again: wherever it stands in a
    query, in whatever case, extraction returns an identifier of the format;
    at the start of the query it returns that identifier itself, in upper
    case. *)
Theorem extract_finds_embedded_id id written :
  order_id_format id = true ->
  upper written = id ->
  (forall before rest,
     exists found,
       OrderAgent._extract_order_id (before ++ written ++ rest) = Some found
       /\ order_id_format found = true)
  /\ (forall rest, OrderAgent._extract_order_id (written ++ rest) = Some id)
  /\ OrderAgent._extract_order_id id = Some id.
Proof.
  intros Hfmt Hup.
  assert (Hwin : forall wr before rest,
            upper wr = id ->
            window (String.length (upper before))
              (upper (before ++ wr ++ rest)) = id).
  { intros wr before rest Hwr. rewrite !upper_append, Hwr.
    apply window_after. now apply order_id_length. }
  assert (Hstart : forall wr rest,
            upper wr = id ->
            OrderAgent._extract_order_id (wr ++ rest) = Some id).
  { intros wr rest Hwr. unfold OrderAgent._extract_order_id.
    apply search_order_Some. exists 0. split; [|split; [exact Hfmt | lia]].
    apply (Hwin wr "" rest Hwr). }
  split; [|split].
  - intros before rest. unfold OrderAgent._extract_order_id.
    destruct (Re.search OrderAgent.order_pattern
                (upper (before ++ written ++ rest))) as [found|] eqn:Hs.
    + exists found. split; [reflexivity|].
      now apply search_order_Some in Hs as (i & _ & Hf & _).
    + exfalso.
      pose proof (proj1 (search_order_None _) Hs
                    (String.length (upper before))) as Hno.
      rewrite (Hwin written before rest Hup) in Hno. congruence.
  - intros rest. now apply Hstart.
  - pose proof (Hstart id "" (upper_order_id _ Hfmt)) as Hid.
    now rewrite append_empty_r in Hid.
Qed.

(** ** The router, call by call *)

Section RouteFacts.
Context {W : Type} `{LLMProvider W}.
Variable repr : json -> string.

Lemma gate_false c :
  RouterResponse.intent c <> UNCLEAR ->
  (RouterResponse.confidence c <? 0.7)%float = false ->
  LLMRouter.gate c = false.
Proof.
  intros Hi Hc. unfold LLMRouter.gate, LLMRouter.threshold. rewrite Hc.
  destruct (RouterResponse.intent c); [reflexivity | reflexivity | congruence].
Qed.

Lemma gate_false_inv c :
  LLMRouter.gate c = false ->
  RouterResponse.intent c <> UNCLEAR
  /\ (RouterResponse.confidence c <? 0.7)%float = false.
Proof.
  unfold LLMRouter.gate, LLMRouter.threshold.
  intros [Hi Hc]%orb_false_elim. split; [|exact Hc].
  intros Hu. rewrite Hu in Hi. discriminate Hi.
Qed.

Lemma gate_true_inv c :
  LLMRouter.gate c = true ->
  RouterResponse.intent c = UNCLEAR
  \/ (RouterResponse.confidence c <? 0.7)%float = true.
Proof.
  unfold LLMRouter.gate, LLMRouter.threshold.
  intros [Hi | Hc]%orb_true_iff; [left | now right].
  now destruct (RouterResponse.intent c).
Qed.

Lemma bind_ret_run {A B} (m : M W A) (f : A -> B) (s : machine W) :
  (a ← m; mret (f a)) s
  = (match fst (m s) with Ok a => Ok (f a) | Raise e => Raise e end,
     snd (m s)).
Proof.
  unfold mbind, M_bind, bind. now destruct (m s) as [[a|e] s'].
Qed.

(** [route] once the classifier has answered and the gate is open. *)
Lemma route_dispatch_run self query session_id s c w' :
  generate_json query LLMRouter.SYSTEM_PROMPT (world s) = (Ok c, w') ->
  LLMRouter.gate c = false ->
  let s1 := classified_state s query w' in
  let call :=
    match RouterResponse.intent c with
    | FAQ => FAQAgent.handle (LLMRouter.faq_agent self) query s1
    | _ =>
        OrderAgent.handle repr (LLMRouter.order_agent self) query
          (RouterResponse.entities c !! "order_id") s1
    end in
  LLMRouter.route repr self query session_id s
  = (match fst call with
     | Ok a => Ok (LLMRouter.respond query c a)
     | Raise e => Raise e
     end, snd call).
Proof.
  intros Hc Hg. cbn zeta. rewrite (route_classified _ _ _ _ _ _ _ Hc), Hg.
  destruct (gate_false_inv c Hg) as [Hi _].
  destruct (RouterResponse.intent c); [| |congruence]; apply bind_ret_run.
Qed.

Lemma respond_final query c a :
  LLMRouter.respond query c a
  = final query c
      (if AgentResponse.needs_clarification a
       then AgentResponse.message a
       else if AgentResponse.success a
            then AgentResponse.message a
            else if Intent_eqb (RouterResponse.intent c) FAQ
                 then LLMRouter.faq_fallback
                 else AgentResponse.message a).
Proof.
  unfold LLMRouter.respond, final.
  destruct (AgentResponse.needs_clarification a); [reflexivity|].
  now destruct (AgentResponse.success a).
Qed.

(** [route] past the gate: one handler call, at most one rewrite call, the
    counters as they were, and the handler's exception or a final answer
    built from the classification. *)
Lemma route_dispatch_cases self query session_id s c w' :
  generate_json query LLMRouter.SYSTEM_PROMPT (world s) = (Ok c, w') ->
  LLMRouter.gate c = false ->
  exists r w2 call more,
    LLMRouter.route repr self query session_id s
    = (r, {| unclear_count := unclear_count s; world := w2;
             trace := (trace s
                       ++ EvGenerateJson query LLMRouter.SYSTEM_PROMPT
                          :: call :: more)%list |})
    /\ is_handler_call call = true
    /\ (more = [] \/ exists p sp, more = [EvGenerate p sp])
    /\ (r = Raise AttributeError \/ r = Raise TypeError
        \/ r = Raise (KeyError "order_id")
        \/ r = Raise (KeyError "status")
        \/ exists response, r = Ok (final query c response)).
Proof.
  intros Hc Hg.
  pose proof (route_dispatch_run self query session_id s c w' Hc Hg) as Hrun.
  cbn zeta in Hrun. destruct (gate_false_inv c Hg) as [Hi _].
  destruct (RouterResponse.intent c) eqn:Hin; [| |congruence].
  - destruct (faq_handle_cases (LLMRouter.faq_agent self) query
                (classified_state s query w'))
      as (r & w2 & evs & Hrun' & Hev & Hr).
    rewrite Hrun' in Hrun. unfold after, classified_state in Hrun.
    cbn [fst snd unclear_count world trace] in Hrun.
    rewrite <- app_assoc in Hrun. cbn [app] in Hrun. rewrite Hrun.
    eexists _, _, (EvFaqHandle query), evs.
    split; [reflexivity|]. split; [reflexivity|].
    split; [destruct Hev as [[-> _] | ?]; auto|].
    destruct (FAQAgent.knowledge_base _).
    + right. right. right. right.
      destruct Hr as [[-> _] | (m & t & ->)]; rewrite respond_final; eauto.
    + left. now destruct Hr as [-> _].
  - destruct (order_handle_cases repr (LLMRouter.order_agent self) query
                (RouterResponse.entities c !! "order_id")
                (classified_state s query w'))
      as (r & w2 & evs & Hrun' & Hev & Hr).
    rewrite Hrun' in Hrun. unfold after, classified_state in Hrun.
    cbn [fst snd unclear_count world trace] in Hrun.
    rewrite <- app_assoc in Hrun. cbn [app] in Hrun. rewrite Hrun.
    eexists _, _, (EvOrderHandle query
                     (RouterResponse.entities c !! "order_id")), evs.
    split; [reflexivity|]. split; [reflexivity|].
    split; [destruct Hev as [[-> _] | ?]; auto|].
    destruct Hr as [[-> _] | [[[id ->] _] | [(m & o & ->)
                   | (e & -> & _ & He)]]];
      rewrite ?respond_final; eauto 10.
    destruct He as [-> | [-> | [-> | ->]]]; auto.
Qed.

(** Every way a [route] call can go: what it returns, where it leaves the
    provider and the counters, and what it recorded. *)
Lemma route_cases self query session_id (s : machine W) :
  exists r m' w' evs,
    LLMRouter.route repr self query session_id s
    = (r, {| unclear_count := m'; world := w';
             trace := (trace s
                       ++ EvGenerateJson query LLMRouter.SYSTEM_PROMPT
                          :: evs)%list |})
    /\ ((r = Ok (LLMRouter._escalate query) /\ m' = unclear_count s
         /\ (evs = [] \/ evs = [EvCountRead session_id]))
        \/ (exists confidence,
              r = Ok (clarification query confidence)
              /\ m' = <[session_id := 1%Z]> (unclear_count s)
              /\ evs = [EvCountRead session_id; EvCountWrite session_id 1])
        \/ (exists c call more,
              m' = unclear_count s
              /\ is_handler_call call = true
              /\ evs = call :: more
              /\ (more = [] \/ exists p sp, more = [EvGenerate p sp])
              /\ (r = Raise AttributeError \/ r = Raise TypeError
                  \/ r = Raise (KeyError "order_id")
                  \/ r = Raise (KeyError "status")
                  \/ exists response, r = Ok (final query c response)))).
Proof.
  destruct (generate_json query LLMRouter.SYSTEM_PROMPT (world s))
    as [[c|e] w'] eqn:Hc.
  - destruct (LLMRouter.gate c) eqn:Hg.
    + rewrite (route_unclear_run repr self query session_id s c w' Hc
                 (gate_true_inv c Hg)).
      destruct (_ =? _)%Z.
      * eexists _, _, _, _. split; [reflexivity|]. right. left. eauto.
      * eexists _, _, _, _. split; [reflexivity|]. left. auto.
    + destruct (route_dispatch_cases self query session_id s c w' Hc Hg)
        as (r & w2 & call & more & -> & Hcall & Hmore & Hr).
      eexists _, _, _, _. split; [reflexivity|].
      right. right. exists c, call, more. auto.
  - rewrite (route_failed _ _ _ _ _ _ _ Hc). unfold classified_state.
    eexists _, _, _, []. split; [reflexivity|]. left. auto.
Qed.

End RouteFacts.

Section RouteTheorems.
Context {W : Type} `{LLMProvider W}.
Variable repr : json -> string.

Lemma new_events_record (s : machine W) m' w' evs :
  new_events s {| unclear_count := m'; world := w';
                  trace := (trace s ++ evs)%list |} = evs.
Proof. unfold new_events. cbn [trace]. apply drop_app_length. Qed.

(** X1. An answer of [route] repeats the query it was given, and it is marked as
    escalated only when it is the fixed escalation answer. *)
Theorem route_escalated_only_by_escalation self query session_id s r :
  fst (LLMRouter.route repr self query session_id s) = Ok r ->
  FinalResponse.query r = query
  /\ (FinalResponse.escalated r = true -> r = LLMRouter._escalate query).
Proof.
  destruct (route_cases repr self query session_id s)
    as (r' & m' & w' & evs & -> & Hcase). cbn [fst]. intros ->.
  destruct Hcase as [([= ->] & _) | [(cf & [= ->] & _)
                    | (c & call & more & _ & _ & _ & _ & Hr)]].
  - now split.
  - split; [reflexivity | discriminate].
  - destruct Hr as [[=] | [[=] | [[=] | [[=] | (resp & [= ->])]]]].
    split; [reflexivity | discriminate].
Qed.

(** X2. One [route] call starts with the classification call and then makes at
    most one more provider call and at most one handler call; a call that
    reaches a handler does not touch the counters. *)
Theorem route_call_budget self query session_id (s : machine W) :
  exists rest,
    new_events s (snd (LLMRouter.route repr self query session_id s))
    = EvGenerateJson query LLMRouter.SYSTEM_PROMPT :: rest
    /\ length (List.filter is_provider_call rest) <= 1
    /\ length (List.filter is_handler_call rest) <= 1
    /\ (existsb is_handler_call rest = true ->
        existsb is_count_access rest = false).
Proof.
  destruct (route_cases repr self query session_id s)
    as (r & m' & w' & evs & -> & Hcase). cbn [snd].
  exists evs. rewrite new_events_record. split; [reflexivity|].
  destruct Hcase as [(_ & _ & [-> | ->]) | [(cf & _ & _ & ->)
                    | (c & call & more & _ & Hcall & -> & Hmore & _)]];
    cbn; auto.
  destruct call; try discriminate Hcall;
    destruct Hmore as [-> | (p & sp & ->)]; cbn; auto.
Qed.

(** X3. When [route] raises, a handler raised: the classification succeeded and
    passed the gate, the exception is the one that the handler of the
    classified intent raised for this query, for the order handler one of its
    four, and the counters are as they were. A handler's exception is not
    turned into an escalation. *)
Theorem route_raises_only_from_handlers self query session_id s e :
  fst (LLMRouter.route repr self query session_id s) = Raise e ->
  (exists c w',
     generate_json query LLMRouter.SYSTEM_PROMPT (world s) = (Ok c, w')
     /\ RouterResponse.intent c <> UNCLEAR
     /\ (RouterResponse.confidence c <? 0.7)%float = false
     /\ ((RouterResponse.intent c = FAQ
          /\ fst (FAQAgent.handle (LLMRouter.faq_agent self) query
                    (classified_state s query w')) = Raise e)
         \/ (RouterResponse.intent c = ORDER_STATUS
             /\ fst (OrderAgent.handle repr (LLMRouter.order_agent self)
                       query (RouterResponse.entities c !! "order_id")
                       (classified_state s query w')) = Raise e
             /\ (e = AttributeError \/ e = TypeError
                 \/ e = KeyError "order_id" \/ e = KeyError "status"))))
  /\ unclear_count (snd (LLMRouter.route repr self query session_id s))
     = unclear_count s.
Proof.
  destruct (generate_json query LLMRouter.SYSTEM_PROMPT (world s))
    as [[c|e'] w'] eqn:Hc.
  - destruct (LLMRouter.gate c) eqn:Hg.
    + rewrite (route_unclear_run repr self query session_id s c w' Hc
                 (gate_true_inv c Hg)).
      destruct (_ =? _)%Z; discriminate.
    + pose proof (route_dispatch_run repr self query session_id s c w' Hc Hg)
        as Hrun.
      cbn zeta in Hrun. rewrite Hrun. cbn [fst snd].
      destruct (gate_false_inv c Hg) as [Hi Hlt].
      destruct (RouterResponse.intent c) eqn:Hin; [| |congruence].
      * destruct (faq_handle_cases (LLMRouter.faq_agent self) query
                    (classified_state s query w'))
          as (r & w2 & evs & Hh & _ & _).
        rewrite Hh. cbn [fst snd]. destruct r as [a|e2]; [discriminate|].
        intros [= ->]. split; [|reflexivity].
        exists c, w'. rewrite Hin, Hh.
        split; [reflexivity|]. split; [discriminate|]. split; [exact Hlt|].
        left. split; reflexivity.
      * destruct (order_handle_cases repr (LLMRouter.order_agent self) query
                    (RouterResponse.entities c !! "order_id")
                    (classified_state s query w'))
          as (r & w2 & evs & Hh & _ & Hr).
        rewrite Hh. cbn [fst snd]. destruct r as [a|e2]; [discriminate|].
        intros [= ->]. split; [|reflexivity].
        exists c, w'. rewrite Hin, Hh.
        split; [reflexivity|]. split; [discriminate|]. split; [exact Hlt|].
        right. split; [reflexivity|]. split; [reflexivity|].
        destruct Hr as [[[=] _] | [[[id [=]] _] | [(m & o & [=])
                       | (e2 & [= <-] & _ & He)]]].
        exact He.
  - rewrite (route_failed _ _ _ _ _ _ _ Hc). discriminate.
Qed.

(** X4. Past the gate, the answer is built from the classification and the
    handler's outcome. For FAQ it is the handler's message on success and the
    router's own fallback text otherwise; for ORDER_STATUS it is the handler's
    message in every case. The counters are not touched. *)
Theorem dispatch_response self query session_id s c w' :
  generate_json query LLMRouter.SYSTEM_PROMPT (world s) = (Ok c, w') ->
  RouterResponse.intent c <> UNCLEAR ->
  (RouterResponse.confidence c <? 0.7)%float = false ->
  let s1 := classified_state s query w' in
  let out := LLMRouter.route repr self query session_id s in
  unclear_count (snd out) = unclear_count s
  /\ existsb is_count_access (new_events s (snd out)) = false
  /\ (RouterResponse.intent c = FAQ ->
      fst out
      = match fst (FAQAgent.handle (LLMRouter.faq_agent self) query s1) with
        | Ok a =>
            Ok (final query c
                  (if AgentResponse.success a then AgentResponse.message a
                   else LLMRouter.faq_fallback))
        | Raise e => Raise e
        end)
  /\ (RouterResponse.intent c = ORDER_STATUS ->
      fst out
      = match fst (OrderAgent.handle repr (LLMRouter.order_agent self) query
                     (RouterResponse.entities c !! "order_id") s1) with
        | Ok a => Ok (final query c (AgentResponse.message a))
        | Raise e => Raise e
        end).
Proof.
  intros Hc Hi Hlt s1 out. subst s1 out.
  pose proof (gate_false c Hi Hlt) as Hg.
  split; [|split].
  - destruct (route_dispatch_cases repr self query session_id s c w' Hc Hg)
      as (r & w2 & call & more & -> & _). reflexivity.
  - destruct (route_dispatch_cases repr self query session_id s c w' Hc Hg)
      as (r & w2 & call & more & -> & Hcall & Hmore & _).
    cbn [snd]. rewrite new_events_record.
    destruct call; try discriminate Hcall;
      destruct Hmore as [-> | (p & sp & ->)]; reflexivity.
  - rewrite (route_dispatch_run repr self query session_id s c w' Hc Hg).
    cbn zeta. split; intros Hin; rewrite Hin; cbn [fst].
    + destruct (faq_handle_cases (LLMRouter.faq_agent self) query
                  (classified_state s query w'))
        as (r & w2 & evs & -> & _ & Hr). cbn [fst].
      destruct (FAQAgent.knowledge_base _).
      * destruct Hr as [[-> _] | (m & t & ->)]; rewrite respond_final, Hin;
          reflexivity.
      * now destruct Hr as [-> _].
    + destruct (OrderAgent.handle _ _ _ _ _) as [[a|e] s2]; cbn [fst];
        [|reflexivity].
      rewrite respond_final, Hin. cbn [Intent_eqb].
      destruct (AgentResponse.needs_clarification a); [reflexivity|].
      now destruct (AgentResponse.success a).
Qed.

(** *** The counters over several calls *)

Lemma route_counts_fine self query session_id (s : machine W) :
  let m' := unclear_count (snd (LLMRouter.route repr self query session_id s)) in
  m' = unclear_count s
  \/ (default 0%Z (unclear_count s !! session_id) = 0%Z
      /\ m' = <[session_id := 1%Z]> (unclear_count s)).
Proof.
  cbn zeta.
  destruct (generate_json query LLMRouter.SYSTEM_PROMPT (world s))
    as [[c|e] w'] eqn:Hc.
  - destruct (LLMRouter.gate c) eqn:Hg.
    + rewrite (route_unclear_run repr self query session_id s c w' Hc
                 (gate_true_inv c Hg)).
      destruct (Z.eqb_spec (default 0%Z (unclear_count s !! session_id)) 0);
        cbn; auto.
    + destruct (route_dispatch_cases repr self query session_id s c w' Hc Hg)
        as (r & w2 & call & more & -> & _). now left.
  - rewrite (route_failed _ _ _ _ _ _ _ Hc). now left.
Qed.

Lemma routes_keep_entry self calls (s : machine W) x v :
  unclear_count s !! x = Some v ->
  v <> 0%Z ->
  unclear_count (routes repr self calls s) !! x = Some v.
Proof.
  revert s; induction calls as [|[q sid] calls IH]; intros s Hx Hv;
    [exact Hx|].
  unfold routes. cbn [fold_left fst snd]. apply IH; [|exact Hv].
  destruct (route_counts_fine self q sid s) as [-> | [Hz ->]]; [exact Hx|].
  destruct (decide (sid = x)) as [->|Hne].
  - rewrite Hx in Hz. cbn in Hz. congruence.
  - now rewrite lookup_insert_ne.
Qed.

(** [route] never removes a counter and never changes one that is not 0:
    whatever is routed afterwards, for whatever session, a session that has
    been asked to clarify stays so until [reset_session]. *)
Theorem pending_survives_routes self calls (s : machine W) x v :
  unclear_count s !! x = Some v ->
  v <> 0%Z ->
  unclear_count (routes repr self calls s) !! x = Some v.
Proof. apply routes_keep_entry. Qed.

(** X5. A [route] call for one session leaves the counter of every other
    session as it was, present or absent. *)
Theorem route_session_isolation self query session_id (s : machine W) other :
  other <> session_id ->
  unclear_count (snd (LLMRouter.route repr self query session_id s)) !! other
  = unclear_count s !! other.
Proof.
  intros Hne.
  destruct (route_counts_fine self query session_id s) as [-> | [_ ->]];
    [reflexivity|].
  apply lookup_insert_ne. congruence.
Qed.

(** X6. Two strikes: a session without a counter is asked to clarify on its
    first unclear turn, and its next unclear turn is escalated, whatever was
    routed in between (for this or another session, answered or not): the
    two turns need not be consecutive. *)
Theorem two_strikes self query1 query2 session_id calls s c1 w1 c2 w2 :
  unclear_count s !! session_id = None ->
  generate_json query1 LLMRouter.SYSTEM_PROMPT (world s) = (Ok c1, w1) ->
  RouterResponse.intent c1 = UNCLEAR
  \/ (RouterResponse.confidence c1 <? 0.7)%float = true ->
  let s1 := snd (LLMRouter.route repr self query1 session_id s) in
  let s2 := routes repr self calls s1 in
  generate_json query2 LLMRouter.SYSTEM_PROMPT (world s2) = (Ok c2, w2) ->
  RouterResponse.intent c2 = UNCLEAR
  \/ (RouterResponse.confidence c2 <? 0.7)%float = true ->
  fst (LLMRouter.route repr self query1 session_id s)
  = Ok (clarification query1 (RouterResponse.confidence c1))
  /\ fst (LLMRouter.route repr self query2 session_id s2)
     = Ok (LLMRouter._escalate query2).
Proof.
  intros Hnone Hc1 Hg1 s1 s2 Hc2 Hg2.
  assert (Hrun1 : LLMRouter.route repr self query1 session_id s
                  = (Ok (clarification query1 (RouterResponse.confidence c1)),
                     {| unclear_count := <[session_id := 1%Z]> (unclear_count s);
                        world := w1;
                        trace := (trace s
                                  ++ [EvGenerateJson query1
                                        LLMRouter.SYSTEM_PROMPT]
                                  ++ [EvCountRead session_id;
                                      EvCountWrite session_id 1])%list |})).
  { rewrite (route_unclear_run repr self query1 session_id s c1 w1 Hc1 Hg1).
    now rewrite Hnone. }
  split; [now rewrite Hrun1|].
  assert (Hone : unclear_count s2 !! session_id = Some 1%Z).
  { subst s2. apply routes_keep_entry; [|discriminate].
    subst s1. rewrite Hrun1. cbn [snd unclear_count].
    apply lookup_insert_eq. }
  rewrite (route_unclear_run repr self query2 session_id s2 c2 w2 Hc2 Hg2).
  now rewrite Hone.
Qed.

(** An unknown order is not an escalation: a confident ORDER_STATUS
    classification whose identifier is not in the records is answered with
    the agent's "not found" message, not escalated, counters untouched. *)
Theorem route_unknown_order self query session_id s c w' id db :
  generate_json query LLMRouter.SYSTEM_PROMPT (world s) = (Ok c, w') ->
  RouterResponse.intent c = ORDER_STATUS ->
  (RouterResponse.confidence c <? 0.7)%float = false ->
  RouterResponse.entities c !! "order_id" = Some id ->
  id <> "" ->
  OrderAgent.orders (LLMRouter.order_agent self) = Some db ->
  dict_get id db = None ->
  let out := LLMRouter.route repr self query session_id s in
  fst out = Ok (final query c (OrderAgent.not_found id))
  /\ unclear_count (snd out) = unclear_count s.
Proof.
  intros Hc Hin Hlt Hent Hne Hdb Hget out. subst out.
  assert (Hg : LLMRouter.gate c = false)
    by (apply gate_false; [rewrite Hin; discriminate | exact Hlt]).
  rewrite (route_dispatch_run repr self query session_id s c w' Hc Hg).
  cbn zeta. rewrite Hin, Hent.
  destruct id as [|ch id]; [congruence|].
  rewrite (order_run_missing repr (LLMRouter.order_agent self) query
             (Some (String ch id)) ch id db _ eq_refl Hdb)
    by now rewrite Hget.
  cbn [fst snd after unclear_count classified_state].
  rewrite respond_final, Hin. split; reflexivity.
Qed.

End RouteTheorems.

(** ** The evaluation harness *)

(** The intent names that [load_test_cases] accepts are exactly the values
    of the enumeration, in lower case as they are written there; any other
    name, [FAQ] in upper case for one, makes the case be skipped. *)
Theorem intent_names_are_enum_values name i :
  (Evaluate.intent_of_name (JStr name) = Some i <-> name = Intent_value i)
  /\ Evaluate.intent_of_name (JStr (upper (Intent_value i))) = None.
Proof.
  split; [split|].
  - unfold Evaluate.intent_of_name.
    destruct (String.eqb_spec name "faq") as [->|Hf];
      [now intros [= <-]|].
    destruct (String.eqb_spec name "order_status") as [->|Ho];
      [now intros [= <-]|].
    destruct (String.eqb_spec name "unclear") as [->|Hu];
      [now intros [= <-]|].
    intros Hn. exfalso.
    repeat (destruct name as [|[[] [] [] [] [] [] [] []] name];
            try discriminate Hn; try congruence).
  - intros ->. now destruct i.
  - now destruct i.
Qed.

Lemma load_cases_complete cases :
  forallb complete_case cases = true ->
  Evaluate.load_cases cases = Ok (omap decode_case cases).
Proof.
  induction cases as [|case cases IH]; [reflexivity|].
  cbn [forallb]. intros [Hc Hall]%andb_true_iff.
  cbn [Evaluate.load_cases omap]. rewrite (IH Hall).
  destruct case as [| | | | | |d]; try discriminate Hc.
  cbn in Hc |- *.
  destruct (dict_get "query" d) as [q|]; [|discriminate Hc].
  destruct (dict_get "expected_intent" d) as [n|]; [|discriminate Hc].
  cbn. now destruct (Evaluate.intent_of_name n).
Qed.

Lemma load_cases_incomplete cases :
  forallb complete_case cases = false ->
  exists e, Evaluate.load_cases cases = Raise e.
Proof.
  induction cases as [|case cases IH]; [discriminate|].
  cbn [forallb Evaluate.load_cases].
  destruct (Evaluate.load_case case) as [loaded|e] eqn:Hl; [|eauto].
  assert (Hc : complete_case case = true).
  { destruct case as [| | | | | |d]; try discriminate Hl. cbn in Hl |- *.
    destruct (dict_get "query" d); [|discriminate Hl].
    now destruct (dict_get "expected_intent" d). }
  rewrite Hc. cbn [andb]. intros Hall.
  destruct (IH Hall) as [e ->]. eauto.
Qed.

(** X21. Loading the test cases is all or nothing. When every case is a dict
    with a query and an expected intent, the result is the cases with a known
    intent name, in their order, the others skipped. When one case is not,
    loading raises and no case is returned, whatever the other cases are. *)
Theorem load_test_cases_all_or_nothing d cases :
  dict_get "test_cases" d = Some (JList cases) ->
  (forallb complete_case cases = true ->
   Evaluate.load_test_cases (JObj d) = Ok (omap decode_case cases))
  /\ (forallb complete_case cases = false ->
      exists e, Evaluate.load_test_cases (JObj d) = Raise e).
Proof.
  intros Hd. unfold Evaluate.load_test_cases. rewrite Hd. split.
  - apply load_cases_complete.
  - apply load_cases_incomplete.
Qed.

Section EvaluateFacts.
Context {W : Type} `{LLMProvider W}.
Variable repr : json -> string.







End EvaluateFacts.

Section EvaluateDown.
Context {W : Type} `{LLMProvider W}.
Variable repr : json -> string.

Lemma count_cases_down router cases :
  classifier_down ->
  forall t (s : machine W),
    exists t',
      fst (Evaluate.count_cases repr router cases t s) = Ok t'
      /\ Evaluate.correct t'
         = (Evaluate.correct t + Z.of_nat (expecting UNCLEAR cases))%Z
      /\ Evaluate.latencies t' = Evaluate.latencies t + length cases.
Proof.
  intros Hdown. induction cases as [|[q expected] cases IH]; intros t s.
  - exists t. cbn. repeat split; lia.
  - cbn [Evaluate.count_cases]. unfold mbind, M_bind, bind.
    unfold Evaluate.count_case, try_else.
    destruct (Hdown q LLMRouter.SYSTEM_PROMPT (world s)) as (e & w' & Hc).
    rewrite (route_failed repr router q "default" s e w' Hc).
    cbn -[Evaluate.count_cases expecting].
    match goal with
    | |- context [Evaluate.count_cases repr router cases ?t1 ?s1] =>
        destruct (IH t1 s1) as (t' & Hrun & Hcorrect & Hlat)
    end.
    exists t'. split; [exact Hrun|].
    cbn [Evaluate.correct Evaluate.latencies] in Hcorrect, Hlat.
    unfold expecting in *. cbn [List.filter snd length].
    destruct expected; cbn [Intent_eqb length] in *; lia.
Qed.

(** X23. Against a classifier that is down, every case is answered (with the
    escalation, whose intent is UNCLEAR), so the cases that expect UNCLEAR
    all count as correct and no other case does. *)
Theorem down_classifier_scores_unclear knowledge_base orders cases (w : W) :
  classifier_down ->
  exists t,
    fst (Evaluate.evaluate_model repr knowledge_base orders cases w) = Ok t
    /\ Evaluate.correct t = Z.of_nat (expecting UNCLEAR cases)
    /\ Evaluate.latencies t = length cases.
Proof.
  intros Hdown. unfold Evaluate.evaluate_model.
  destruct (count_cases_down (LLMRouter.init knowledge_base orders) cases
              Hdown Evaluate.tally_init (LLMRouter.start w))
    as (t & Hrun & Hc & Hl).
  exists t. split; [exact Hrun|]. cbn in Hc, Hl. split; [lia | exact Hl].
Qed.

End EvaluateDown.

(** ** The console loop *)

Section MainFacts.
Context {W : Type} `{LLMProvider W}.
Variable repr : json -> string.

(** X24. The loop stops at the first quit command: the lines after it are never
    read. The command is recognised in any case and with blanks around it. *)
Theorem quit_ends_the_loop router before line rest printed (s : machine W) :
  Main.is_quit (strip line) = true ->
  Main.loop repr router (before ++ line :: rest)%list printed s
  = Main.loop repr router (before ++ [line])%list printed s
  /\ Main.is_quit (strip "  Quit ") = true
  /\ Main.is_quit (strip "EXIT") = true
  /\ Main.is_quit (strip "q") = true.
Proof.
  intros Hq. split; [|now repeat split].
  revert printed s. induction before as [|l before IH]; intros printed s.
  - cbn [app Main.loop]. now rewrite Hq.
  - cbn [app Main.loop].
    destruct (Main.is_quit (strip l)); [reflexivity|].
    destruct (negb (truthy_str (Some (strip l)))); [apply IH|].
    destruct (LLMRouter.route repr router (strip l) Main.session_id s)
      as [[result|e] s']; [apply IH | reflexivity].
Qed.

(** X25. A line of blanks only (or an empty line) is skipped: it is not routed,
    so it is no unclear turn and nothing is printed for it. *)
Theorem blank_line_is_skipped router before line rest printed (s : machine W) :
  blank line = true ->
  Main.loop repr router (before ++ line :: rest)%list printed s
  = Main.loop repr router (before ++ rest)%list printed s.
Proof.
  intros Hb. revert printed s.
  induction before as [|l before IH]; intros printed s.
  - cbn [app Main.loop]. now rewrite (strip_blank _ Hb).
  - cbn [app Main.loop].
    destruct (Main.is_quit (strip l)); [reflexivity|].
    destruct (negb (truthy_str (Some (strip l)))); [apply IH|].
    destruct (LLMRouter.route repr router (strip l) Main.session_id s)
      as [[result|e] s']; [apply IH | reflexivity].
Qed.

Lemma route_clarification_sets self query session_id (s : machine W) r :
  fst (LLMRouter.route repr self query session_id s) = Ok r ->
  is_clarification r = true ->
  default 0%Z (unclear_count s !! session_id) = 0%Z
  /\ unclear_count (snd (LLMRouter.route repr self query session_id s))
     !! session_id = Some 1%Z.
Proof.
  destruct (generate_json query LLMRouter.SYSTEM_PROMPT (world s))
    as [[c|e] w'] eqn:Hc.
  - destruct (LLMRouter.gate c) eqn:Hg.
    + rewrite (route_unclear_run repr self query session_id s c w' Hc
                 (gate_true_inv c Hg)).
      destruct (Z.eqb_spec (default 0%Z (unclear_count s !! session_id)) 0);
        cbn [fst snd unclear_count].
      * intros _ _. split; [assumption | apply lookup_insert_eq].
      * now intros [= <-].
    + destruct (route_dispatch_cases repr self query session_id s c w' Hc Hg)
        as (r' & w2 & call & more & -> & _ & _ & Hr).
      cbn [fst]. intros ->.
      destruct Hr as [[=] | [[=] | [[=] | [[=] | (resp & [= ->])]]]].
      unfold is_clarification, final. cbn.
      destruct (gate_false_inv c Hg) as [Hi _].
      destruct (RouterResponse.intent c); [discriminate.. | congruence].
  - rewrite (route_failed _ _ _ _ _ _ _ Hc). now intros [= <-].
Qed.

Lemma loop_clarifies_once router lines :
  forall printed (s : machine W),
    (length (List.filter is_clarification printed) = 0
     \/ (length (List.filter is_clarification printed) <= 1
         /\ unclear_count s !! Main.session_id = Some 1%Z)) ->
    length (List.filter is_clarification
              (snd (fst (Main.loop repr router lines printed s)))) <= 1.
Proof.
  induction lines as [|line lines IH]; intros printed s Hinv.
  - cbn. destruct Hinv as [-> | [Hle _]]; lia.
  - cbn [Main.loop].
    destruct (Main.is_quit (strip line));
      [cbn; destruct Hinv as [-> | [Hle _]]; lia|].
    destruct (negb (truthy_str (Some (strip line)))); [now apply IH|].
    destruct (LLMRouter.route repr router (strip line) Main.session_id s)
      as [[result|e] s'] eqn:Hrun;
      [|cbn; destruct Hinv as [-> | [Hle _]]; lia].
    apply IH. rewrite List.filter_app, length_app. cbn [List.filter].
    destruct (is_clarification result) eqn:Hcl.
    + destruct (route_clarification_sets router (strip line) Main.session_id
                  s result) as [Hz Hone];
        [now rewrite Hrun | exact Hcl |].
      rewrite Hrun in Hone. cbn [snd] in Hone.
      destruct Hinv as [-> | [_ Hset]].
      * right. split; [cbn; lia | exact Hone].
      * rewrite Hset in Hz. discriminate Hz.
    + cbn [length]. rewrite Nat.add_0_r.
      destruct Hinv as [Hzero | [Hle Hset]]; [now left|].
      right. split; [exact Hle|].
      pose proof (routes_keep_entry repr router
                    [(strip line, Main.session_id)] s Main.session_id 1%Z
                    Hset) as Hkeep.
      unfold routes in Hkeep. cbn [fold_left fst snd] in Hkeep.
      rewrite Hrun in Hkeep. apply Hkeep. discriminate.
Qed.

(** X26. A console conversation is asked to clarify at most once: the loop uses
    one session and never resets it, so after the first unclear turn every
    further one is escalated. *)
Theorem console_clarifies_at_most_once router lines (w : W) :
  length (List.filter is_clarification
            (snd (fst (Main.loop repr router lines [] (LLMRouter.start w)))))
  <= 1.
Proof. apply loop_clarifies_once. now left. Qed.

End MainFacts.

(** ** The text handed to the JSON decoder *)

Lemma has_char_append c a b :
  has_char c (a ++ b) = has_char c a || has_char c b.
Proof.
  induction a as [|x a IH]; [reflexivity|].
  rewrite append_cons. cbn [has_char]. now rewrite IH, orb_assoc.
Qed.

Lemma has_char_lstrip c s : has_char c s = false -> has_char c (lstrip s) = false.
Proof.
  induction s as [|x s IH]; [reflexivity|].
  cbn [lstrip]. destruct (is_space x); [|easy].
  cbn [has_char]. intros [_ Hs]%orb_false_elim. auto.
Qed.

Lemma has_char_rstrip c s : has_char c s = false -> has_char c (rstrip s) = false.
Proof.
  induction s as [|x s IH]; [reflexivity|].
  cbn [has_char]. intros [Hx Hs]%orb_false_elim. cbn [rstrip].
  specialize (IH Hs). destruct (rstrip s) as [|y r].
  - destruct (is_space x); [reflexivity|]. cbn. now rewrite Hx.
  - cbn [has_char] in *. now rewrite Hx, IH.
Qed.

Lemma prefix_has_char sub s c :
  String.prefix sub s = true -> has_char c sub = true -> has_char c s = true.
Proof.
  revert s; induction sub as [|a sub IH]; intros s; [discriminate 2|].
  destruct s as [|b s]; [discriminate|]. cbn [String.prefix has_char].
  destruct (ascii_dec a b) as [<-|]; [|discriminate].
  intros Hp [Ha | Hk]%orb_true_iff.
  - now rewrite Ha.
  - rewrite (IH s Hp Hk). apply orb_true_r.
Qed.

Lemma str_in_has_char sub s c :
  str_in sub s = true -> has_char c sub = true -> has_char c s = true.
Proof.
  induction s as [|b s IH]; cbn [str_in].
  - destruct (String.prefix sub "") eqn:Hp; [|discriminate].
    intros _. now apply prefix_has_char.
  - destruct (String.prefix sub (String b s)) eqn:Hp.
    + intros _. now apply prefix_has_char.
    + intros Hin Hk. cbn [has_char]. rewrite (IH Hin Hk).
      apply orb_true_r.
Qed.

Lemma no_char_no_str sub s c :
  has_char c sub = true -> has_char c s = false -> str_in sub s = false.
Proof.
  intros Hsub Hs. destruct (str_in sub s) eqn:Hin; [|reflexivity].
  now rewrite (str_in_has_char _ _ _ Hin Hsub) in Hs.
Qed.

Lemma lstrip_before_text b c t :
  is_space c = false -> lstrip (b ++ String c t) = lstrip b ++ String c t.
Proof.
  intros Hc. induction b as [|x b IH].
  - cbn [lstrip]. change ("" ++ String c t) with (String c t).
    cbn [lstrip]. now rewrite Hc.
  - rewrite append_cons. cbn [lstrip]. destruct (is_space x); [exact IH|].
    now rewrite append_cons.
Qed.

Lemma rstrip_after_text x y :
  rstrip y <> "" -> rstrip (x ++ y) = x ++ rstrip y.
Proof.
  intros Hy. induction x as [|c x IH]; [reflexivity|].
  rewrite !append_cons. cbn [rstrip]. rewrite IH.
  destruct (x ++ rstrip y) as [|d r] eqn:E; [|reflexivity].
  destruct x; [|discriminate E]. now destruct (rstrip y).
Qed.

Lemma prefix_char_head c x s :
  x <> c -> String.prefix (String c EmptyString) (String x s) = false.
Proof. intros Hne. cbn. destruct (ascii_dec c x); congruence. Qed.

Lemma has_char_head c x s :
  has_char c (String x s) = false -> x <> c /\ has_char c s = false.
Proof.
  cbn [has_char]. intros [Hx Hs]%orb_false_elim. split; [|exact Hs].
  intros ->. now rewrite Ascii.eqb_refl in Hx.
Qed.

(** *** Cutting at the braces *)

Lemma index_char_pass c b t :
  has_char c b = false ->
  Providers.index (String c "") (b ++ String c t) = Some (String.length b).
Proof.
  induction b as [|x b IH]; intros Hb.
  - change ("" ++ String c t) with (String c t). cbn.
    destruct (ascii_dec c c); [now destruct t|congruence].
  - apply has_char_head in Hb as [Hx Hb]. rewrite append_cons.
    cbn [Providers.index]. rewrite (prefix_char_head c x _ Hx).
    now rewrite (IH Hb).
Qed.

Lemma slice_from_append b t :
  Providers.slice_from (String.length b) (b ++ t) = t.
Proof.
  induction b as [|x b IH]; [now destruct t|].
  rewrite append_cons. exact IH.
Qed.

Lemma rindex_char_none c s :
  has_char c s = false -> Providers.rindex (String c "") s = None.
Proof.
  induction s as [|x s IH]; [reflexivity|].
  intros [Hx Hs]%has_char_head. cbn [Providers.rindex].
  now rewrite (IH Hs), (prefix_char_head c x _ Hx).
Qed.

Lemma rindex_char_last c z a :
  has_char c a = false ->
  Providers.rindex (String c "") (z ++ String c a) = Some (String.length z).
Proof.
  intros Ha. induction z as [|x z IH].
  - change ("" ++ String c a) with (String c a). cbn [Providers.rindex].
    rewrite (rindex_char_none c a Ha). cbn.
    destruct (ascii_dec c c); [now destruct a|congruence].
  - rewrite append_cons. cbn [Providers.rindex]. now rewrite IH.
Qed.

Lemma slice_to_append z c a :
  Providers.slice_to (String.length z + 1) (z ++ String c a)
  = z ++ String c "".
Proof.
  induction z as [|x z IH]; [reflexivity|].
  rewrite !append_cons. cbn. now rewrite IH.
Qed.

Lemma trim_to_braces_object before inner after :
  has_char "{" before = false ->
  has_char "}" after = false ->
  Providers.trim_to_braces (before ++ "{" ++ inner ++ "}" ++ after)
  = "{" ++ inner ++ "}".
Proof.
  intros Hb Ha. unfold Providers.trim_to_braces.
  change ("{" ++ inner ++ "}" ++ after)
    with (String "{" (inner ++ String "}" after)).
  rewrite (index_char_pass "{" before _ Hb), slice_from_append.
  change (String "{" (inner ++ String "}" after))
    with (String "{" inner ++ String "}" after).
  rewrite (rindex_char_last "}" (String "{" inner) after Ha),
    slice_to_append.
  reflexivity.
Qed.

Lemma strip_object inner : strip ("{" ++ inner ++ "}") = "{" ++ inner ++ "}".
Proof.
  unfold strip. change ("{" ++ inner ++ "}") with (String "{" (inner ++ "}")).
  cbn [lstrip]. change (is_space "{") with false. cbn iota.
  rewrite (rstrip_cons_keep "{" _ eq_refl).
  now rewrite (rstrip_after_text inner "}").
Qed.

(** *** Substrings of a stripped text *)

Lemma prefix_app_l sub a t :
  String.prefix sub a = true -> String.prefix sub (a ++ t) = true.
Proof.
  revert a; induction sub as [|c sub IH]; intros a.
  - intros _. now destruct (a ++ t).
  - destruct a as [|x a]; [discriminate|]. rewrite append_cons.
    cbn [String.prefix]. destruct (ascii_dec c x); [apply IH|discriminate].
Qed.

Lemma str_in_app_l sub a t :
  str_in sub a = true -> str_in sub (a ++ t) = true.
Proof.
  induction a as [|x a IH].
  - cbn [str_in]. destruct (String.prefix sub "") eqn:Hp; [|discriminate].
    intros _. apply str_in_prefix. now apply (prefix_app_l sub "" t).
  - cbn [str_in]. rewrite append_cons. cbn [str_in].
    destruct (String.prefix sub (String x a)) eqn:Hp.
    + intros _. apply (prefix_app_l sub (String x a) t) in Hp.
      rewrite append_cons in Hp. rewrite Hp. reflexivity.
    + intros Hin. rewrite (IH Hin).
      now destruct (String.prefix sub (String x (a ++ t))).
Qed.

Lemma str_in_lstrip sub s :
  str_in sub (lstrip s) = true -> str_in sub s = true.
Proof.
  induction s as [|x s IH]; [easy|].
  cbn [lstrip]. destruct (is_space x); [|easy].
  intros Hin. apply (str_in_skip sub (String x "") s). auto.
Qed.

Lemma rstrip_is_prefix s : exists t, s = rstrip s ++ t.
Proof.
  induction s as [|c s [t IH]]; [now exists ""|].
  cbn [rstrip]. destruct (rstrip s) as [|d r].
  - destruct (is_space c).
    + now exists (String c s).
    + exists s. reflexivity.
  - exists t. rewrite append_cons. now rewrite <- IH.
Qed.

Lemma str_in_rstrip sub s :
  str_in sub (rstrip s) = true -> str_in sub s = true.
Proof.
  intros Hin. destruct (rstrip_is_prefix s) as [t Ht].
  rewrite Ht. now apply str_in_app_l.
Qed.

Lemma str_in_strip sub s :
  str_in sub s = false -> str_in sub (strip s) = false.
Proof.
  intros Hs. destruct (str_in sub (strip s)) eqn:Hin; [|reflexivity].
  apply str_in_rstrip, str_in_lstrip in Hin. congruence.
Qed.

(** *** [str.split] *)

Lemma split_go_pass c0 sep' body rest :
  has_char c0 body = false ->
  forall cur,
    Providers.split_go (String c0 sep') 0 cur (body ++ rest)
    = Providers.split_go (String c0 sep') 0 (cur ++ body) rest.
Proof.
  induction body as [|x b IH]; intros Hb cur.
  - now rewrite append_empty_r.
  - apply has_char_head in Hb as [Hx Hb]. rewrite append_cons.
    cbn [Providers.split_go String.prefix].
    destruct (ascii_dec c0 x); [congruence|].
    rewrite (IH Hb), append_assoc. reflexivity.
Qed.

Lemma split_go_no_sep c0 sep' cur s :
  has_char c0 s = false ->
  Providers.split_go (String c0 sep') 0 cur s = [cur ++ s].
Proof.
  intros Hs. rewrite <- (append_empty_r s) at 1.
  now rewrite (split_go_pass c0 sep' s "" Hs).
Qed.

Lemma split_go_skip sep x rest cur :
  Providers.split_go sep (String.length x) cur (x ++ rest)
  = Providers.split_go sep 0 cur rest.
Proof.
  induction x as [|a x IH]; [reflexivity|].
  rewrite append_cons. exact IH.
Qed.

Lemma split_go_hit c0 sep' cur rest :
  Providers.split_go (String c0 sep') 0 cur (String c0 sep' ++ rest)
  = cur :: Providers.split_go (String c0 sep') 0 "" rest.
Proof.
  rewrite append_cons. cbn [Providers.split_go].
  rewrite <- append_cons, prefix_append.
  cbn [String.length]. rewrite Nat.sub_succ, Nat.sub_0_r.
  now rewrite split_go_skip.
Qed.

Lemma split_go_nonempty sep s :
  forall skip cur, (1 <= length (Providers.split_go sep skip cur s))%nat.
Proof.
  induction s as [|c s IH]; intros skip cur; [cbn; lia|].
  cbn [Providers.split_go]. destruct skip; [|apply IH].
  destruct (String.prefix sep (String c s)); [cbn; lia|apply IH].
Qed.

Lemma split_go_found sep s :
  sep <> "" -> str_in sep s = true ->
  forall cur, (2 <= length (Providers.split_go sep 0 cur s))%nat.
Proof.
  intros Hsep. induction s as [|c s IH]; intros Hin cur.
  - destruct sep; [congruence|discriminate].
  - cbn [Providers.split_go]. cbn [str_in] in Hin.
    destruct (String.prefix sep (String c s)).
    + cbn [length].
      pose proof (split_go_nonempty sep s (String.length sep - 1) "").
      lia.
    + apply IH, Hin.
Qed.

(** *** Code fences *)

Lemma json_fence_needs_three t :
  has_char "`" t = false ->
  String.prefix Providers.json_fence (String "`" t) = false
  /\ String.prefix Providers.json_fence (String "`" (String "`" t)) = false.
Proof.
  intros Ht. destruct t as [|a t]; [split; reflexivity|].
  apply has_char_head in Ht as [Ha _].
  unfold Providers.json_fence.
  split; cbn [String.prefix]; repeat destruct (ascii_dec _ _);
    congruence.
Qed.

Lemma unfence_json before body after :
  has_char "`" before = false ->
  has_char "`" body = false ->
  has_char "`" after = false ->
  Providers.unfence
    (before ++ Providers.json_fence ++ body ++ Providers.fence ++ after)
  = body.
Proof.
  intros Hb Hy Ha. unfold Providers.unfence.
  rewrite str_in_append. unfold Providers.split.
  change Providers.json_fence with (String "`" "``json").
  rewrite (split_go_pass "`" "``json" before _ Hb), split_go_hit.
  cbn [List.nth].
  rewrite (split_go_pass "`" "``json" body _ Hy).
  change ("" ++ body) with body.
  assert (Hcut : Providers.split_go "```" 0 "" (body ++ "```" ++ after)
                 = body :: Providers.split_go "```" 0 "" after).
  { rewrite (split_go_pass "`" "``" body _ Hy).
    exact (split_go_hit "`" "``" body after). }
  change (Providers.fence ++ after)
    with (String "`" (String "`" (String "`" after))).
  cbn [Providers.split_go].
  destruct (String.prefix (String "`" "``json") _).
  - cbn [List.nth]. unfold Providers.fence.
    now rewrite (split_go_no_sep "`" "``" "" body Hy).
  - destruct (json_fence_needs_three after Ha) as [H1 H2].
    change (String "`" "``json") with Providers.json_fence.
    rewrite H2. cbn [Providers.split_go]. rewrite H1.
    change Providers.json_fence with (String "`" "``json").
    rewrite (split_go_no_sep "`" "``json" _ after Ha).
    cbn [List.nth]. rewrite !append_assoc.
    change (String "`" "" ++ String "`" "" ++ String "`" "" ++ after)
      with ("```" ++ after).
    unfold Providers.fence. now rewrite Hcut.
Qed.

Lemma unfence_plain s :
  has_char "`" s = false -> Providers.unfence s = s.
Proof.
  intros Hs. unfold Providers.unfence.
  rewrite (no_char_no_str Providers.json_fence s "`" eq_refl Hs).
  now rewrite (no_char_no_str Providers.fence s "`" eq_refl Hs).
Qed.

Lemma strip_around before c mid d after :
  is_space c = false -> is_space d = false ->
  strip (before ++ String c mid ++ String d after)
  = lstrip before ++ String c mid ++ String d (rstrip after).
Proof.
  intros Hc Hd. unfold strip.
  rewrite append_cons, (lstrip_before_text before c _ Hc).
  rewrite <- append_cons, <- append_assoc.
  rewrite rstrip_after_text.
  - now rewrite (rstrip_cons_keep d after Hd), append_assoc.
  - now rewrite (rstrip_cons_keep d after Hd).
Qed.

(** X27. A reply with one [```json] fence: what stands before the fence and
    after
    its end is thrown away, whatever it is, and the schema and brace steps
    see the text inside the fence only. *)
Theorem fenced_reply_is_unwrapped before body after :
  has_char "`" before = false ->
  has_char "`" body = false ->
  has_char "`" after = false ->
  Providers.extract_json
    (before ++ Providers.json_fence ++ body ++ Providers.fence ++ after)
  = strip (Providers.trim_to_braces (Providers.drop_schema body)).
Proof.
  intros Hb Hy Ha. unfold Providers.extract_json. do 3 f_equal.
  assert (Hs : strip (before ++ Providers.json_fence ++ body
                      ++ Providers.fence ++ after)
               = lstrip before ++ Providers.json_fence ++ body
                 ++ Providers.fence ++ rstrip after).
  { assert (E : forall a,
               Providers.json_fence ++ body ++ Providers.fence ++ a
               = String "`" ("``json" ++ body ++ "``") ++ String "`" a).
    { intros a. rewrite append_cons, !append_assoc. reflexivity. }
    rewrite !E. now apply strip_around. }
  rewrite Hs. apply unfence_json; auto using has_char_lstrip, has_char_rstrip.
Qed.

(** X28. A reply without fence and without schema words that holds an object,
    with any text free of braces before and after it: the decoder receives
    the object, from its opening brace to its closing one. *)
Theorem plain_object_is_extracted before inner after :
  let reply := before ++ "{" ++ inner ++ "}" ++ after in
  has_char "`" reply = false ->
  str_in (dq ++ "$defs" ++ dq) reply = false ->
  str_in (dq ++ "properties" ++ dq) reply = false ->
  has_char "{" before = false ->
  has_char "}" after = false ->
  Providers.extract_json reply = "{" ++ inner ++ "}".
Proof.
  intros reply Htick Hdefs Hprops Hb Ha. unfold Providers.extract_json.
  rewrite unfence_plain.
  2:{ unfold strip. now apply has_char_rstrip, has_char_lstrip. }
  unfold Providers.drop_schema.
  rewrite (str_in_strip _ _ Hdefs), (str_in_strip _ _ Hprops). cbn [orb].
  assert (Hs : strip reply = lstrip before ++ "{" ++ inner ++ "}" ++ rstrip after).
  { exact (strip_around before "{" inner "}" after eq_refl eq_refl). }
  rewrite Hs, trim_to_braces_object;
    auto using has_char_lstrip, has_char_rstrip.
  apply strip_object.
Qed.

Lemma split_two sep s :
  sep <> "" -> str_in sep s = true ->
  exists a b rest, Providers.split sep s = a :: b :: rest.
Proof.
  intros Hsep Hin. pose proof (split_go_found sep s Hsep Hin "") as Hlen.
  unfold Providers.split.
  destruct (Providers.split_go sep 0 "" s) as [|a [|b rest]];
    cbn in Hlen; try lia.
  now exists a, b, rest.
Qed.

Lemma split_one sep s : exists a rest, Providers.split sep s = a :: rest.
Proof.
  pose proof (split_go_nonempty sep s 0 "") as Hlen. unfold Providers.split.
  destruct (Providers.split_go sep 0 "" s) as [|a rest]; cbn in Hlen; [lia|].
  now exists a, rest.
Qed.

(** X29. The fence step raises no IndexError: when a fence occurs in the reply,
    the split at it has a second piece, the split of that piece at [```] has
    a first one, and this is the text that is kept. The [```json] fence is
    looked for first. *)
Theorem unfence_subscripts_exist response :
  let kept sep :=
    exists a b rest c rest',
      Providers.split sep response = a :: b :: rest
      /\ Providers.split Providers.fence b = c :: rest'
      /\ Providers.unfence response = c in
  (str_in Providers.json_fence response = true -> kept Providers.json_fence)
  /\ (str_in Providers.json_fence response = false ->
      str_in Providers.fence response = true -> kept Providers.fence).
Proof.
  intros kept. subst kept. unfold Providers.unfence. split.
  - intros Hin. rewrite Hin.
    destruct (split_two Providers.json_fence response) as (a & b & rest & E);
      [discriminate | exact Hin |].
    destruct (split_one Providers.fence b) as (c & rest' & E').
    exists a, b, rest, c, rest'. rewrite E. cbn [List.nth]. now rewrite E'.
  - intros Hno Hin. rewrite Hno, Hin.
    destruct (split_two Providers.fence response) as (a & b & rest & E);
      [discriminate | exact Hin |].
    destruct (split_one Providers.fence b) as (c & rest' & E').
    exists a, b, rest, c, rest'. rewrite E. cbn [List.nth]. now rewrite E'.
Qed.

Section BaseProvider.
Context {W : Type}.
Variable generate : string -> option string -> W -> result string * W.
Variable decode : string -> result RouterResponse.t.
Variable repr : json -> string.

(** X30. With a provider that takes [generate_json] from the base class, [route]
    answers with the escalation when the model call raises and when the text
    cut out of the reply is rejected by the decoder; it does not raise and
    leaves the counters as they are. *)
Theorem undecodable_reply_escalates self query session_id (s : machine W)
    e w' :
  let call :=
    generate (Providers.full_prompt LLMRouter.SYSTEM_PROMPT query) None
      (world s) in
  call = (Raise e, w')
  \/ (exists reply,
        call = (Ok reply, w')
        /\ decode (Providers.extract_json reply) = Raise e) ->
  let out :=
    @LLMRouter.route W (Providers.provider generate decode) repr self query
      session_id s in
  fst out = Ok (LLMRouter._escalate query)
  /\ unclear_count (snd out) = unclear_count s
  /\ world (snd out) = w'.
Proof.
  intros call Hcall out. subst call out.
  rewrite (@route_failed W (Providers.provider generate decode) repr self
             query session_id s e w'); [now repeat split|].
  change (Providers.generate_json generate decode query LLMRouter.SYSTEM_PROMPT
            (world s) = (Raise e, w')).
  unfold Providers.generate_json.
  destruct Hcall as [-> | (reply & -> & ->)]; reflexivity.
Qed.

End BaseProvider.

(** ** The further properties at concrete inputs *)

Lemma faq_handle_loaded_data_witness :
  FAQData.as_base two_topics_data = Some two_topics
  /\ FAQData.handle Scripted.repr strict_message true (Some two_topics_data)
       hours_query (LLMRouter.start blank_script)
     = FAQAgent.handle (LLMRouter.faq_agent router0) hours_query
         (LLMRouter.start blank_script)
  /\ FAQAgent.score (lower hours_query)
       {| FAQAgent.keywords := ["hours"; "open"];
          FAQAgent.answer := "We are open 9am-9pm." |} = 1%Z
  /\ fst (FAQData.handle Scripted.repr strict_message true
            (Some damaged_base) hours_query (LLMRouter.start blank_script))
     = Raise TypeError.
Proof.
  split; [reflexivity|].
  destruct (faq_handle_loaded_data Scripted.repr strict_message true
              (Some two_topics_data) hours_query
              (LLMRouter.start blank_script)) as (Hmodel & _).
  destruct (faq_handle_loaded_data Scripted.repr strict_message true
              (Some damaged_base) hours_query
              (LLMRouter.start blank_script)) as (_ & _ & Hbad & _).
  split; [exact (proj1 (Hmodel two_topics_data two_topics eq_refl eq_refl))|].
  split; [reflexivity|].
  destruct (Hbad _ "returns"
              (JObj [("keywords", JList [JStr "return"; JInt 30]);
                     ("answer", JStr "Returns within 30 days.")])
              eq_refl) as [[Hrun | Hrun] _].
  - right. left. reflexivity.
  - reflexivity.
  - exact Hrun.
  - vm_compute in Hrun. discriminate Hrun.
Defined.

Lemma faq_answers_first_best_witness :
  (0 < FAQAgent.score (lower hours_query)
         {| FAQAgent.keywords := ["hours"; "open"];
            FAQAgent.answer := "We are open 9am-9pm." |})%Z
  /\ exists last,
       last_key two_topics = Some last
       /\ fst (FAQAgent.handle
                {| FAQAgent.llm := false;
                   FAQAgent.knowledge_base := Some two_topics |}
                hours_query (LLMRouter.start silent_script))
          = Ok (faq_answer "We are open 9am-9pm." last).
Proof.
  split; [reflexivity|].
  apply (faq_answers_first_best hours_query [] "hours"
           {| FAQAgent.keywords := ["hours"; "open"];
              FAQAgent.answer := "We are open 9am-9pm." |}
           [("returns", {| FAQAgent.keywords := ["return"; "refund"];
                           FAQAgent.answer := "Returns within 30 days." |})]
           (LLMRouter.start silent_script)).
  - reflexivity.
  - intros item [].
  - intros item [<- | []]. vm_compute. discriminate.
Defined.

Lemma faq_no_match_witness :
  FAQAgent.knowledge_base (LLMRouter.faq_agent router0) = Some two_topics
  /\ ((forall item, In item two_topics ->
         FAQAgent.score (lower "Do you sell gift cards?") (snd item) = 0%Z)
      <-> fst (FAQAgent.handle (LLMRouter.faq_agent router0)
                 "Do you sell gift cards?" (LLMRouter.start silent_script))
          = Ok faq_no_info).
Proof.
  split; [reflexivity|].
  apply (faq_no_match (LLMRouter.faq_agent router0) "Do you sell gift cards?"
           two_topics (LLMRouter.start silent_script)).
  reflexivity.
Defined.

Lemma empty_keyword_always_matches_witness :
  let kb := [("any", {| FAQAgent.keywords := [""];
                        FAQAgent.answer := "Ask us anything." |})] in
  exists message topic,
    fst (FAQAgent.handle
           {| FAQAgent.llm := false; FAQAgent.knowledge_base := Some kb |}
           "xyz" (LLMRouter.start silent_script))
    = Ok (faq_answer message topic).
Proof.
  cbn zeta.
  apply (empty_keyword_always_matches
           {| FAQAgent.llm := false;
              FAQAgent.knowledge_base :=
                Some [("any", {| FAQAgent.keywords := [""];
                                 FAQAgent.answer := "Ask us anything." |})] |}
           "xyz"
           [("any", {| FAQAgent.keywords := [""];
                       FAQAgent.answer := "Ask us anything." |})] "any"
           {| FAQAgent.keywords := [""];
              FAQAgent.answer := "Ask us anything." |}
           (LLMRouter.start silent_script));
    [reflexivity | left; reflexivity | left; reflexivity].
Defined.

Lemma blank_reply_gives_empty_message_witness :
  generate "Another request" None
    {| Scripted.classifications := [];
       Scripted.replies := [Ok "We are open from 9 to 9."] |}
  = (Ok "We are open from 9 to 9.", silent_script)
  /\ exists last,
       fst (FAQAgent.handle (LLMRouter.faq_agent router0) hours_query
              (LLMRouter.start blank_script))
       = Ok (faq_answer "" last).
Proof.
  split; [reflexivity|].
  apply (blank_reply_gives_empty_message (LLMRouter.faq_agent router0)
           hours_query two_topics
           {| FAQAgent.keywords := ["hours"; "open"];
              FAQAgent.answer := "We are open 9am-9pm." |}
           "   "
           {| Scripted.classifications := [];
              Scripted.replies := [Ok "We are open from 9 to 9."] |}
           (LLMRouter.start blank_script));
    reflexivity.
Defined.

Lemma format_order_missing_key_witness :
  order_items [("status", JStr "shipped")] = Some []
  /\ OrderAgent._format_order Scripted.repr (JObj [("status", JStr "shipped")])
     = Raise (KeyError "order_id").
Proof.
  split; [reflexivity|].
  apply (format_order_missing_key Scripted.repr [("status", JStr "shipped")]
           []); reflexivity.
Defined.

Lemma format_order_mixed_items_witness :
  OrderAgent._format_order Scripted.repr (JObj mixed_order)
  = Raise AttributeError.
Proof.
  apply (format_order_mixed_items Scripted.repr mixed_order
           [("name", JStr "Mouse")] [JStr "Keyboard"]); [reflexivity|].
  left. discriminate.
Defined.

Lemma order_without_id_asks_witness :
  OrderAgent._extract_order_id "Where is my order?" = None
  /\ fst (OrderAgent.handle Scripted.repr
            (LLMRouter.order_agent router_without_orders)
            "Where is my order?" None (LLMRouter.start silent_script))
     = Ok order_ask.
Proof.
  split; [reflexivity|].
  rewrite (order_without_id_asks Scripted.repr
             (LLMRouter.order_agent router_without_orders)
             "Where is my order?" None (LLMRouter.start silent_script));
    reflexivity.
Defined.

Lemma hint_is_used_verbatim_witness :
  dict_get "ord-12345" one_order = None
  /\ fst (OrderAgent.handle Scripted.repr (LLMRouter.order_agent router0)
            "Where is ORD-12345?" (Some "ord-12345")
            (LLMRouter.start silent_script))
     = Ok (order_missing "ord-12345").
Proof.
  split; [reflexivity|].
  apply (hint_is_used_verbatim Scripted.repr (LLMRouter.order_agent router0)
           "Where is ORD-12345?" "ord-12345" one_order
           (LLMRouter.start silent_script));
    [discriminate | reflexivity | reflexivity].
Defined.

Lemma order_found_outcome_witness :
  chosen_id "Where is ord-12345?" None = Some "ORD-12345"
  /\ fst (OrderAgent.handle Scripted.repr
            {| OrderAgent.llm := false; OrderAgent.orders := Some one_order |}
            "Where is ord-12345?" None (LLMRouter.start silent_script))
     = Ok (order_found
             "Order ORD-12345 (Mouse, Keyboard) is shipped. Tracking: 1Z999."
             shipped_order).
Proof.
  split; [reflexivity|].
  apply (order_found_outcome Scripted.repr
           {| OrderAgent.llm := false; OrderAgent.orders := Some one_order |}
           "Where is ord-12345?" None "ORD-12345" one_order shipped_order
           "shipped" ["Mouse"; "Keyboard"] (Some "1Z999") None
           (LLMRouter.start silent_script)); reflexivity.
Defined.

Lemma order_handle_errors_witness :
  fst (OrderAgent.handle Scripted.repr
         (LLMRouter.order_agent router_without_orders)
         "Where is ORD-12345?" None (LLMRouter.start silent_script))
  = Raise AttributeError
  /\ (AttributeError = AttributeError \/ AttributeError = TypeError
      \/ AttributeError = KeyError "order_id"
      \/ AttributeError = KeyError "status").
Proof.
  split; [reflexivity|].
  apply (order_handle_errors Scripted.repr
           (LLMRouter.order_agent router_without_orders)
           "Where is ORD-12345?" None AttributeError
           (LLMRouter.start silent_script)).
  reflexivity.
Defined.

Lemma extract_finds_embedded_id_witness :
  order_id_format "ORD-12345" = true
  /\ upper "ord-12345" = "ORD-12345"
  /\ OrderAgent._extract_order_id ("ord-12345" ++ " has not arrived")
     = Some "ORD-12345".
Proof.
  split; [reflexivity|]. split; [reflexivity|].
  apply (extract_finds_embedded_id "ORD-12345" "ord-12345"); reflexivity.
Defined.

Lemma route_escalated_only_by_escalation_witness :
  fst (LLMRouter.route Scripted.repr router0 "hi" "session-1"
         (LLMRouter.start failing_script))
  = Ok (LLMRouter._escalate "hi")
  /\ FinalResponse.query (LLMRouter._escalate "hi") = "hi".
Proof.
  split; [reflexivity|].
  apply (route_escalated_only_by_escalation Scripted.repr router0 "hi"
           "session-1" (LLMRouter.start failing_script)
           (LLMRouter._escalate "hi")).
  reflexivity.
Defined.

Lemma route_raises_only_from_handlers_witness :
  fst (LLMRouter.route Scripted.repr router_without_orders
         "Where is ORD-99999?" "session-1" (LLMRouter.start order_script))
  = Raise AttributeError
  /\ fst (OrderAgent.handle Scripted.repr
            (LLMRouter.order_agent router_without_orders)
            "Where is ORD-99999?" (Some "ORD-99999")
            (classified_state (LLMRouter.start order_script)
               "Where is ORD-99999?" silent_script))
     = Raise AttributeError
  /\ unclear_count
       (snd (LLMRouter.route Scripted.repr router_without_orders
               "Where is ORD-99999?" "session-1"
               (LLMRouter.start order_script)))
     = unclear_count (LLMRouter.start order_script).
Proof.
  split; [reflexivity|]. split; [reflexivity|].
  apply (route_raises_only_from_handlers Scripted.repr router_without_orders
           "Where is ORD-99999?" "session-1" (LLMRouter.start order_script)
           AttributeError).
  reflexivity.
Defined.

Lemma dispatch_response_witness :
  let s := LLMRouter.start order_script in
  generate_json "Where is ORD-99999?" LLMRouter.SYSTEM_PROMPT (world s)
  = (Ok order_answer, silent_script)
  /\ (RouterResponse.confidence order_answer <? 0.7)%float = false
  /\ unclear_count
       (snd (LLMRouter.route Scripted.repr router0 "Where is ORD-99999?"
               "session-1" s))
     = unclear_count s.
Proof.
  cbn zeta. split; [reflexivity|]. split; [reflexivity|].
  apply (dispatch_response Scripted.repr router0 "Where is ORD-99999?"
           "session-1" (LLMRouter.start order_script) order_answer
           silent_script); [reflexivity | discriminate | reflexivity].
Defined.

Lemma pending_survives_routes_witness :
  let s :=
    snd (LLMRouter.route Scripted.repr router0 "hi" "session-1"
           (LLMRouter.start twice_unclear_script)) in
  unclear_count s !! "session-1" = Some 1%Z
  /\ unclear_count
       (routes Scripted.repr router0 [("hello", "session-2")] s)
     !! "session-1" = Some 1%Z.
Proof.
  cbn zeta.
  assert (Hs : unclear_count
                 (snd (LLMRouter.route Scripted.repr router0 "hi" "session-1"
                         (LLMRouter.start twice_unclear_script)))
               !! "session-1" = Some 1%Z) by (vm_compute; reflexivity).
  split; [exact Hs|].
  apply (pending_survives_routes Scripted.repr router0
           [("hello", "session-2")] _ "session-1" 1%Z Hs). discriminate.
Defined.

Lemma route_session_isolation_witness :
  "session-2" <> "session-1"
  /\ unclear_count
       (snd (LLMRouter.route Scripted.repr router0 "hi" "session-1"
               (LLMRouter.start unclear_script)))
     !! "session-2"
     = unclear_count (LLMRouter.start unclear_script) !! "session-2".
Proof.
  split; [discriminate|].
  apply (route_session_isolation Scripted.repr router0 "hi" "session-1"
           (LLMRouter.start unclear_script) "session-2"). discriminate.
Defined.

Lemma two_strikes_witness :
  let s := LLMRouter.start interrupted_script in
  let s1 := snd (LLMRouter.route Scripted.repr router0 "hi" "session-1" s) in
  let between := [(hours_query, "session-1"); ("hello", "session-2")] in
  let s2 := routes Scripted.repr router0 between s1 in
  fst (LLMRouter.route Scripted.repr router0 hours_query "session-1" s1)
  = Ok (final hours_query
          {| RouterResponse.intent := FAQ;
             RouterResponse.confidence := 0.95;
             RouterResponse.entities := ∅;
             RouterResponse.reasoning := "" |}
          "We are open from 9 to 9.")
  /\ fst (LLMRouter.route Scripted.repr router0 "hi" "session-1" s)
     = Ok (clarification "hi" 0.3%float)
  /\ fst (LLMRouter.route Scripted.repr router0 "what?" "session-1" s2)
     = Ok (LLMRouter._escalate "what?").
Proof.
  cbn zeta. split; [vm_compute; reflexivity|].
  apply (two_strikes Scripted.repr router0 "hi" "what?" "session-1"
           [(hours_query, "session-1"); ("hello", "session-2")]
           (LLMRouter.start interrupted_script)
           unclear_answer
           {| Scripted.classifications :=
                [Scripted.classified FAQ 0.95 None;
                 Scripted.classified UNCLEAR 0.2 None;
                 Scripted.classified FAQ 0.4 None];
              Scripted.replies := [Ok "We are open from 9 to 9."] |}
           low_faq_answer silent_script);
    [reflexivity | reflexivity | left; reflexivity
     | vm_compute; reflexivity | right; reflexivity].
Defined.

Lemma route_unknown_order_witness :
  let s := LLMRouter.start order_script in
  dict_get "ORD-99999" one_order = None
  /\ fst (LLMRouter.route Scripted.repr router0 "Where is ORD-99999?"
            "session-1" s)
     = Ok (final "Where is ORD-99999?" order_answer
             (OrderAgent.not_found "ORD-99999")).
Proof.
  cbn zeta. split; [reflexivity|].
  apply (route_unknown_order Scripted.repr router0 "Where is ORD-99999?"
           "session-1" (LLMRouter.start order_script) order_answer
           silent_script "ORD-99999" one_order);
    [reflexivity | reflexivity | reflexivity | reflexivity | discriminate
     | reflexivity | reflexivity].
Defined.

Lemma load_test_cases_all_or_nothing_witness :
  Evaluate.load_test_cases (JObj test_file)
  = Ok [(JStr "What are your hours?", FAQ); (JStr "hi", UNCLEAR)].
Proof.
  apply (load_test_cases_all_or_nothing test_file test_cases); reflexivity.
Defined.


Lemma down_classifier : @classifier_down unit Down.provider.
Proof.
  intros prompt system_prompt w.
  exists (ProviderError "unreachable"), w. reflexivity.
Defined.

Lemma down_classifier_scores_unclear_witness :
  exists t,
    fst (Evaluate.evaluate_model Scripted.repr (Some two_topics)
           (Some one_order)
           [("What are your hours?", FAQ); ("hi", UNCLEAR)] tt)
    = Ok t
    /\ Evaluate.correct t = 1%Z
    /\ Evaluate.latencies t = 2.
Proof.
  apply (down_classifier_scores_unclear Scripted.repr (Some two_topics)
           (Some one_order)
           [("What are your hours?", FAQ); ("hi", UNCLEAR)] tt
           down_classifier).
Defined.

Lemma quit_ends_the_loop_witness :
  Main.is_quit (strip " Quit ") = true
  /\ Main.loop Scripted.repr router0 [" Quit "; "Where is ORD-12345?"] []
       (LLMRouter.start silent_script)
     = Main.loop Scripted.repr router0 [" Quit "] []
         (LLMRouter.start silent_script).
Proof.
  split; [reflexivity|].
  apply (quit_ends_the_loop Scripted.repr router0 [] " Quit "
           ["Where is ORD-12345?"] [] (LLMRouter.start silent_script)).
  reflexivity.
Defined.

Lemma blank_line_is_skipped_witness :
  blank "   " = true
  /\ Main.loop Scripted.repr router0 ["   "; "quit"] []
       (LLMRouter.start silent_script)
     = Main.loop Scripted.repr router0 ["quit"] []
         (LLMRouter.start silent_script).
Proof.
  split; [reflexivity|].
  apply (blank_line_is_skipped Scripted.repr router0 [] "   " ["quit"] []
           (LLMRouter.start silent_script)).
  reflexivity.
Defined.

Lemma fenced_reply_is_unwrapped_witness :
  Providers.extract_json
    (("Here is the JSON:" ++ nl) ++ Providers.json_fence
     ++ (nl ++ faq_object ++ nl) ++ Providers.fence ++ " Anything else?")
  = faq_object.
Proof.
  rewrite (fenced_reply_is_unwrapped ("Here is the JSON:" ++ nl)
             (nl ++ faq_object ++ nl) " Anything else?");
    reflexivity.
Defined.

Lemma plain_object_is_extracted_witness :
  Providers.extract_json
    ("Answer: " ++ "{" ++ faq_fields ++ "}" ++ " (as asked) ")
  = faq_object.
Proof.
  apply (plain_object_is_extracted "Answer: " faq_fields " (as asked) ");
    reflexivity.
Defined.

Lemma unfence_subscripts_exist_witness :
  exists a b rest c rest',
    Providers.split Providers.json_fence
      ("```json" ++ faq_object ++ "```") = a :: b :: rest
    /\ Providers.split Providers.fence b = c :: rest'
    /\ Providers.unfence ("```json" ++ faq_object ++ "```") = c.
Proof.
  apply (proj1 (unfence_subscripts_exist ("```json" ++ faq_object ++ "```"))).
  reflexivity.
Defined.

Lemma undecodable_reply_escalates_witness :
  let out :=
    @LLMRouter.route unit (Providers.provider refusing one_reply_decoder)
      Scripted.repr router0 "hello" "s1" (LLMRouter.start tt) in
  fst out = Ok (LLMRouter._escalate "hello")
  /\ unclear_count (snd out) = ∅
  /\ world (snd out) = tt.
Proof.
  apply (undecodable_reply_escalates refusing one_reply_decoder Scripted.repr
           router0 "hello" "s1" (LLMRouter.start tt)
           (ValueError "Could not parse JSON") tt).
  right. exists "I cannot answer that.". split; reflexivity.
Defined.
